(** * Student analytics: classification, derivation and aggregation rules

    A shallow embedding of the data pipeline of the repository
    (data/loader.py, data/processor.py, utils/calculations.py,
    api/dependencies.py and the API routes that rank subjects, report
    trends and return the overall indicators), with the properties its
    specification states and further properties of the code.

    Modelling conventions.
    - A Polars frame is a list of column names and a list of rows; a row
      maps column names to cells.  A cell is null, a text or a number.
    - Float64 and integer cells are modelled by the rational number they
      denote ([Qc], canonical rationals): arithmetic is exact, there is
      no rounding, NaN or infinity.
    - Texts are Rocq strings (byte sequences).  Case folding and the
      regular-expression class [\s] act on the ASCII range.
    - What Polars leaves to its text/number conversions is a parameter
      (class [Casts]); what it leaves unspecified (the order of groups
      and of equal sort keys when [maintain_order] is not requested) is
      modelled by the set of permitted outcomes.
    - An expression that names a column the frame does not have makes
      Polars raise; functions that can raise return a [result].
    - The numbers NumPy's unseeded generator hands out are an argument
      ([Entropy]) of the code that draws them.

    The model comes first; the properties follow from "Properties" on,
    one module of facts per part of the model. *)

From Stdlib Require Import QArith Qcanon ZArith Lia Ascii String List Sorting.Permutation Sorting.Sorted.
From stdpp Require Import base option gmap strings list numbers sorting pretty.

Local Open Scope string_scope.
Local Open Scope list_scope.

(** ** Texts *)

Module TextOps.

Definition ascii_lower (a : ascii) : ascii :=
  let n := nat_of_ascii a in
  if (65 <=? n)%nat && (n <=? 90)%nat then ascii_of_nat (n + 32) else a.

(** [str.to_lowercase] / Python's [str.lower]. *)
Fixpoint to_lowercase (s : string) : string :=
  match s with
  | EmptyString => EmptyString
  | String a s' => String (ascii_lower a) (to_lowercase s')
  end.

(** The class [\s]: tab, line feed, vertical tab, form feed, carriage
    return and space. *)
Definition is_space (a : ascii) : bool :=
  let n := nat_of_ascii a in
  ((9 <=? n)%nat && (n <=? 13)%nat) || (n =? 32)%nat.

Definition is_digit (a : ascii) : bool :=
  let n := nat_of_ascii a in (48 <=? n)%nat && (n <=? 57)%nat.

(** [prefix_ci p s]: the pattern [p] (lower case letters), read under
    the flag [(?i)], matches at the start of [s]. *)
Fixpoint prefix_ci (p s : string) : bool :=
  match p, s with
  | EmptyString, _ => true
  | String a p', String b s' =>
      if Ascii.eqb a (ascii_lower b) then prefix_ci p' s' else false
  | String _ _, EmptyString => false
  end.

Fixpoint drop_spaces (s : string) : string :=
  match s with
  | String a s' => if is_space a then drop_spaces s' else s
  | EmptyString => EmptyString
  end.

Fixpoint skip (n : nat) (s : string) : string :=
  match n, s with
  | O, _ => s
  | S n', String _ s' => skip n' s'
  | S _, EmptyString => EmptyString
  end.

(** [matches_somewhere m s]: the matcher [m] succeeds at some position
    of [s] (an unanchored regular-expression search). *)
Fixpoint matches_somewhere (m : string -> bool) (s : string) : bool :=
  m s || match s with
         | EmptyString => false
         | String _ s' => matches_somewhere m s'
         end.

(** [str.contains("(?i)(fail|sus)")]. *)
Definition contains_fail_or_sus (s : string) : bool :=
  matches_somewhere (fun t => prefix_ci "fail" t || prefix_ci "sus" t) s.

(** [not\s*applicable] at the start of [s], under [(?i)]. *)
Definition not_applicable_here (s : string) : bool :=
  prefix_ci "not" s && prefix_ci "applicable" (drop_spaces (skip 3 s)).

(** [str.contains("(?i)not\s*applicable|^na$")]: the sentinel occurs
    somewhere, or the whole text is "na" in any case. *)
Definition contains_not_applicable (s : string) : bool :=
  matches_somewhere not_applicable_here s || String.eqb (to_lowercase s) "na".

(** [str.replace_all("(?i)" ++ p, "")] for a literal pattern [p] (lower
    case letters, not empty): every occurrence of [p], in any case, is
    deleted, scanning from the left.  [n] counts the characters of
    the occurrence being deleted that are still to be dropped. *)
Fixpoint delete_all_ci_from (p : string) (n : nat) (s : string) : string :=
  match s with
  | EmptyString => EmptyString
  | String a s' =>
      match n with
      | S k => delete_all_ci_from p k s'
      | O => if prefix_ci p s
             then delete_all_ci_from p (String.length p - 1) s'
             else String a (delete_all_ci_from p 0 s')
      end
  end.

Definition delete_all_ci (p s : string) : string := delete_all_ci_from p 0 s.

End TextOps.

(** ** Cells, rows and frames *)

Inductive cell : Type :=
| Null
| Text (s : string)
| Num (q : Qc).

#[global] Instance cell_eq_dec : EqDecision cell.
Proof. solve_decision. Defined.

(** The conversions Polars performs in a non-strict cast between text
    and Float64: how a number is printed and which texts parse. *)
Class Casts : Type := {
  f64_to_str : Qc -> string;
  str_to_f64 : string -> option Qc
}.

(** A row of a frame: the cells by column name. *)
Abbreviation Row := (gmap string cell).

Record DataFrame : Type := mkFrame {
  columns : list string;
  rows : list Row
}.

(** What can go wrong when Polars evaluates an expression on a frame. *)
Inductive error : Type :=
| ColumnNotFoundError
| SchemaError
| DuplicateError.

Inductive result (A : Type) : Type :=
| Ok (a : A)
| Err (e : error).
Arguments Ok {A} a.
Arguments Err {A} e.

(** ** A conversion between decimal texts and numbers

    One instance of [Casts], used where a concrete conversion is needed:
    texts of the form [-]digits[.digits] parse, numbers print with their
    integer part and at most 17 decimals. *)

Module Decimal.

Definition digit_val (a : ascii) : Z := Z.of_nat (nat_of_ascii a) - 48.

(** The value and the number of the digits [s] starts with, and the
    rest of [s]. *)
Fixpoint digits (s : string) (acc : Z) (n : nat) : Z * nat * string :=
  match s with
  | String a s' =>
      if TextOps.is_digit a then digits s' (acc * 10 + digit_val a)%Z (S n)
      else (acc, n, s)
  | EmptyString => (acc, n, s)
  end.

Definition unsigned (s : string) : option Q :=
  let '(ip, n, rest) := digits s 0%Z 0%nat in
  match n, rest with
  | O, _ => None
  | _, EmptyString => Some (inject_Z ip)
  | _, String "." rest' =>
      let '(fp, m, rest'') := digits rest' 0%Z 0%nat in
      match rest'' with
      | EmptyString =>
          Some (Qplus (inject_Z ip) (Qmake fp (Pos.of_nat (Nat.pow 10 m))))
      | _ => None
      end
  | _, _ => None
  end.

Definition parse (s : string) : option Qc :=
  match s with
  | String "-" s' => (fun q => Q2Qc (Qopp q)) <$> unsigned s'
  | _ => Q2Qc <$> unsigned s
  end.

Definition digit_char (d : Z) : ascii := ascii_of_nat (Z.to_nat d + 48).

(** The decimals of [num / den], at most [fuel] of them. *)
Fixpoint decimals (fuel : nat) (num den : Z) : string :=
  match fuel with
  | O => EmptyString
  | S fuel' =>
      if (num =? 0)%Z then EmptyString
      else String (digit_char (num * 10 / den)) (decimals fuel' (num * 10 mod den) den)
  end.

Fixpoint nat_digits (fuel : nat) (n : Z) (acc : string) : string :=
  match fuel with
  | O => acc
  | S fuel' =>
      let acc' := String (digit_char (n mod 10)) acc in
      if (n / 10 =? 0)%Z then acc' else nat_digits fuel' (n / 10) acc'
  end.

Definition print (q : Qc) : string :=
  let num := Z.abs (Qnum q) in
  let den := Zpos (Qden q) in
  let ip := nat_digits (S (Z.to_nat (Z.log2 (num / den + 1)))) (num / den) "" in
  let fp := decimals 17 (num mod den) den in
  ((if (Qnum q <? 0)%Z then "-" else "")
     ++ ip ++ "." ++ (match fp with EmptyString => "0" | _ => fp end))%string.

Definition casts : Casts := {| f64_to_str := print; str_to_f64 := parse |}.

End Decimal.

Module Frame.

(** [len(df)], [df.height]. *)
Definition height (df : DataFrame) : nat := length (rows df).

(** [c in df.columns]. *)
Definition has_column (df : DataFrame) (c : string) : bool :=
  bool_decide (c ∈ columns df).

(** [pl.col(c)] on one row of a frame that has the column. *)
Definition col (c : string) (r : Row) : cell := default Null (r !! c).

(** [df.with_columns(e.alias(name))]: the column is replaced in place
    when it exists and appended otherwise; no row is added or dropped. *)
Definition with_column (name : string) (e : Row -> cell) (df : DataFrame) : DataFrame :=
  {| columns := if has_column df name then columns df else columns df ++ [name];
     rows := map (fun r => <[name := e r]> r) (rows df) |}.

(** [df.filter(p)]: the rows on which the predicate is true (a null
    predicate drops the row), in their order. *)
Definition filter_rows (p : Row -> option bool) (df : DataFrame) : DataFrame :=
  {| columns := columns df;
     rows := List.filter (fun r => bool_decide (p r = Some true)) (rows df) |}.

(** *** Expressions, cell by cell *)

(** A Float64 cell: null or a number. *)
Definition numeric (c : cell) : Prop := c = Null ∨ ∃ q, c = Num q.

Definition fill_null (d : cell) (c : cell) : cell :=
  match c with Null => d | _ => c end.

Section WithCasts.
Context `{Casts}.

(** [.cast(pl.Utf8, strict=False)] *)
Definition cast_utf8 (c : cell) : cell :=
  match c with
  | Null => Null
  | Text s => Text s
  | Num q => Text (f64_to_str q)
  end.

(** [.cast(pl.Float64, strict=False)]: a text that does not parse
    becomes null. *)
Definition cast_f64 (c : cell) : cell :=
  match c with
  | Null => Null
  | Num q => Num q
  | Text s => match str_to_f64 s with Some q => Num q | None => Null end
  end.
End WithCasts.

(** [.str.to_lowercase()] *)
Definition str_to_lowercase (c : cell) : cell :=
  match c with Text s => Text (TextOps.to_lowercase s) | _ => Null end.

(** [.eq(lit)] / [== lit] of a text column against a text literal;
    null on a null. *)
Definition eq_text (c : cell) (lit : string) : option bool :=
  match c with Text s => Some (String.eqb s lit) | _ => None end.

(** [.str.contains(pattern)] for a matcher of the pattern. *)
Definition str_contains (m : string -> bool) (c : cell) : option bool :=
  match c with Text s => Some (m s) | _ => None end.

(** Elementwise [+]: null when either operand is null. *)
Definition add (a b : cell) : cell :=
  match a, b with
  | Num x, Num y => Num (x + y)
  | _, _ => Null
  end.

(** [.ge(q)], [>= q] of a numeric cell. *)
Definition ge_num (c : cell) (q : Qc) : option bool :=
  match c with Num x => Some (bool_decide (q ≤ x)%Qc) | _ => None end.

Definition le_num (c : cell) (q : Qc) : option bool :=
  match c with Num x => Some (bool_decide (x ≤ q)%Qc) | _ => None end.

Definition gt_num (c : cell) (q : Qc) : option bool :=
  match c with Num x => Some (bool_decide (q < x)%Qc) | _ => None end.

Definition eq_num (c : cell) (q : Qc) : option bool :=
  match c with Num x => Some (bool_decide (x = q)) | _ => None end.

(** Elementwise [*] and [/] on Float64 (division is only applied under
    a guard that makes the divisor positive). *)
Definition mul (a b : cell) : cell :=
  match a, b with
  | Num x, Num y => Num (x * y)
  | _, _ => Null
  end.

Definition div (a b : cell) : cell :=
  match a, b with
  | Num x, Num y => Num (x / y)
  | _, _ => Null
  end.

(** [.str.replace_all("(?i)not applicable", "")] *)
Definition str_delete_all_ci (p : string) (c : cell) : cell :=
  match c with Text s => Text (TextOps.delete_all_ci p s) | _ => Null end.

(** The numbers among some cells, and [pl.concat_list(cols).list.mean()]:
    the mean of the numbers of the row in these columns (nulls are
    skipped), null when there is none. *)
Definition numbers (cs : list cell) : list Qc :=
  omap (fun c => match c with Num q => Some q | _ => None end) cs.

Definition sum_Qc (qs : list Qc) : Qc := fold_right Qcplus 0%Qc qs.

Definition mean_Qc (qs : list Qc) : cell :=
  match qs with
  | [] => Null
  | _ => Num (sum_Qc qs / Qc_of_Z (Z.of_nat (length qs)))
  end.

Definition list_mean (cs : list string) (r : Row) : cell :=
  mean_Qc (numbers (map (fun c => col c r) cs)).

(** [~p], [p & q] on nullable booleans (Kleene logic). *)
Definition not_ (p : option bool) : option bool := negb <$> p.

Definition and_ (p q : option bool) : option bool :=
  match p, q with
  | Some false, _ | _, Some false => Some false
  | Some true, Some true => Some true
  | _, _ => None
  end.

(** [pl.when(p).then(a).otherwise(b)]: [a] where [p] is true, [b]
    where it is false or null. *)
Definition when_then_otherwise (p : option bool) (a b : cell) : cell :=
  match p with Some true => a | _ => b end.

End Frame.

(** ** data/processor.py *)

Module Processor.
Import Frame.

Section WithCasts.
Context `{Casts}.

(** [pl.col("pass_fail").cast(pl.Utf8, strict=False).fill_null("").str.to_lowercase()] *)
Definition pass_fail_norm (r : Row) : cell :=
  str_to_lowercase (fill_null (Text "") (cast_utf8 (col "pass_fail" r))).

Definition theory_pct (r : Row) : cell :=
  fill_null (Num 0) (cast_f64 (col "theory_percentage" r)).

Definition practical_pct (r : Row) : cell :=
  fill_null (Num 0) (cast_f64 (col "practical_percentage" r)).

Definition total_pct (r : Row) : cell := add (theory_pct r) (practical_pct r).

(** The expression returned by [classify_performance_expr]. *)
Definition classify_performance_expr (r : Row) : cell :=
  when_then_otherwise (eq_text (pass_fail_norm r) "fail") (Text "Fail")
    (when_then_otherwise (ge_num (total_pct r) (Qc_of_Z 80)) (Text "Distinction")
       (when_then_otherwise (eq_text (pass_fail_norm r) "pass") (Text "Pass")
          Null)).

(** [base_expr] of [add_performance_column]: Fail, then Distinction
    (at 80 or more), then Pass. *)
Definition base_expr (r : Row) : cell :=
  when_then_otherwise (eq_text (pass_fail_norm r) "fail") (Text "Fail")
    (when_then_otherwise (ge_num (total_pct r) (Qc_of_Z 80)) (Text "Distinction")
       (when_then_otherwise (eq_text (pass_fail_norm r) "pass") (Text "Pass")
          Null)).

Definition result_columns : list string :=
  ["theory_result"; "theory_internal_result"; "practical_result";
   "practical_internal_result"].

Definition na_check (c : string) (r : Row) : option bool :=
  str_contains TextOps.contains_not_applicable
    (fill_null (Text "") (cast_utf8 (col c r))).

Definition fail_check (c : string) (r : Row) : option bool :=
  str_contains TextOps.contains_fail_or_sus (fill_null (Text "") (col c r)).

(** One turn of the loop over [result_columns]: a column of the frame
    that shows a failure and is not the sentinel forces "Fail". *)
Definition override (cols : list string) (final_expr : Row -> cell) (c : string)
  : Row -> cell :=
  if bool_decide (c ∈ cols)
  then fun r =>
         when_then_otherwise (and_ (not_ (na_check c r)) (fail_check c r))
           (Text "Fail") (final_expr r)
  else final_expr.

Definition final_expr (cols : list string) : Row -> cell :=
  fold_left (override cols) result_columns base_expr.


(** A percentage as the threshold check reads it: null (or a text
    that is no number) counts as 0. *)
Definition pct_or_zero (c : cell) : Qc :=
  match cast_f64 c with Num q => q | _ => 0%Qc end.

(** The columns the expressions read without testing for them. *)
Definition required_columns : list string :=
  ["pass_fail"; "theory_percentage"; "practical_percentage"].

(** [.str.contains] is applied to the result columns as they are:
    they have to be text columns. *)
Definition text_column (df : DataFrame) (c : string) : bool :=
  forallb (fun r => match col c r with Num _ => false | _ => true end) (rows df).

Definition add_performance_column (df : DataFrame) : result DataFrame :=
  if negb (forallb (has_column df) required_columns) then Err ColumnNotFoundError
  else if negb (forallb (fun c => negb (has_column df c) || text_column df c)
                  result_columns)
  then Err SchemaError
  else Ok (with_column "performance" (final_expr (columns df)) df).

End WithCasts.

End Processor.

(** ** data/loader.py: the derived columns *)

Module Loader.
Import Frame.

(** The four derived percentage fields, with the column each is stored
    in, its percentage column of the new format, the credit column that
    qualifies it, and the sources that are tried before the percentage
    column. *)
Inductive derived_field : Type :=
| CiaTheory
| CiaPractical
| EseTheory
| EsePractical.

Definition cia_theory_cols : list string :=
  ["cia1_theory_internal"; "cia2_theory_internal"; "cia3_theory_internal"].

Definition cia_prac_cols : list string :=
  ["cia1_practical_internal"; "cia2_practical_internal"; "cia3_practical_internal"].

Definition target (f : derived_field) : string :=
  match f with
  | CiaTheory => "cia_theory_avg"
  | CiaPractical => "cia_practical_avg"
  | EseTheory => "ese_theory_internal"
  | EsePractical => "ese_practical_internal"
  end.

Definition percentage_source (f : derived_field) : string :=
  match f with
  | CiaTheory => "theory_internal_percentage"
  | CiaPractical => "practical_internal_percentage"
  | EseTheory => "theory_ese_percentage"
  | EsePractical => "practical_ese_percentage"
  end.

Definition credit_qualifier (f : derived_field) : string :=
  match f with
  | CiaTheory | EseTheory => "theory_credit"
  | CiaPractical | EsePractical => "practical_credit"
  end.

Definition earlier_sources (f : derived_field) : list string :=
  match f with
  | CiaTheory => cia_theory_cols
  | CiaPractical => cia_prac_cols
  | EseTheory => ["ese_theory_internal"]
  | EsePractical => ["ese_practical_internal"]
  end.

(** The two totals and their components. *)
Inductive component : Type :=
| Theory
| Practical.

Definition total_col (k : component) : string :=
  match k with Theory => "total_theory_marks" | Practical => "total_practical_marks" end.

Definition cia_col (k : component) : string :=
  match k with Theory => "cia_theory_avg" | Practical => "cia_practical_avg" end.

Definition ese_col (k : component) : string :=
  match k with Theory => "ese_theory_internal" | Practical => "ese_practical_internal" end.

Section WithCasts.
Context `{Casts}.

(** [safe_percentage]: the text of the cell with the sentinel
    "Not Applicable" deleted, read as Float64. *)
Definition safe_percentage (col_name : string) (r : Row) : cell :=
  cast_f64 (str_delete_all_ci "not applicable" (cast_utf8 (col col_name r))).

(** [pl.when(pl.col(credit).cast(pl.Float64, strict=False) > 0)
       .then(safe_percentage(source)).otherwise(None)] *)
Definition credit_gated (credit source : string) (r : Row) : cell :=
  when_then_otherwise (gt_num (cast_f64 (col credit r)) 0%Qc)
    (safe_percentage source r) Null.

(** [pl.when(max > 0).then(obtained / max * 100.0).otherwise(None)] *)
Definition ratio_pct (obtained max : string) (r : Row) : cell :=
  when_then_otherwise (gt_num (cast_f64 (col max r)) 0%Qc)
    (mul (div (cast_f64 (col obtained r)) (cast_f64 (col max r)))
         (Num (Qc_of_Z 100)))
    Null.

(** CIA THEORY.  Every branch writes the column [cia_theory_avg];
    the first source available decides the expression. *)
Definition cia_theory_expr (df : DataFrame) : Row -> cell :=
  let existing_cia_theory := List.filter (has_column df) cia_theory_cols in
  match existing_cia_theory with
  | _ :: _ => list_mean existing_cia_theory
  | [] =>
      if has_column df "theory_internal_percentage" && has_column df "theory_credit"
      then credit_gated "theory_credit" "theory_internal_percentage"
      else if has_column df "theory_internal_percentage"
      then safe_percentage "theory_internal_percentage"
      else if has_column df "cia_theory_avg"
      then fun r => cast_f64 (col "cia_theory_avg" r)
      else if has_column df "cia_obtained" && has_column df "cia_max"
      then ratio_pct "cia_obtained" "cia_max"
      else fun _ => Null
  end.

Definition add_cia_theory (df : DataFrame) : DataFrame :=
  with_column "cia_theory_avg" (cia_theory_expr df) df.

(** CIA PRACTICAL *)
Definition cia_practical_expr (df : DataFrame) : Row -> cell :=
  let existing_cia_prac := List.filter (has_column df) cia_prac_cols in
  match existing_cia_prac with
  | _ :: _ => list_mean existing_cia_prac
  | [] =>
      if has_column df "practical_internal_percentage"
         && has_column df "practical_credit"
      then credit_gated "practical_credit" "practical_internal_percentage"
      else if has_column df "practical_internal_percentage"
      then safe_percentage "practical_internal_percentage"
      else if has_column df "cia_practical_avg"
      then fun r => cast_f64 (col "cia_practical_avg" r)
      else fun _ => Null
  end.

Definition add_cia_practical (df : DataFrame) : DataFrame :=
  with_column "cia_practical_avg" (cia_practical_expr df) df.

(** ESE THEORY *)
Definition ese_theory_expr (df : DataFrame) : Row -> cell :=
  if has_column df "ese_theory_internal"
  then fun r => cast_f64 (col "ese_theory_internal" r)
  else if has_column df "theory_ese_percentage" && has_column df "theory_credit"
  then credit_gated "theory_credit" "theory_ese_percentage"
  else if has_column df "theory_ese_percentage"
  then safe_percentage "theory_ese_percentage"
  else if has_column df "ese_obtainded" && has_column df "ese_max"
  then ratio_pct "ese_obtainded" "ese_max"
  else fun _ => Null.

Definition add_ese_theory (df : DataFrame) : DataFrame :=
  with_column "ese_theory_internal" (ese_theory_expr df) df.

(** ESE PRACTICAL *)
Definition ese_practical_expr (df : DataFrame) : Row -> cell :=
  if has_column df "ese_practical_internal"
  then fun r => cast_f64 (col "ese_practical_internal" r)
  else if has_column df "practical_ese_percentage" && has_column df "practical_credit"
  then credit_gated "practical_credit" "practical_ese_percentage"
  else if has_column df "practical_ese_percentage"
  then safe_percentage "practical_ese_percentage"
  else fun _ => Null.

Definition add_ese_practical (df : DataFrame) : DataFrame :=
  with_column "ese_practical_internal" (ese_practical_expr df) df.

(** Total marks: an existing column is kept (as Float64), otherwise
    the sum of the two components. *)
Definition total_expr (total a b : string) (df : DataFrame) : Row -> cell :=
  if has_column df total
  then fun r => cast_f64 (col total r)
  else fun r => add (col a r) (col b r).

Definition add_total (total a b : string) (df : DataFrame) : DataFrame :=
  with_column total (total_expr total a b df) df.

(** Overall total, weighted by the credits when they are present. *)
Definition credit_or_one (df : DataFrame) (c : string) (r : Row) : cell :=
  if has_column df c
  then fill_null (Num 1%Qc) (cast_f64 (col c r))
  else Num 1%Qc.

Definition weighted_total_expr (df : DataFrame) : Row -> cell :=
  if has_column df "total_theory_marks" && has_column df "total_practical_marks"
  then fun r =>
         add (mul (fill_null (Num 0%Qc) (cast_f64 (col "total_theory_marks" r)))
                  (credit_or_one df "theory_credit" r))
             (mul (fill_null (Num 0%Qc) (cast_f64 (col "total_practical_marks" r)))
                  (credit_or_one df "practical_credit" r))
  else fun _ => Null.

Definition add_weighted_total (df : DataFrame) : DataFrame :=
  with_column "weighted_total" (weighted_total_expr df) df.

(** [_add_derived_columns].  The pass that turns NaN into null is
    the identity here: the model has no NaN. *)
Definition _add_derived_columns (df : DataFrame) : DataFrame :=
  let df := add_cia_theory df in
  let df := add_cia_practical df in
  let df := add_ese_theory df in
  let df := add_ese_practical df in
  let df := add_total "total_theory_marks" "cia_theory_avg" "ese_theory_internal" df in
  let df := add_total "total_practical_marks" "cia_practical_avg"
              "ese_practical_internal" df in
  add_weighted_total df.

(** The stages of [_add_derived_columns], and what they make of a row. *)
Definition stage1 (df : DataFrame) : DataFrame := add_cia_theory df.
Definition stage2 (df : DataFrame) : DataFrame := add_cia_practical (stage1 df).
Definition stage3 (df : DataFrame) : DataFrame := add_ese_theory (stage2 df).
Definition stage4 (df : DataFrame) : DataFrame := add_ese_practical (stage3 df).
Definition stage5 (df : DataFrame) : DataFrame :=
  add_total "total_theory_marks" "cia_theory_avg" "ese_theory_internal" (stage4 df).
Definition stage6 (df : DataFrame) : DataFrame :=
  add_total "total_practical_marks" "cia_practical_avg" "ese_practical_internal" (stage5 df).

Definition row1 (df : DataFrame) (r : Row) : Row :=
  <["cia_theory_avg" := cia_theory_expr df r]> r.
Definition row2 (df : DataFrame) (r : Row) : Row :=
  <["cia_practical_avg" := cia_practical_expr (stage1 df) (row1 df r)]> (row1 df r).
Definition row3 (df : DataFrame) (r : Row) : Row :=
  <["ese_theory_internal" := ese_theory_expr (stage2 df) (row2 df r)]> (row2 df r).
Definition row4 (df : DataFrame) (r : Row) : Row :=
  <["ese_practical_internal" := ese_practical_expr (stage3 df) (row3 df r)]> (row3 df r).
Definition row5 (df : DataFrame) (r : Row) : Row :=
  <["total_theory_marks" :=
      total_expr "total_theory_marks" "cia_theory_avg" "ese_theory_internal"
        (stage4 df) (row4 df r)]> (row4 df r).
Definition row6 (df : DataFrame) (r : Row) : Row :=
  <["total_practical_marks" :=
      total_expr "total_practical_marks" "cia_practical_avg" "ese_practical_internal"
        (stage5 df) (row5 df r)]> (row5 df r).
Definition derived_row (df : DataFrame) (r : Row) : Row :=
  <["weighted_total" := weighted_total_expr (stage6 df) (row6 df r)]> (row6 df r).

End WithCasts.

End Loader.

(** ** data/processor.py: filtering *)

(** The [year_range] argument of [filter_data]: absent, the text "All",
    a list (or tuple) of numbers, or one number. *)
Inductive year_range_t : Type :=
| YearNone
| YearAll
| YearList (ys : list Qc)
| YearScalar (y : Qc).

(** The [semester] argument: a value [int()] accepts, with the integer
    it yields; or one of "All", [None], the empty text and the texts
    [int()] rejects, for which the filter is skipped. *)
Inductive semester_t : Type :=
| SemesterAll
| SemesterInt (n : Z).

Module Filtering.
Import Frame.

(** Python's [int(x)] on a number: the fraction is cut off. *)
Definition py_int (q : Qc) : Z := Z.quot (Qnum q) (Zpos (Qden q)).

(** [df.filter(p)] for a predicate that reads the column [c]. *)
Definition filter_on (c : string) (p : cell -> option bool) (df : DataFrame)
  : result DataFrame :=
  if has_column df c then Ok (filter_rows (fun r => p (col c r)) df)
  else Err ColumnNotFoundError.

(** A filter inside [try: ... except Exception:]: on an error the
    frame stays as it was. *)
Definition try_filter_on (c : string) (p : cell -> option bool) (df : DataFrame)
  : DataFrame :=
  match filter_on c p df with Ok df' => df' | Err _ => df end.

Definition bind {A B : Type} (x : result A) (f : A -> result B) : result B :=
  match x with Ok a => f a | Err e => Err e end.

Definition filter_year (year_range : year_range_t) (filtered : DataFrame)
  : result DataFrame :=
  match year_range with
  | YearList (lo :: hi :: _) =>
      filter_on "exam_year" (fun y => and_ (ge_num y lo) (le_num y hi)) filtered
  | YearList [y] | YearScalar y =>
      Ok (try_filter_on "exam_year" (fun c => eq_num c (Qc_of_Z (py_int y))) filtered)
  | YearList [] | YearNone | YearAll => Ok filtered
  end.

Definition filter_department (department : string) (filtered : DataFrame)
  : result DataFrame :=
  if negb (String.eqb department "") && negb (String.eqb department "All")
  then filter_on "department" (fun c => eq_text c department) filtered
  else Ok filtered.

Definition filter_semester (semester : semester_t) (filtered : DataFrame) : DataFrame :=
  match semester with
  | SemesterAll => filtered
  | SemesterInt semester_num =>
      try_filter_on "semester" (fun c => eq_num c (Qc_of_Z semester_num)) filtered
  end.

Definition filter_subject (subject : string) (filtered : DataFrame) : result DataFrame :=
  if negb (String.eqb subject "") && negb (String.eqb subject "All")
  then filter_on "subject" (fun c => eq_text c subject) filtered
  else Ok filtered.

(** The record has an exam year, and it lies between the two bounds,
    both included. *)
Definition in_year_range (lo hi : Qc) (r : Row) : bool :=
  match col "exam_year" r with
  | Num y => bool_decide (lo ≤ y)%Qc && bool_decide (y ≤ hi)%Qc
  | _ => false
  end.

Definition filter_data (df : DataFrame) (year_range : year_range_t)
    (department : string) (semester : semester_t) (subject : string)
  : result DataFrame :=
  bind (filter_year year_range df) (fun filtered =>
  bind (filter_department department filtered) (fun filtered =>
  filter_subject subject (filter_semester semester filtered))).

End Filtering.

(** ** Rounding to two decimals *)

Module Rounding.

(** Python's [round] to the nearest integer, halves to the even one. *)
Definition round_half_even (q : Qc) : Z :=
  let n := Qnum q in
  let d := Zpos (Qden q) in
  let f := (n / d)%Z in
  let r := (n mod d)%Z in
  match (2 * r ?= d)%Z with
  | Lt => f
  | Gt => (f + 1)%Z
  | Eq => if Z.even f then f else (f + 1)%Z
  end.

(** [round(x, 2)] *)
Definition round2 (q : Qc) : Qc :=
  (Qc_of_Z (round_half_even (q * Qc_of_Z 100)) / Qc_of_Z 100)%Qc.

(** A number of hundredths. *)
Definition centesimal (q : Qc) : Prop := ∃ z, q = (Qc_of_Z z / Qc_of_Z 100)%Qc.

End Rounding.

(** ** utils/calculations.py *)

Module Calculations.
Import Frame.

Section WithCasts.
Context `{Casts}.

(** [data[c].cast(pl.Utf8, strict=False).fill_null("").str.to_lowercase()] *)
Definition norm_of (c : string) (r : Row) : cell :=
  str_to_lowercase (fill_null (Text "") (cast_utf8 (col c r))).

(** [(series == lit).sum()]: the rows where the comparison is true. *)
Definition count_true (p : Row -> option bool) (rs : list Row) : nat :=
  length (List.filter (fun r => bool_decide (p r = Some true)) rs).

(** [series.n_unique()]: the distinct cells, null counted as one. *)
Definition n_unique (c : string) (rs : list Row) : nat :=
  length (remove_dups (map (col c) rs)).

(** [count / total_exams * 100] *)
Definition rate (count total : nat) : Qc :=
  (Qc_of_Z (Z.of_nat count) / Qc_of_Z (Z.of_nat total) * Qc_of_Z 100)%Qc.

(** The tuple [calculate_rates] returns. *)
Record rates : Type := mkRates {
  pass_rate : Qc;
  dist_rate : Qc;
  fail_rate : Qc;
  unique_students : nat;
  total_exams : nat
}.

Definition calculate_rates (data : DataFrame) : result rates :=
  if (height data =? 0)%nat then Ok (mkRates 0%Qc 0%Qc 0%Qc 0 0)
  else if negb (forallb (has_column data) ["student_id"; "pass_fail"; "performance"])
  then Err ColumnNotFoundError
  else
    let unique_students := n_unique "student_id" (rows data) in
    let total_exams := height data in
    let pass_count :=
      count_true (fun r => eq_text (norm_of "pass_fail" r) "pass") (rows data) in
    let fail_count :=
      count_true (fun r => eq_text (norm_of "pass_fail" r) "fail") (rows data) in
    let dist_count :=
      count_true (fun r => eq_text (col "performance" r) "Distinction") (rows data) in
    let pass_rate := if (0 <? total_exams)%nat then rate pass_count total_exams else 0%Qc in
    let dist_rate := if (0 <? total_exams)%nat then rate dist_count total_exams else 0%Qc in
    let fail_rate := if (0 <? total_exams)%nat then rate fail_count total_exams else 0%Qc in
    Ok (mkRates pass_rate dist_rate fail_rate unique_students total_exams).

End WithCasts.

End Calculations.

(** ** Grouping and sorting

    [group_by] without [maintain_order] returns the groups in an order
    Polars does not fix, and [sort] without [maintain_order] leaves the
    order of rows with equal keys open.  Both are modelled by the set of
    outcomes they permit. *)

Module Order.
Import Frame.

(** The sort key of a cell of a numeric column; nulls sort first. *)
Definition num_key (c : cell) : option Qc :=
  match c with Num q => Some q | _ => None end.

Definition key_le (descending : bool) (a b : option Qc) : Prop :=
  match a, b with
  | None, _ => True
  | Some _, None => False
  | Some x, Some y => if descending then (y ≤ x)%Qc else (x ≤ y)%Qc
  end.

#[global] Instance key_le_dec descending : RelDecision (key_le descending).
Proof.
  intros [x|] [y|]; simpl; try (left; exact I); try (right; intros []).
  destruct descending; apply _.
Defined.

Definition cell_le (descending : bool) (a b : cell) : Prop :=
  key_le descending (num_key a) (num_key b).

#[global] Instance cell_le_dec descending : RelDecision (cell_le descending).
Proof. intros a b. unfold cell_le. apply _. Defined.

(** The rows [a], [b] may follow each other in [df.sort(c, descending)]. *)
Definition row_le (c : string) (descending : bool) (a b : Row) : Prop :=
  cell_le descending (col c a) (col c b).

#[global] Instance row_le_dec c descending : RelDecision (row_le c descending).
Proof. intros a b. unfold row_le. apply _. Defined.

(** [out] is a permitted result of [df.sort(c, descending=...)]: the
    same rows, in an order that is sorted on the column. *)
Definition sort_outcome (c : string) (descending : bool) (df out : DataFrame) : Prop :=
  columns out = columns df
  ∧ rows df ≡ₚ rows out
  ∧ StronglySorted (row_le c descending) (rows out).

(** The distinct cells of a column, in the order of their first row. *)
Definition first_keys (cs : list cell) : list cell :=
  fold_left (fun acc x => if bool_decide (x ∈ acc) then acc else acc ++ [x]) cs [].

(** The rows of the group of key [k]. *)
Definition group (c : string) (k : cell) (rs : list Row) : list Row :=
  List.filter (fun r => bool_decide (col c r = k)) rs.

(** One row per group, the groups taken in the order of their first
    row (what [maintain_order=True] would return). *)
Definition groups_in_row_order (c : string) (agg : cell -> list Row -> Row)
    (rs : list Row) : list Row :=
  map (fun k => agg k (group c k rs)) (first_keys (map (col c) rs)).

(** [out] is a permitted result of [group_by(c).agg(...)]. *)
Definition group_by_outcome (c : string) (agg : cell -> list Row -> Row)
    (rs out : list Row) : Prop :=
  groups_in_row_order c agg rs ≡ₚ out.

(** [df.head(n)]; a negative [n] leaves out the last [|n|] rows. *)
Definition head_rows {A : Type} (n : Z) (l : list A) : list A :=
  if (0 <=? n)%Z then firstn (Z.to_nat n) l
  else firstn (length l - Z.to_nat (- n)) l.

End Order.

(** ** Subject difficulty: utils/calculations.py and api/routes/subjects.py *)

Module Difficulty.
Import Frame Order Calculations Rounding.

Section WithCasts.
Context `{Casts}.

Definition score_priority : list string :=
  ["total_theory_marks"; "cia_theory_avg"; "theory_percentage"; "ese_theory_internal"].

(** The first column of the priority list the frame has. *)
Definition score_col (df : DataFrame) : option string :=
  List.find (has_column df) score_priority.

Definition is_not_null (c : cell) : option bool :=
  Some (match c with Null => false | _ => true end).

(** The rows that enter the ranking: subject and score present. *)
Definition scored_rows (score : string) (df : DataFrame) : list Row :=
  rows (filter_rows (fun r => is_not_null (col score r))
          (filter_rows (fun r => is_not_null (col "subject" r))
             (with_column "_pass_fail_norm" (norm_of "pass_fail") df))).

(** The aggregates of one subject. *)
Definition difficulty_row (score : string) (subject : cell) (g : list Row) : Row :=
  <["subject" := subject]>
  (<["avg_total_marks" := mean_Qc (numbers (map (col score) g))]>
  (<["exam_count" := Num (Qc_of_Z (Z.of_nat (length g)))]>
  (<["pass_rate" :=
       Num (rate (count_true (fun r => eq_text (col "_pass_fail_norm" r) "pass") g)
                 (length g))]> ∅))).

Definition difficulty_columns : list string :=
  ["subject"; "avg_total_marks"; "exam_count"; "pass_rate"].

(** The permitted results of [get_subject_difficulty]. *)
Inductive get_subject_difficulty (df : DataFrame) : result DataFrame -> Prop :=
| difficulty_no_score :
    score_col df = None ->
    get_subject_difficulty df (Ok (mkFrame [] []))
| difficulty_missing_column score :
    score_col df = Some score ->
    has_column df "pass_fail" && has_column df "subject" = false ->
    get_subject_difficulty df (Err ColumnNotFoundError)
| difficulty_sorted score grouped difficulty :
    score_col df = Some score ->
    has_column df "pass_fail" && has_column df "subject" = true ->
    group_by_outcome "subject" (difficulty_row score) (scored_rows score df) grouped ->
    sort_outcome "avg_total_marks" false (mkFrame difficulty_columns grouped) difficulty ->
    get_subject_difficulty df (Ok difficulty).

(** One entry of the list the route returns. *)
Record ranking_entry : Type := mkEntry {
  rank : nat;
  subject : cell;
  avg_marks : Qc;
  difficulty : string;
  exam_count : Z;
  pass_rate : Qc
}.

Inductive response : Type :=
| Success (data : list ranking_entry)
| Failure (error_code : string).

(** The entry of a row; [round] and [int] fail on a null. *)
Definition entry_of (category : string) (i : nat) (row : Row) : option ranking_entry :=
  match col "avg_total_marks" row, col "exam_count" row, col "pass_rate" row with
  | Num avg, Num n, Num p =>
      Some (mkEntry i (col "subject" row) (round2 avg)
              (if String.eqb category "hardest" then "Hard" else "Easy")
              (Filtering.py_int n) (round2 p))
  | _, _, _ => None
  end.

(** [enumerate(rows, 1)] turned into entries. *)
Fixpoint entries_from (category : string) (i : nat) (rs : list Row)
  : option (list ranking_entry) :=
  match rs with
  | [] => Some []
  | row :: rs' =>
      match entry_of category i row, entries_from category (S i) rs' with
      | Some e, Some es => Some (e :: es)
      | _, _ => None
      end
  end.

(** The permitted results of the route [get_difficulty_ranking] on
    the frame [get_dataframe] returned. *)
Inductive get_difficulty_ranking (df : DataFrame) (limit : Z) (category : string)
  : response -> Prop :=
| ranking_difficulty_error e :
    get_subject_difficulty df (Err e) ->
    get_difficulty_ranking df limit category (Failure "ERR_SUBJ_003")
| ranking_sort_error subject_diff :
    get_subject_difficulty df (Ok subject_diff) ->
    has_column subject_diff "avg_total_marks" = false ->
    get_difficulty_ranking df limit category (Failure "ERR_SUBJ_003")
| ranking_entry_error subject_diff sorted :
    get_subject_difficulty df (Ok subject_diff) ->
    has_column subject_diff "avg_total_marks" = true ->
    sort_outcome "avg_total_marks" (String.eqb category "easiest") subject_diff sorted ->
    entries_from category 1 (head_rows limit (rows sorted)) = None ->
    get_difficulty_ranking df limit category (Failure "ERR_SUBJ_003")
| ranking_success subject_diff sorted subject_list :
    get_subject_difficulty df (Ok subject_diff) ->
    has_column subject_diff "avg_total_marks" = true ->
    sort_outcome "avg_total_marks" (String.eqb category "easiest") subject_diff sorted ->
    entries_from category 1 (head_rows limit (rows sorted)) = Some subject_list ->
    get_difficulty_ranking df limit category (Success subject_list).

End WithCasts.

End Difficulty.

(** ** Trends: api/routes/analytics.py *)

Module Analytics.
Import Frame Order Calculations Rounding.

Section WithCasts.
Context `{Casts}.

(** The per-year aggregates of the rows [g] of one year. *)
Definition yearly_row (exam_year : cell) (g : list Row) : Row :=
  let exam_count := length g in
  let pass_count := count_true (fun r => eq_text (col "_pass_fail_norm" r) "pass") g in
  let dist_count := count_true (fun r => eq_text (col "performance" r) "Distinction") g in
  <["exam_year" := exam_year]>
  (<["exam_count" := Num (Qc_of_Z (Z.of_nat exam_count))]>
  (<["pass_count" := Num (Qc_of_Z (Z.of_nat pass_count))]>
  (<["dist_count" := Num (Qc_of_Z (Z.of_nat dist_count))]>
  (<["pass_rate" := Num (rate pass_count exam_count)]>
  (<["distinction_rate" := Num (rate dist_count exam_count)]> ∅))))).

(** [group_by('exam_year').agg(...).sort('exam_year')]: one row per
    year; the years are distinct, so sorting them fixes the order
    whatever order the groups came in. *)
Definition yearly_trends (entity_rows : list Row) : list Row :=
  let rs := map (fun r => <["_pass_fail_norm" := norm_of "pass_fail" r]> r) entity_rows in
  map (fun y => yearly_row y (group "exam_year" y rs))
    (merge_sort (cell_le false) (first_keys (map (col "exam_year") rs))).

Record trend_point : Type := mkPoint {
  year : Z;
  exam_count : Z;
  pass_rate : Qc;
  distinction_rate : Qc;
  value : Qc
}.

Definition as_num (c : option cell) : option Qc :=
  match c with Some (Num q) => Some q | _ => None end.

(** One turn of the loop over [yearly_trends.iter_rows(named=True)];
    [None] where Python raises ([int(None)], a metric that is no key
    of the row).  [exam_year] is the Int32 column the loader builds: a
    cell of it is a number or null. *)
Definition trend_point_of (metric : string) (row : Row) : option trend_point :=
  y ← as_num (row !! "exam_year");
  n ← as_num (row !! "exam_count");
  p ← as_num (row !! "pass_rate");
  d ← as_num (row !! "distinction_rate");
  m ← as_num (row !! metric);
  Some (mkPoint (Filtering.py_int y) (Filtering.py_int n) (round2 p) (round2 d)
          (if String.eqb metric "exam_count" then Qc_of_Z (Filtering.py_int m)
           else round2 m)).

Definition trend_direction_of (first_val last_val : Qc) : string :=
  if bool_decide (first_val < last_val)%Qc then "upward"
  else if bool_decide (last_val < first_val)%Qc then "downward"
  else "stable".

Record trend_data : Type := mkTrend {
  trends : list trend_point;
  trend_direction : string;
  trend_change : Qc;
  latest_value : option Qc;
  earliest_value : option Qc
}.

(** The direction and the change of a list of points. *)
Definition summarise (trends : list trend_point) : trend_data :=
  match (1 <? length trends)%nat, head trends, last trends with
  | true, Some first, Some final =>
      mkTrend trends (trend_direction_of (value first) (value final))
        (round2 (value final - value first))
        (Some (value final)) (Some (value first))
  | _, _, _ =>
      mkTrend trends "stable" 0%Qc (value <$> last trends) (value <$> head trends)
  end.

Inductive response : Type :=
| Success (data : trend_data)
| Failure (error_code : string).

(** The route [get_trends] on the frame [get_dataframe] returned. *)
Definition get_trends (df : DataFrame) (entity_type entity_name metric : string)
  : response :=
  let col_name := if String.eqb entity_type "department" then "department" else "subject" in
  if negb (has_column df col_name) then Failure "ERR_ANA_004"
  else
    let entity_df := filter_rows (fun r => eq_text (col col_name r) entity_name) df in
    if (height entity_df =? 0)%nat then Failure "ERR_ANA_404"
    else if negb (forallb (has_column df) ["pass_fail"; "exam_year"; "performance"])
    then Failure "ERR_ANA_004"
    else
      match mapM (trend_point_of metric) (yearly_trends (rows entity_df)) with
      | Some trends => Success (summarise trends)
      | None => Failure "ERR_ANA_004"
      end.

End WithCasts.

End Analytics.

(** ** data/loader.py: loading *)

(** What [_validate_and_process] does to the values once the columns
    carry their standard names: the derivation of [exam_year] and
    [semester], the zero-filling of the internal marks and the
    normalisation of the subject names.  These are text manipulations of
    Polars; they enter as a parameter, which may fail. *)
Class ValueRules : Type := {
  normalise_values : DataFrame -> result DataFrame
}.

(** The numbers NumPy's generator hands out during one run of
    [_create_sample_data]: [choice k i] is the index drawn for element
    [i] by the [k]-th call of [np.random.choice] (reduced modulo the
    size of the population), [uniform k i] the fraction in [0, 1) drawn
    for element [i] by the [k]-th call of [np.random.uniform]. *)
Record Entropy : Type := mkEntropy {
  choice : nat -> nat -> nat;
  uniform : nat -> nat -> Qc
}.

Module Loading.
Import Frame Loader.

(** Python's [str.strip()], [.lower()] and [.replace(' ', '_')]. *)
Definition py_is_space (a : ascii) : bool :=
  let n := nat_of_ascii a in
  ((9 <=? n)%nat && (n <=? 13)%nat) || ((28 <=? n)%nat && (n <=? 32)%nat).

Fixpoint lstrip (s : string) : string :=
  match s with
  | String a s' => if py_is_space a then lstrip s' else s
  | EmptyString => EmptyString
  end.

Definition strip (s : string) : string :=
  String.rev (lstrip (String.rev (lstrip s))).

Fixpoint replace_char (old new : ascii) (s : string) : string :=
  match s with
  | String a s' => String (if Ascii.eqb a old then new else a) (replace_char old new s')
  | EmptyString => EmptyString
  end.

(** [col.strip().lower().replace(' ', '_')] *)
Definition normalise_name (c : string) : string :=
  replace_char " " "_" (TextOps.to_lowercase (strip c)).

(** [df.rename({col: f(col) for col in df.columns})]; Polars refuses
    a renaming that makes two columns share a name. *)
Definition rename_all (f : string -> string) (df : DataFrame) : result DataFrame :=
  let names := map f (columns df) in
  if bool_decide (NoDup names)
  then Ok {| columns := names;
             rows := map (fun r => list_to_map (map (fun c => (f c, col c r)) (columns df)))
                       (rows df) |}
  else Err DuplicateError.

(** [df.rename({old: new})], for a column [old] of the frame and a
    name [new] it does not have. *)
Definition rename_column (old new : string) (df : DataFrame) : DataFrame :=
  {| columns := map (fun c => if String.eqb c old then new else c) (columns df);
     rows := map (fun r => match r !! old with
                           | Some v => <[new := v]> (delete old r)
                           | None => r
                           end) (rows df) |}.

Definition column_map : list (string * list string) :=
  [("student_id", ["student_id"; "studentid"]);
   ("subject", ["subject"; "subject_name"; "name"]);
   ("department", ["department"; "dept"; "offering_department"]);
   ("exam_name", ["exam_name"; "exam"]);
   ("student_name", ["student_name"; "name"]);
   ("course_name", ["course_name"; "course"])].

(** One turn of the loop over [column_map]: the first variant the
    frame has is renamed to the standard name.  The second component
    records the choice (nothing when no variant was found). *)
Definition standardise (df : DataFrame) (entry : string * list string)
  : DataFrame * (string * option string) :=
  match List.find (has_column df) entry.2 with
  | Some variant =>
      (if String.eqb variant entry.1 then df else rename_column variant entry.1 df,
       (entry.1, Some variant))
  | None => (df, (entry.1, None))
  end.

(** The loop: the frame with standard names, and the mapping from
    standard names to the source columns chosen. *)
Definition resolve_columns_from (entries : list (string * list string))
    (df : DataFrame) : DataFrame * list (string * option string) :=
  fold_left (fun acc entry =>
               let step := standardise acc.1 entry in (step.1, acc.2 ++ [step.2]))
    entries (df, []).

Definition resolve_columns (df : DataFrame) : DataFrame * list (string * option string) :=
  resolve_columns_from column_map df.

Section WithParameters.
Context `{Casts} `{ValueRules}.

Definition _validate_and_process (df : DataFrame) : result DataFrame :=
  normalise_values (resolve_columns df).1.

(** *** The sample frame *)

Definition departments : list string :=
  ["LIFE SCIENCES"; "BUSINESS AND MANAGEMENT"; "COMMERCE"; "COMPUTER SCIENCE"].
Definition subjects : list string :=
  ["Mathematics"; "Physics"; "Chemistry"; "Business Studies"; "Economics"].
Definition years : list Z := [2019; 2020; 2021; 2022; 2023]%Z.
Definition semesters : list Z := [1; 2; 3; 4; 5; 6; 7; 8]%Z.
Definition courses : list string := ["BSc"; "BCom"; "BBA"; "BTech"].

Definition n_records : nat := 1000.

(** [np.random.choice(population, n)[i]] *)
Definition pick {A : Type} (d : A) (population : list A) (draw : nat) : A :=
  nth (draw mod length population) population d.

(** [np.random.uniform(lo, hi, n)[i]] *)
Definition between (lo hi : Z) (u : Qc) : Qc :=
  (Qc_of_Z lo + (Qc_of_Z hi - Qc_of_Z lo) * u)%Qc.

(** [f'{i:05d}'] *)
Definition pad5 (i : nat) : string :=
  let s := pretty i in
  (String.concat "" (repeat "0" (5 - String.length s)) ++ s)%string.

Definition sample_performance (r : Row) : cell :=
  when_then_otherwise (ge_num (col "total_theory_marks" r) (Qc_of_Z 85))
    (Text "Distinction")
    (when_then_otherwise (ge_num (col "total_theory_marks" r) (Qc_of_Z 50))
       (Text "Pass") (Text "Fail")).

Definition sample_row (rng : Entropy) (i : nat) : Row :=
  list_to_map
    [("student_id", Text ("ST" ++ pad5 i));
     ("subject", Text (pick "" subjects (choice rng 0 i)));
     ("department", Text (pick "" departments (choice rng 1 i)));
     ("exam_year", Num (Qc_of_Z (pick 0%Z years (choice rng 2 i))));
     ("semester", Num (Qc_of_Z (pick 0%Z semesters (choice rng 3 i))));
     ("cia_theory_avg", Num (between 10 30 (uniform rng 0 i)));
     ("ese_theory_internal", Num (between 20 70 (uniform rng 1 i)));
     ("total_theory_marks", Num (between 30 100 (uniform rng 2 i)));
     ("student_name", Text ("Student " ++ pretty i));
     ("course_name", Text (pick "" courses (choice rng 4 i)))].

Definition sample_columns : list string :=
  ["student_id"; "subject"; "department"; "exam_year"; "semester"; "cia_theory_avg";
   "ese_theory_internal"; "total_theory_marks"; "student_name"; "course_name"].

Definition _create_sample_data (rng : Entropy) : DataFrame :=
  with_column "performance" sample_performance
    {| columns := sample_columns;
       rows := map (sample_row rng) (seq 0 n_records) |}.

(** [load_data] on what [pl.read_csv] returns for the data file
    ([None] when there is no file to read).  Any exception of the
    processing is caught and answered with the sample frame. *)
Definition load_data (source : option DataFrame) (rng : Entropy) : DataFrame :=
  match source with
  | None => _create_sample_data rng
  | Some raw =>
      match Filtering.bind (rename_all normalise_name raw) _validate_and_process with
      | Ok df => _add_derived_columns df
      | Err _ => _create_sample_data rng
      end
  end.

End WithParameters.

End Loading.

(** ** api/dependencies.py *)

Module Dependencies.
Import Loading Processor.

(** The one slot of [lru_cache(maxsize=1)]: the frame of the last
    successful call, if any.  An exception is not cached. *)
Abbreviation Cache := (option DataFrame).

Section WithParameters.
Context `{Casts} `{ValueRules}.

Definition get_dataframe (source : option DataFrame) (rng : Entropy) (cache : Cache)
  : result DataFrame * Cache :=
  match cache with
  | Some df => (Ok df, cache)
  | None =>
      match add_performance_column (load_data source rng) with
      | Ok df => (Ok df, Some df)
      | Err e => (Err e, None)
      end
  end.

(** [get_dataframe.cache_clear()] *)
Definition reload_data (cache : Cache) : Cache := None.


End WithParameters.

End Dependencies.

(** ** Example frames *)

Module Examples.

(** A frame from its column names and, row by row, its cells in the
    order of the columns. *)
Definition frame_of (names : list string) (cells : list (list cell)) : DataFrame :=
  {| columns := names;
     rows := map (fun cs => list_to_map (zip names cs)) cells |}.

Definition num (z : Z) : cell := Num (Qc_of_Z z).

Definition classifier_columns : list string :=
  ["pass_fail"; "theory_percentage"; "practical_percentage"].


(** A passed record at exactly 80.0 (50 + 30), and one at 79.99. *)
Definition at_threshold : DataFrame :=
  frame_of classifier_columns
    [[Text "Pass"; num 50; num 30]; [Text "Pass"; Text "79.99"; Null]].

(** The four outcomes: a failure reported by a result column only, a
    distinction, a pass and a record that cannot be classified. *)
Definition four_outcomes : DataFrame :=
  frame_of (classifier_columns ++ ["theory_result"])
    [[Text "Pass"; num 90; num 5; Text "Suspended"];
     [Text "PASS"; num 45; num 40; Text "Pass"];
     [Text "pass"; num 40; num 20; Text "Not Applicable"];
     [Null; num 40; Null; Null]].

(** A theory-only subject in the old format: no practical credit, the
    practical marks entered as 0 and 55. *)
Definition theory_only_old_format : DataFrame :=
  frame_of ["practical_credit"; "cia1_practical_internal"; "ese_practical_internal"]
    [[num 0; num 0; num 55]].

(** A theory-only subject in the new format: no practical credit, the
    percentage columns filled all the same. *)
Definition theory_only_new_format : DataFrame :=
  frame_of ["practical_credit"; "practical_internal_percentage"; "practical_ese_percentage"]
    [[num 0; Text "45"; num 0]].

(** A table that brings its own total, without the components. *)
Definition with_own_total : DataFrame :=
  frame_of ["student_id"; "total_theory_marks"] [[Text "S1"; num 50]].

(** Two records of the new format: both theory components present,
    and the external one missing. *)
Definition two_components : DataFrame :=
  frame_of ["theory_internal_percentage"; "theory_ese_percentage"]
    [[Text "30.5"; num 40]; [num 30; Text "Not Applicable"]].

(** Records of the years 2019, 2020, 2022 and 2023, and one without a year. *)
Definition five_years : DataFrame :=
  frame_of ["student_id"; "exam_year"]
    [[Text "S1"; num 2019]; [Text "S2"; num 2020]; [Text "S3"; num 2022];
     [Text "S4"; num 2023]; [Text "S5"; Null]].

(** [n] records of the department CS in a year, [passed] of them passed. *)
Definition year_records (exam_year : Z) (n passed : nat) : list (list cell) :=
  repeat [Text "CS"; num exam_year; Text "Pass"; Null] passed
  ++ repeat [Text "CS"; num exam_year; Text "Fail"; Text "Fail"] (n - passed).

(** Three years of CS with pass rates of 70, 75 and 72 percent (the
    years 2020, 2021 and 2022; the records of 2021 come first). *)
Definition three_years : DataFrame :=
  frame_of ["department"; "exam_year"; "pass_fail"; "performance"]
    (year_records 2021 20 15 ++ year_records 2020 10 7 ++ year_records 2022 25 18).

(** The trend the route reports for them. *)
Definition three_years_trend : Analytics.trend_data :=
  match Analytics.get_trends (H := Decimal.casts) three_years "department" "CS" "pass_rate"
  with
  | Analytics.Success data => data
  | Analytics.Failure _ => Analytics.mkTrend [] "" 0%Qc None None
  end.

(** Subject A with 10 records and a mean of 60, subject B with 5
    records and a mean of 40. *)
Definition two_subjects : DataFrame :=
  frame_of ["subject"; "pass_fail"; "total_theory_marks"]
    (repeat [Text "A"; Text "Pass"; num 60] 10 ++ repeat [Text "B"; Text "Fail"; num 40] 5).

(** Two subjects with the same mean, X in the first row. *)
Definition tied_subjects : DataFrame :=
  frame_of ["subject"; "pass_fail"; "total_theory_marks"]
    [[Text "X"; Text "Pass"; num 50]; [Text "Y"; Text "Pass"; num 50]].

(** The aggregates of the subjects of a frame, in the order of their
    first rows. *)
Definition subject_groups (df : DataFrame) : list Row :=
  Order.groups_in_row_order "subject"
    (Difficulty.difficulty_row "total_theory_marks")
    (Difficulty.scored_rows (H := Decimal.casts) "total_theory_marks" df).

(** The mean score of an aggregate row, as a fraction. *)
Definition mean_of (r : Row) : option Q :=
  this <$> Order.num_key (Frame.col "avg_total_marks" r).

(** Values left as they are read. *)
Definition plain_values : ValueRules := {| normalise_values := Ok |}.

(** Two runs of NumPy's generator: one that always draws the first
    element and the lower bound, one that always draws the second
    element and the middle of the interval. *)
Definition low_draws : Entropy :=
  {| choice := fun _ _ => 0%nat; uniform := fun _ _ => 0%Qc |}.
Definition other_draws : Entropy :=
  {| choice := fun _ _ => 1%nat; uniform := fun _ _ => Q2Qc (1 # 2) |}.

(** A data file with two records, its headers as they are typed. *)
Definition data_file : DataFrame :=
  frame_of ["Student ID"; " Name"; "Dept"; "Pass_Fail"; "Theory_Percentage";
            "Practical_Percentage"]
    [[Text "S1"; Text "Algebra"; Text "MATHS"; Text "Pass"; num 50; num 40];
     [Text "S2"; Text "Algebra"; Text "MATHS"; Text "Fail"; num 90; num 90]].

(** A group without records. *)
Definition no_records : DataFrame := frame_of [] [].

(** The frame [add_performance_column] makes of a frame it accepts,
    texts and numbers converted as decimals. *)
Definition classified (df : DataFrame) : DataFrame :=
  Frame.with_column "performance"
    (Processor.final_expr (H := Decimal.casts) (columns df)) df.

(** The row of a frame at an index (the empty row past the end). *)
Definition row_at (df : DataFrame) (i : nat) : Row := default ∅ (rows df !! i).

End Examples.

(** ** The rows a filter selects

    The tests [filter_data] applies, read off its four stages and
    written as one test on a record; and the types the loader gives
    the four columns it compares. *)

Module Selection.
Import Frame Filtering.

(** [df.filter] by a test that is true or false on every row. *)
Definition keep (q : Row -> bool) (df : DataFrame) : DataFrame :=
  {| columns := columns df; rows := List.filter q (rows df) |}.

Definition year_selects (year_range : year_range_t) (r : Row) : bool :=
  match year_range with
  | YearList (lo :: hi :: _) => in_year_range lo hi r
  | YearList [y] | YearScalar y =>
      bool_decide (col "exam_year" r = Num (Qc_of_Z (py_int y)))
  | YearList [] | YearNone | YearAll => true
  end.

Definition text_selects (c wanted : string) (r : Row) : bool :=
  if negb (String.eqb wanted "") && negb (String.eqb wanted "All")
  then bool_decide (col c r = Text wanted)
  else true.

Definition semester_selects (semester : semester_t) (r : Row) : bool :=
  match semester with
  | SemesterAll => true
  | SemesterInt n => bool_decide (col "semester" r = Num (Qc_of_Z n))
  end.

Definition selects (year_range : year_range_t) (department : string)
    (semester : semester_t) (subject : string) (r : Row) : bool :=
  year_selects year_range r && text_selects "department" department r
  && semester_selects semester r && text_selects "subject" subject r.

(** A column of a numeric type: no cell is a text. *)
Definition holds_numbers (c : string) (df : DataFrame) : bool :=
  forallb (fun r => match col c r with Text _ => false | _ => true end) (rows df).

(** A column of type Utf8: no cell is a number. *)
Definition holds_texts (c : string) (df : DataFrame) : bool :=
  forallb (fun r => match col c r with Num _ => false | _ => true end) (rows df).

End Selection.

(** ** More example frames *)

Module Cases.
Import Examples.

(** Six exam records of four students in two departments. *)
Definition records : DataFrame :=
  frame_of ["student_id"; "exam_year"; "department"; "semester"; "subject";
            "pass_fail"; "performance"]
    [[Text "S1"; num 2020; Text "CS"; num 1; Text "Algebra"; Text "Pass"; Text "Distinction"];
     [Text "S1"; num 2021; Text "CS"; num 2; Text "Logic"; Text "FAIL"; Text "Fail"];
     [Text "S2"; num 2021; Text "CS"; num 1; Text "Algebra"; Text "pass"; Text "Pass"];
     [Text "S3"; num 2021; Text "EE"; num 1; Text "Algebra"; Text "Pass"; Text "Pass"];
     [Text "S4"; num 2022; Text "CS"; num 1; Text "Algebra"; Text "Absent"; Null];
     [Text "S2"; num 2022; Text "CS"; num 1; Text "Logic"; Text "Pass"; Text "Distinction"]].


(** The rates [calculate_rates] returns for a frame it accepts, texts
    and numbers converted as decimals. *)
Definition rates_of (df : DataFrame) : Calculations.rates :=
  match Calculations.calculate_rates (H := Decimal.casts) df with
  | Ok rs => rs
  | Err _ => Calculations.mkRates 0%Qc 0%Qc 0%Qc 0 0
  end.

End Cases.

(** ** The columns [_add_derived_columns] writes *)

Module Derived.

(** In the order in which they are written. *)
Definition derived_columns : list string :=
  ["cia_theory_avg"; "cia_practical_avg"; "ese_theory_internal"; "ese_practical_internal";
   "total_theory_marks"; "total_practical_marks"; "weighted_total"].

(** A frame of the old format with the marks obtained and their
    maxima: 18 of 20, marks without a maximum, and a maximum of 0. *)
Definition old_format : DataFrame :=
  Examples.frame_of ["student_id"; "cia_obtained"; "cia_max"; "ese_obtainded"; "ese_max"]
    [[Text "S1"; Examples.num 18; Examples.num 20; Text "30"; Examples.num 60];
     [Text "S2"; Examples.num 18; Null; Examples.num 30; Examples.num 60];
     [Text "S3"; Examples.num 18; Examples.num 0; Null; Examples.num 60]].

(** A record of the new format whose practical percentages are not
    applicable, with a practical credit all the same. *)
Definition no_practical : DataFrame :=
  Examples.frame_of
    ["practical_credit"; "practical_internal_percentage"; "practical_ese_percentage"]
    [[Examples.num 2; Text "NOT APPLICABLE"; Text "Not Applicable"]].

(** The second record of the two components, with its derived columns. *)
Definition external_missing : Row :=
  Examples.row_at
    (Loader._add_derived_columns (H := Decimal.casts) Examples.two_components) 1.

End Derived.

(** ** The records of an entity and the keys of the yearly aggregates *)

Module Entities.
Import Frame.

(** The column [get_trends] compares with the entity name. *)
Definition entity_column (entity_type : string) : string :=
  if String.eqb entity_type "department" then "department" else "subject".

(** The records of the entity. *)
Definition entity_rows (df : DataFrame) (entity_type entity_name : string) : list Row :=
  List.filter (fun r => bool_decide (col (entity_column entity_type) r = Text entity_name))
    (rows df).

(** The keys of a row of [yearly_trends]. *)
Definition yearly_keys : list string :=
  ["exam_year"; "exam_count"; "pass_count"; "dist_count"; "pass_rate"; "distinction_rate"].

(** The sum of some integers. *)
Definition total (zs : list Z) : Z := fold_right Z.add 0%Z zs.

Section WithCasts.
Context `{Casts}.

(** The rows [yearly_trends] groups, and the years it finds. *)
Definition normed (rs : list Row) : list Row :=
  map (fun r => <["_pass_fail_norm" := Calculations.norm_of "pass_fail" r]> r) rs.

Definition years_of (rs : list Row) : list cell :=
  merge_sort (Order.cell_le false)
    (Order.first_keys (map (col "exam_year") (normed rs))).

End WithCasts.

(** A ranking of the two subjects, the hardest first. *)
Definition hardest_two : list Difficulty.ranking_entry :=
  default [] (Difficulty.entries_from "hardest" 1
                (Order.head_rows 50 (reverse (Examples.subject_groups Examples.two_subjects)))).

End Entities.

(** ** Files for the column resolution *)

Module Files.

(** The loop of [resolve_columns_from] from a state on. *)
Abbreviation resolve_columns_step :=
  (fold_left (fun acc entry =>
                let step := Loading.standardise acc.1 entry in
                (step.1, acc.2 ++ [step.2]))).

(** A file whose only name column is called "name". *)
Definition with_a_name : DataFrame :=
  Examples.frame_of ["studentid"; "name"; "dept"; "pass_fail"]
    [[Text "S1"; Text "Algebra"; Text "MATHS"; Text "Pass"];
     [Text "S2"; Text "Logic"; Text "CS"; Text "Fail"]].

(** A file with two headers that normalise to the same name. *)
Definition colliding_headers : DataFrame :=
  Examples.frame_of ["Student ID"; "student_id "] [[Text "S1"; Text "S1"]].

(** The frame the pipeline serves for the data file of two records. *)
Definition served : DataFrame :=
  match (Dependencies.get_dataframe (H := Decimal.casts) (H0 := Examples.plain_values)
           (Some Examples.data_file) Examples.low_draws None).1 with
  | Ok df => df
  | Err _ => Examples.no_records
  end.

End Files.

(** ** data/processor.py: the options of the filters *)

(** What a Python function does besides returning: it raises an error
    of Polars, or the [TypeError] of a comparison between a text and a
    number. *)
Inductive raised : Type :=
| PolarsError (e : error)
| PyTypeError.

Inductive outcome (A : Type) : Type :=
| Returns (a : A)
| Raises (r : raised).
Arguments Returns {A} a.
Arguments Raises {A} r.

Module Options.
Import Frame.

(** Python's [<=] on the values of a column: texts by their
    characters, numbers by their value.  [sorted] is applied to values
    of one type only (see [py_sorted]); the cases in which the types
    differ are there to make the relation a total order. *)
Definition py_le (a b : cell) : Prop :=
  match a, b with
  | Null, _ => True
  | _, Null => False
  | Text s, Text t => String.leb s t = true
  | Text _, Num _ => True
  | Num _, Text _ => False
  | Num x, Num y => (x ≤ y)%Qc
  end.

#[global] Instance py_le_dec : RelDecision py_le.
Proof. intros [|s|x] [|t|y]; simpl; apply _. Defined.

Definition is_text (c : cell) : bool := match c with Text _ => true | _ => false end.
Definition is_num (c : cell) : bool := match c with Num _ => true | _ => false end.

(** [sorted(values)]: a [TypeError] unless the values are all texts or
    all numbers. *)
Definition py_sorted (values : list cell) : option (list cell) :=
  if forallb is_text values || forallb is_num values
  then Some (merge_sort py_le values)
  else None.

(** [df[c].unique().to_list()]: the distinct cells of the column.
    Polars does not fix their order; they are sorted before they are
    used, and distinct values of one type have one sorted order. *)
Definition unique_values (c : string) (df : DataFrame) : list cell :=
  remove_dups (map (col c) (rows df)).

(** [v is not None] and [v not in (None, "")]. *)
Definition is_not_none (v : cell) : bool :=
  match v with Null => false | _ => true end.

Definition is_not_blank (v : cell) : bool :=
  match v with Null => false | Text s => negb (String.eqb s "") | Num _ => true end.

(** The dictionary [get_filter_options] returns. *)
Record filter_options : Type := mkOptions {
  years : list cell;
  departments : list cell;
  semesters : list cell;
  subjects : list cell
}.

Definition get_filter_options (df : DataFrame) : outcome filter_options :=
  let subjects :=
    if has_column df "subject"
    then default [] (py_sorted (List.filter is_not_blank (unique_values "subject" df)))
    else [] in
  if negb (has_column df "exam_year") then Raises (PolarsError ColumnNotFoundError)
  else
    let years := List.filter is_not_none (unique_values "exam_year" df) in
    if negb (has_column df "department") then Raises (PolarsError ColumnNotFoundError)
    else
      let departments := List.filter is_not_blank (unique_values "department" df) in
      if negb (has_column df "semester") then Raises (PolarsError ColumnNotFoundError)
      else
        let semesters := List.filter is_not_none (unique_values "semester" df) in
        match py_sorted years, py_sorted departments, py_sorted semesters with
        | Some years, Some departments, Some semesters =>
            Returns (mkOptions (Text "All" :: reverse years)
                       (Text "All" :: departments)
                       (Text "All" :: semesters)
                       (Text "All" :: subjects))
        | _, _, _ => Raises PyTypeError
        end.

(** [l] lists the values of the column [c] that pass the test [keep]:
    each of them once, in the order [R]. *)
Definition lists_values (keep : cell -> bool) (R : relation cell) (c : string)
    (df : DataFrame) (l : list cell) : Prop :=
  NoDup l ∧ StronglySorted R l
  ∧ ∀ v, v ∈ l <-> keep v = true ∧ v ∈ map (col c) (rows df).

(** The options of a frame for which [get_filter_options] returns. *)
Definition options_of (df : DataFrame) : filter_options :=
  match get_filter_options df with
  | Returns options => options
  | Raises _ => mkOptions [] [] [] []
  end.

End Options.

(** ** utils/calculations.py: the departments *)

Module Departments.
Import Frame Order Calculations.

Section WithCasts.
Context `{Casts}.

(** The aggregates of one department. *)
Definition department_row (department : cell) (g : list Row) : Row :=
  let exams := length g in
  let pass_count := count_true (fun r => eq_text (col "_pass_fail_norm" r) "pass") g in
  <["department" := department]>
  (<["students" := Num (Qc_of_Z (Z.of_nat (n_unique "student_id" g)))]>
  (<["exams" := Num (Qc_of_Z (Z.of_nat exams))]>
  (<["pass_count" := Num (Qc_of_Z (Z.of_nat pass_count))]>
  (<["pass_rate" := Num (rate pass_count exams)]> ∅)))).

Definition stats_columns : list string :=
  ["department"; "students"; "exams"; "pass_count"; "pass_rate"].

(** The permitted results of [get_department_stats]: one row per
    department, in an order that is sorted on the pass rate. *)
Inductive get_department_stats (df : DataFrame) : result DataFrame -> Prop :=
| stats_missing_column :
    forallb (has_column df) ["pass_fail"; "department"; "student_id"] = false ->
    get_department_stats df (Err ColumnNotFoundError)
| stats_sorted grouped dept_stats :
    forallb (has_column df) ["pass_fail"; "department"; "student_id"] = true ->
    group_by_outcome "department" department_row (Entities.normed (rows df)) grouped ->
    sort_outcome "pass_rate" false (mkFrame stats_columns grouped) dept_stats ->
    get_department_stats df (Ok dept_stats).

(** [df.head(n)], [df.with_columns(pl.lit(category).alias("category"))]
    and [pl.concat([a, b])] of two frames with the same columns. *)
Definition head (n : Z) (df : DataFrame) : DataFrame :=
  mkFrame (columns df) (head_rows n (rows df)).

Definition labelled (category : string) (df : DataFrame) : DataFrame :=
  with_column "category" (fun _ => Text category) df.

Definition concat (a b : DataFrame) : DataFrame :=
  mkFrame (columns a) (rows a ++ rows b).

(** The dictionary [get_department_leaderboard] returns: empty, or
    with the keys top, bottom and combined. *)
Inductive leaderboard : Type :=
| NoBoard
| Board (top bottom combined : DataFrame).

(** The permitted results of [get_department_leaderboard]. *)
Inductive get_department_leaderboard (df : DataFrame) (top_n : Z)
  : result leaderboard -> Prop :=
| board_error e :
    get_department_stats df (Err e) ->
    get_department_leaderboard df top_n (Err e)
| board_empty stats :
    get_department_stats df (Ok stats) ->
    height stats = 0 ->
    get_department_leaderboard df top_n (Ok NoBoard)
| board_full stats descending ascending combined :
    get_department_stats df (Ok stats) ->
    height stats ≠ 0 ->
    sort_outcome "pass_rate" true stats descending ->
    sort_outcome "pass_rate" false stats ascending ->
    sort_outcome "pass_rate" false
      (concat (labelled "Bottom" (head top_n ascending))
              (labelled "Top" (head top_n descending)))
      combined ->
    get_department_leaderboard df top_n
      (Ok (Board (labelled "Top" (head top_n descending))
                 (labelled "Bottom" (head top_n ascending))
                 combined)).

(** The departments a frame of aggregates lists. *)
Definition listed (df : DataFrame) : list cell := map (col "department") (rows df).

End WithCasts.

(** Three departments: CS with 2 of 3 passed, EE with 1 of 1 and ME
    with 0 of 2. *)
Definition three_departments : DataFrame :=
  Examples.frame_of ["student_id"; "department"; "pass_fail"]
    [[Text "S1"; Text "CS"; Text "Pass"]; [Text "S2"; Text "CS"; Text "Fail"];
     [Text "S3"; Text "EE"; Text "pass"]; [Text "S4"; Text "ME"; Text "Fail"];
     [Text "S5"; Text "CS"; Text "PASS"]; [Text "S4"; Text "ME"; Null]].

(** Their aggregates in the order of their first rows. *)
Definition three_stats : list Row :=
  groups_in_row_order "department" department_row
    (Entities.normed (H := Decimal.casts) (rows three_departments)).

(** The aggregates by ascending pass rate: ME, CS, EE. *)
Definition three_ascending : DataFrame :=
  mkFrame stats_columns (merge_sort (row_le "pass_rate" false) three_stats).

Definition three_descending : DataFrame :=
  mkFrame stats_columns (merge_sort (row_le "pass_rate" true) three_stats).

(** A leaderboard of the two best and the two worst of them. *)
Definition three_top : DataFrame := labelled "Top" (head 2 three_descending).
Definition three_bottom : DataFrame := labelled "Bottom" (head 2 three_ascending).
Definition three_combined : DataFrame :=
  mkFrame (stats_columns ++ ["category"])
    (merge_sort (row_le "pass_rate" false) (rows (concat three_bottom three_top))).

End Departments.

(** ** api/routes/kpis.py: the overall indicators *)

Module Kpis.
Import Frame Filtering Calculations Rounding.

(** The fields of [KPIResponse] that depend on the data. *)
Record kpi : Type := mkKpi {
  pass_rate : Qc;
  fail_rate : Qc;
  distinction_rate : Qc;
  unique_students : nat;
  total_exams : nat
}.

Inductive response : Type :=
| Success (data : kpi)
| Failure (error_code : string).

Section WithCasts.
Context `{Casts}.

(** [if year: df = df.filter(pl.col('exam_year') == year)]: no year
    and the year 0 leave the frame as it is. *)
Definition filter_kpi_year (year : option Z) (df : DataFrame) : result DataFrame :=
  match year with
  | Some y =>
      if (y =? 0)%Z then Ok df
      else filter_on "exam_year" (fun c => eq_num c (Qc_of_Z y)) df
  | None => Ok df
  end.

(** [if department: df = df.filter(pl.col('department') == department)] *)
Definition filter_kpi_department (department : option string) (df : DataFrame)
  : result DataFrame :=
  match department with
  | Some d =>
      if String.eqb d "" then Ok df
      else filter_on "department" (fun c => eq_text c d) df
  | None => Ok df
  end.

(** The route [get_overall_kpis] on what [get_dataframe] returned or
    raised; every exception is answered with the error ERR_KPI_001. *)
Definition get_overall_kpis (served : result DataFrame) (year : option Z)
    (department : option string) : response :=
  match bind served (fun df => bind (filter_kpi_year year df)
                                 (filter_kpi_department department)) with
  | Err _ => Failure "ERR_KPI_001"
  | Ok df =>
      match calculate_rates df with
      | Err _ => Failure "ERR_KPI_001"
      | Ok rs =>
          Success (mkKpi (round2 (Calculations.pass_rate rs))
                     (round2 (Calculations.fail_rate rs))
                     (round2 (Calculations.dist_rate rs))
                     (Calculations.unique_students rs)
                     (Calculations.total_exams rs))
      end
  end.

End WithCasts.

(** The records the two filters of the route select. *)
Definition kpi_selects (year : option Z) (department : option string) (r : Row) : bool :=
  match year with
  | Some y => (y =? 0)%Z || bool_decide (col "exam_year" r = Num (Qc_of_Z y))
  | None => true
  end
  && match department with
     | Some d => String.eqb d "" || bool_decide (col "department" r = Text d)
     | None => true
     end.

(** The indicators of the department CS in 2021, from the six exam
    records. *)
Definition cs_2021 : kpi :=
  match get_overall_kpis (H := Decimal.casts) (Ok Cases.records) (Some 2021%Z) (Some "CS")
  with
  | Success data => data
  | Failure _ => mkKpi 0%Qc 0%Qc 0%Qc 0 0
  end.

End Kpis.

(** * Properties *)

(** ** Frames *)

Module FrameFacts.
Import Frame.

Lemma rows_with_column name e df :
  rows (with_column name e df) = map (fun r => <[name := e r]> r) (rows df).
Proof. reflexivity. Qed.

Lemma lookup_with_column name e df i :
  rows (with_column name e df) !! i = (fun r => <[name := e r]> r) <$> rows df !! i.
Proof. rewrite rows_with_column. apply list_lookup_fmap. Qed.

Lemma height_with_column name e df :
  height (with_column name e df) = height df.
Proof. unfold height. rewrite rows_with_column. apply length_map. Qed.

Lemma has_column_with_column name e df c :
  has_column (with_column name e df) c = has_column df c || bool_decide (c = name).
Proof.
  apply Bool.eq_iff_eq_true. unfold has_column, with_column. simpl.
  rewrite orb_true_iff, !bool_decide_eq_true.
  destruct (has_column df name) eqn:Hn.
  - apply bool_decide_eq_true in Hn. split; [tauto|]. intros [Hc | ->]; assumption.
  - rewrite elem_of_app, list_elem_of_singleton. tauto.
Qed.

Lemma col_insert_eq name v (r : Row) : col name (<[name := v]> r) = v.
Proof. unfold col. by rewrite lookup_insert_eq. Qed.

Lemma col_insert_ne name c v (r : Row) : name ≠ c -> col c (<[name := v]> r) = col c r.
Proof. intros. unfold col. by rewrite lookup_insert_ne. Qed.

Section WithCasts.
Context `{Casts}.

Lemma cast_f64_cases c : cast_f64 c = Null ∨ ∃ q, cast_f64 c = Num q.
Proof.
  destruct c; simpl; eauto. destruct (str_to_f64 s); eauto.
Qed.
End WithCasts.

End FrameFacts.

(** ** The performance classification *)

Module ProcessorFacts.
Import Frame Processor FrameFacts.

Section WithCasts.
Context `{Casts}.

Lemma add_performance_column_Ok df df' :
  add_performance_column df = Ok df' ->
  df' = with_column "performance" (final_expr (columns df)) df.
Proof.
  unfold add_performance_column.
  destruct (negb (forallb _ required_columns)); [discriminate|].
  destruct (negb (forallb _ result_columns)); [discriminate|].
  congruence.
Qed.

(** The classification agrees with [classify_performance_expr]
    wherever no result column intervenes. *)
Lemma base_expr_classify r : base_expr r = classify_performance_expr r.
Proof. reflexivity. Qed.

(** The loop over the result columns, unrolled. *)
Lemma final_expr_unfold cols r :
  final_expr cols r =
    if existsb (fun c => bool_decide (c ∈ cols)
                         && bool_decide (and_ (not_ (na_check c r)) (fail_check c r)
                                         = Some true)) result_columns
    then Text "Fail" else base_expr r.
Proof.
  unfold final_expr, result_columns. simpl. unfold override.
  repeat case_bool_decide; simpl; try reflexivity;
    repeat match goal with
      | Heq : and_ _ _ = Some true |- _ => rewrite Heq; clear Heq
      | Hne : and_ ?a ?b ≠ Some true |- _ =>
          destruct (and_ a b) as [[]|]; [congruence| |]; clear Hne
      end; simpl; reflexivity.
Qed.

Lemma total_pct_value r :
  total_pct r = Num (pct_or_zero (col "theory_percentage" r)
                     + pct_or_zero (col "practical_percentage" r))%Qc.
Proof.
  unfold total_pct, theory_pct, practical_pct, pct_or_zero.
  destruct (cast_f64_cases (col "theory_percentage" r)) as [->|[x ->]];
    destruct (cast_f64_cases (col "practical_percentage" r)) as [->|[y ->]];
    reflexivity.
Qed.



(** Without a Fail the classification is the base expression. *)
Lemma final_expr_not_fail cols r :
  final_expr cols r ≠ Text "Fail" ->
  final_expr cols r = base_expr r
  ∧ eq_text (pass_fail_norm r) "fail" ≠ Some true.
Proof.
  rewrite final_expr_unfold.
  destruct (existsb _ result_columns); [congruence|].
  intros Hne. split; [reflexivity|]. intros Heq. apply Hne.
  unfold base_expr. rewrite Heq. reflexivity.
Qed.

Lemma pass_fail_norm_text r : ∃ s, pass_fail_norm r = Text s.
Proof.
  unfold pass_fail_norm. destruct (col "pass_fail" r); simpl; eauto.
Qed.

Lemma eq_text_true s lit : eq_text (Text s) lit = Some true <-> Text s = Text lit.
Proof.
  simpl. split.
  - intros [= Heq]. apply String.eqb_eq in Heq. by subst.
  - intros [= ->]. by rewrite String.eqb_refl.
Qed.

Lemma base_expr_cases r :
  let total := (pct_or_zero (col "theory_percentage" r)
                + pct_or_zero (col "practical_percentage" r))%Qc in
  base_expr r =
    if bool_decide (pass_fail_norm r = Text "fail") then Text "Fail"
    else if bool_decide (Qc_of_Z 80 ≤ total)%Qc then Text "Distinction"
    else if bool_decide (pass_fail_norm r = Text "pass") then Text "Pass"
    else Null.
Proof.
  intros total. unfold base_expr. rewrite total_pct_value. fold total.
  destruct (pass_fail_norm_text r) as [s ->]. simpl.
  destruct (String.eqb_spec s "fail") as [->|Hf].
  { rewrite bool_decide_eq_true_2; reflexivity. }
  rewrite (bool_decide_eq_false_2 (Text s = Text "fail")) by congruence.
  case_bool_decide; [reflexivity|].
  destruct (String.eqb_spec s "pass") as [->|Hp].
  { rewrite bool_decide_eq_true_2; reflexivity. }
  rewrite (bool_decide_eq_false_2 (Text s = Text "pass")) by congruence.
  reflexivity.
Qed.


(** C2. A record that is not Fail is a Distinction exactly when its
    theory and practical percentages, nulls counted as 0, add up to 80
    or more; below that it is a Pass exactly when pass_fail reads
    "pass", and null otherwise. *)
Theorem distinction_from_80 df df' i r r' :
  add_performance_column df = Ok df' ->
  rows df !! i = Some r ->
  rows df' !! i = Some r' ->
  r' !! "performance" ≠ Some (Text "Fail") ->
  let total := (pct_or_zero (col "theory_percentage" r)
                + pct_or_zero (col "practical_percentage" r))%Qc in
  (r' !! "performance" = Some (Text "Distinction") <-> (Qc_of_Z 80 ≤ total)%Qc)
  ∧ (¬ (Qc_of_Z 80 ≤ total)%Qc ->
     (r' !! "performance" = Some (Text "Pass") <-> pass_fail_norm r = Text "pass")
     ∧ (pass_fail_norm r ≠ Text "pass" -> r' !! "performance" = Some Null)).
Proof.
  intros Hok Hr Hr' Hnf total. apply add_performance_column_Ok in Hok as ->.
  rewrite lookup_with_column, Hr in Hr'. simpl in Hr'. injection Hr' as <-.
  rewrite lookup_insert_eq in *.
  assert (Hne : final_expr (columns df) r ≠ Text "Fail") by congruence.
  destruct (final_expr_not_fail _ _ Hne) as [-> Hpf].
  rewrite base_expr_cases. fold total.
  destruct (pass_fail_norm_text r) as [s Hs]. rewrite Hs in *.
  rewrite eq_text_true in Hpf.
  rewrite (bool_decide_eq_false_2 _ Hpf).
  case_bool_decide as Hge.
  - split; [tauto|]. intros Hlt. contradiction.
  - case_bool_decide as Hp.
    + split; [split; [discriminate | contradiction]|]. intros _.
      split; [tauto|]. intros Hnp. contradiction.
    + split; [split; [discriminate | contradiction]|]. intros _.
      split; [split; [discriminate | contradiction]|]. reflexivity.
Qed.

(** C10. On a frame that has the columns the classification reads, with
    text result columns, [add_performance_column] returns a frame with
    the same rows in the same order, each with a performance that is
    "Fail", "Distinction", "Pass" or null; a record that cannot be
    classified stays in the table.  The expression of
    [classify_performance_expr] has the same four values. *)
Theorem performance_is_one_of_four df :
  forallb (has_column df) required_columns = true ->
  forallb (fun c => negb (has_column df c) || text_column df c) result_columns = true ->
  ∃ df',
    add_performance_column df = Ok df'
    ∧ height df' = height df
    ∧ (∀ i r, rows df !! i = Some r ->
         ∃ v, rows df' !! i = Some (<["performance" := v]> r)
              ∧ v ∈ [Text "Fail"; Text "Distinction"; Text "Pass"; Null])
    ∧ (∀ r, classify_performance_expr r
              ∈ [Text "Fail"; Text "Distinction"; Text "Pass"; Null]).
Proof.
  intros Hreq Htext.
  assert (Hbase : ∀ r, base_expr r ∈ [Text "Fail"; Text "Distinction"; Text "Pass"; Null]).
  { intros r. rewrite base_expr_cases. repeat case_bool_decide; set_solver. }
  exists (with_column "performance" (final_expr (columns df)) df).
  split; [|split; [|split]].
  - unfold add_performance_column. rewrite Hreq, Htext. reflexivity.
  - apply height_with_column.
  - intros i r Hr. exists (final_expr (columns df) r). split.
    + rewrite lookup_with_column, Hr. reflexivity.
    + rewrite final_expr_unfold. destruct (existsb _ _); [set_solver | apply Hbase].
  - intros r. rewrite <- base_expr_classify. apply Hbase.
Qed.

End WithCasts.


(** A total of exactly 80 is a Distinction, a total of 79.99 is not: the
    record is a Pass. *)
Lemma distinction_from_80_at_threshold :
  Examples.row_at (Examples.classified Examples.at_threshold) 0 !! "performance"
    = Some (Text "Distinction")
  ∧ Examples.row_at (Examples.classified Examples.at_threshold) 1 !! "performance"
    = Some (Text "Pass").
Proof.
  split.
  - apply (distinction_from_80 (H := Decimal.casts) Examples.at_threshold
             (Examples.classified Examples.at_threshold) 0
             (Examples.row_at Examples.at_threshold 0)
             (Examples.row_at (Examples.classified Examples.at_threshold) 0)
             eq_refl eq_refl eq_refl);
      by vm_compute.
  - apply (distinction_from_80 (H := Decimal.casts) Examples.at_threshold
             (Examples.classified Examples.at_threshold) 1
             (Examples.row_at Examples.at_threshold 1)
             (Examples.row_at (Examples.classified Examples.at_threshold) 1)
             eq_refl eq_refl eq_refl);
      by vm_compute.
Defined.

(** The four outcomes on one frame; the record without a pass_fail stays
    in the table with a null performance. *)
Lemma performance_is_one_of_four_example :
  ∃ df',
    add_performance_column (H := Decimal.casts) Examples.four_outcomes = Ok df'
    ∧ height df' = 4%nat
    ∧ (∀ i r, rows Examples.four_outcomes !! i = Some r ->
         ∃ v, rows df' !! i = Some (<["performance" := v]> r)
              ∧ v ∈ [Text "Fail"; Text "Distinction"; Text "Pass"; Null])
    ∧ (∀ r, classify_performance_expr (H := Decimal.casts) r
              ∈ [Text "Fail"; Text "Distinction"; Text "Pass"; Null]).
Proof.
  apply (performance_is_one_of_four (H := Decimal.casts) Examples.four_outcomes);
    reflexivity.
Defined.

Example four_outcomes_classified :
  map (fun r => col "performance" r) (rows (Examples.classified Examples.four_outcomes))
  = [Text "Fail"; Text "Distinction"; Text "Pass"; Null].
Proof. reflexivity. Qed.

End ProcessorFacts.

(** ** The derived columns *)

Module LoaderFacts.
Import Frame Loader FrameFacts.

Create HintDb numeric discriminated.

Lemma numeric_Null : numeric Null.
Proof. by left. Qed.

Lemma numeric_Num q : numeric (Num q).
Proof. right. by exists q. Qed.

Lemma numeric_add a b : numeric (add a b).
Proof. destruct a, b; simpl; first [apply numeric_Null | apply numeric_Num]. Qed.

Lemma numeric_mul a b : numeric (mul a b).
Proof. destruct a, b; simpl; first [apply numeric_Null | apply numeric_Num]. Qed.

Lemma numeric_div a b : numeric (div a b).
Proof. destruct a, b; simpl; first [apply numeric_Null | apply numeric_Num]. Qed.

Lemma numeric_mean qs : numeric (mean_Qc qs).
Proof. destruct qs; simpl; [apply numeric_Null | apply numeric_Num]. Qed.

Lemma numeric_when p a b : numeric a -> numeric b -> numeric (when_then_otherwise p a b).
Proof. by destruct p as [[]|]. Qed.

#[local] Hint Resolve numeric_Null numeric_Num numeric_add numeric_mul numeric_div
  numeric_mean numeric_when : numeric.

(** The sum is null exactly when an addend is. *)
Lemma add_null_iff a b :
  numeric a -> numeric b -> (add a b = Null <-> a = Null ∨ b = Null).
Proof.
  intros [->|[x ->]] [->|[y ->]]; simpl; split; intros; auto; try discriminate;
    destruct_or?; discriminate.
Qed.

Section WithCasts.
Context `{Casts}.

Lemma numeric_cast_f64 c : numeric (cast_f64 c).
Proof. apply cast_f64_cases. Qed.

#[local] Hint Resolve numeric_cast_f64 : numeric.

Lemma numeric_credit_gated credit source r : numeric (credit_gated credit source r).
Proof. unfold credit_gated, safe_percentage. auto with numeric. Qed.

Lemma numeric_ratio_pct obtained max r : numeric (ratio_pct obtained max r).
Proof. unfold ratio_pct. auto with numeric. Qed.

#[local] Hint Resolve numeric_credit_gated numeric_ratio_pct : numeric.

Lemma numeric_cia_theory df r : numeric (cia_theory_expr df r).
Proof.
  unfold cia_theory_expr, list_mean, safe_percentage.
  repeat (case_match; auto with numeric).
Qed.

Lemma numeric_cia_practical df r : numeric (cia_practical_expr df r).
Proof.
  unfold cia_practical_expr, list_mean, safe_percentage.
  repeat (case_match; auto with numeric).
Qed.

Lemma numeric_ese_theory df r : numeric (ese_theory_expr df r).
Proof.
  unfold ese_theory_expr, safe_percentage. repeat (case_match; auto with numeric).
Qed.

Lemma numeric_ese_practical df r : numeric (ese_practical_expr df r).
Proof.
  unfold ese_practical_expr, safe_percentage. repeat (case_match; auto with numeric).
Qed.

Lemma rows_add_derived_columns df :
  rows (_add_derived_columns df) = map (derived_row df) (rows df).
Proof.
  unfold _add_derived_columns, add_weighted_total, add_total, add_ese_practical,
    add_ese_theory, add_cia_practical, add_cia_theory.
  rewrite !rows_with_column, !map_map. reflexivity.
Qed.

Lemma lookup_add_derived_columns df i :
  rows (_add_derived_columns df) !! i = derived_row df <$> rows df !! i.
Proof. rewrite rows_add_derived_columns. apply list_lookup_fmap. Qed.

(** A stage adds one column: the other columns are there as before. *)
Lemma has_column_stage1 c df :
  c ≠ "cia_theory_avg" -> has_column (stage1 df) c = has_column df c.
Proof.
  intros Hc. unfold stage1, add_cia_theory. rewrite has_column_with_column.
  rewrite (bool_decide_eq_false_2 _ Hc). apply orb_false_r.
Qed.

Lemma has_column_stage2 c df :
  c ≠ "cia_practical_avg" -> has_column (stage2 df) c = has_column (stage1 df) c.
Proof.
  intros Hc. unfold stage2, add_cia_practical. rewrite has_column_with_column.
  rewrite (bool_decide_eq_false_2 _ Hc). apply orb_false_r.
Qed.

Lemma has_column_stage3 c df :
  c ≠ "ese_theory_internal" -> has_column (stage3 df) c = has_column (stage2 df) c.
Proof.
  intros Hc. unfold stage3, add_ese_theory. rewrite has_column_with_column.
  rewrite (bool_decide_eq_false_2 _ Hc). apply orb_false_r.
Qed.

Lemma has_column_stage4 c df :
  c ≠ "ese_practical_internal" -> has_column (stage4 df) c = has_column (stage3 df) c.
Proof.
  intros Hc. unfold stage4, add_ese_practical. rewrite has_column_with_column.
  rewrite (bool_decide_eq_false_2 _ Hc). apply orb_false_r.
Qed.

Lemma has_column_stage5 c df :
  c ≠ "total_theory_marks" -> has_column (stage5 df) c = has_column (stage4 df) c.
Proof.
  intros Hc. unfold stage5, add_total. rewrite has_column_with_column.
  rewrite (bool_decide_eq_false_2 _ Hc). apply orb_false_r.
Qed.

Lemma credit_gated_zero credit source r :
  cast_f64 (col credit r) = Num 0%Qc -> credit_gated credit source r = Null.
Proof. intros Hc. unfold credit_gated. rewrite Hc. reflexivity. Qed.

(** Columns and cells that a later stage reads are those of the input. *)
Ltac stage_columns :=
  rewrite ?has_column_stage5 by done; rewrite ?has_column_stage4 by done;
  rewrite ?has_column_stage3 by done; rewrite ?has_column_stage2 by done;
  rewrite ?has_column_stage1 by done.

Ltac row_columns :=
  unfold row6, row5, row4, row3, row2, row1;
  repeat (rewrite col_insert_ne by done).

(** C3, as the code has it.  When a derived percentage field is taken
    from its percentage column of the new format (the column is there
    and no earlier source is), and the credit column is there and reads
    0 for a record, the field of that record is null, whatever the
    percentage column holds. *)
Theorem zero_credit_nulls_percentage f df i r :
  rows df !! i = Some r ->
  Forall (fun c => has_column df c = false) (earlier_sources f) ->
  has_column df (percentage_source f) = true ->
  has_column df (credit_qualifier f) = true ->
  cast_f64 (col (credit_qualifier f) r) = Num (Qc_of_Z 0) ->
  ∃ r', rows (_add_derived_columns df) !! i = Some r' ∧ r' !! target f = Some Null.
Proof.
  intros Hr Hearlier Hsource Hcredit Hzero. rewrite Z2Qc_inj_0 in Hzero.
  rewrite lookup_add_derived_columns, Hr. simpl. eexists. split; [reflexivity|].
  unfold derived_row, row6, row5.
  unfold earlier_sources, cia_theory_cols, cia_prac_cols in Hearlier.
  destruct f; simpl in *; repeat (rewrite lookup_insert_ne by done);
    rewrite !Forall_cons in Hearlier.
  - unfold row4, row3, row2; repeat (rewrite lookup_insert_ne by done).
    unfold row1. rewrite lookup_insert_eq. f_equal.
    unfold cia_theory_expr, cia_theory_cols. simpl.
    destruct Hearlier as (-> & -> & -> & _).
    rewrite Hsource, Hcredit. simpl. by apply credit_gated_zero.
  - unfold row4, row3; repeat (rewrite lookup_insert_ne by done).
    unfold row2. rewrite lookup_insert_eq. f_equal.
    unfold cia_practical_expr, cia_prac_cols. simpl. stage_columns.
    destruct Hearlier as (-> & -> & -> & _).
    rewrite Hsource, Hcredit. simpl. apply credit_gated_zero. by row_columns.
  - unfold row4; repeat (rewrite lookup_insert_ne by done).
    unfold row3. rewrite lookup_insert_eq. f_equal.
    unfold ese_theory_expr. stage_columns.
    destruct Hearlier as (-> & _).
    rewrite Hsource, Hcredit. simpl. apply credit_gated_zero. by row_columns.
  - unfold row4. rewrite lookup_insert_eq. f_equal.
    unfold ese_practical_expr. stage_columns.
    destruct Hearlier as (-> & _).
    rewrite Hsource, Hcredit. simpl. apply credit_gated_zero. by row_columns.
Qed.

Lemma numeric_cia k df r : numeric (col (cia_col k) (derived_row df r)).
Proof.
  destruct k; simpl; unfold derived_row; row_columns; rewrite col_insert_eq;
    [apply numeric_cia_theory | apply numeric_cia_practical].
Qed.

Lemma numeric_ese k df r : numeric (col (ese_col k) (derived_row df r)).
Proof.
  destruct k; simpl; unfold derived_row; row_columns; rewrite col_insert_eq;
    [apply numeric_ese_theory | apply numeric_ese_practical].
Qed.

Lemma derived_total k df r :
  has_column df (total_col k) = false ->
  derived_row df r !! total_col k
  = Some (add (col (cia_col k) (derived_row df r)) (col (ese_col k) (derived_row df r))).
Proof.
  intros Hno. unfold derived_row at 1, row6.
  destruct k; simpl in *; repeat (rewrite lookup_insert_ne by done).
  - unfold row5. rewrite lookup_insert_eq. f_equal.
    unfold total_expr. stage_columns. rewrite Hno.
    unfold derived_row, row6, row5. by rewrite !(col_insert_ne _ _ _ _) by done.
  - rewrite lookup_insert_eq. f_equal.
    unfold total_expr. stage_columns. rewrite Hno.
    unfold derived_row, row6. by rewrite !(col_insert_ne _ _ _ _) by done.
Qed.

(** C8, as the code has it.  When the table brings no total of its own,
    the total of a record is the sum of its two components: null
    exactly when one of them is null, their sum when both are numbers. *)
Theorem totals_propagate_null k df i r' :
  has_column df (total_col k) = false ->
  rows (_add_derived_columns df) !! i = Some r' ->
  r' !! total_col k = Some (add (col (cia_col k) r') (col (ese_col k) r'))
  ∧ (col (total_col k) r' = Null <-> col (cia_col k) r' = Null ∨ col (ese_col k) r' = Null)
  ∧ (∀ x y, col (cia_col k) r' = Num x -> col (ese_col k) r' = Num y ->
            col (total_col k) r' = Num (x + y)%Qc).
Proof.
  intros Hno Hr'. rewrite lookup_add_derived_columns in Hr'.
  destruct (rows df !! i) as [r|]; [|discriminate]. injection Hr' as <-.
  pose proof (derived_total k df r Hno) as Htotal.
  split; [exact Htotal|].
  assert (Hcol : col (total_col k) (derived_row df r)
                 = add (col (cia_col k) (derived_row df r))
                       (col (ese_col k) (derived_row df r))).
  { unfold col at 1. by rewrite Htotal. }
  rewrite Hcol. split.
  - apply add_null_iff; [apply numeric_cia | apply numeric_ese].
  - intros x y -> ->. reflexivity.
Qed.
End WithCasts.

(** A theory-only record of the new format: the practical percentage
    reads 45, the derived field is null. *)
Lemma zero_credit_nulls_percentage_example :
  safe_percentage (H := Decimal.casts) "practical_internal_percentage"
    (Examples.row_at Examples.theory_only_new_format 0) = Examples.num 45
  ∧ ∃ r', rows (_add_derived_columns (H := Decimal.casts) Examples.theory_only_new_format)
            !! 0%nat = Some r'
          ∧ r' !! "cia_practical_avg" = Some Null.
Proof.
  split; [vm_compute; f_equal; apply Qc_is_canon; reflexivity|].
  apply (zero_credit_nulls_percentage (H := Decimal.casts) CiaPractical
           Examples.theory_only_new_format 0
           (Examples.row_at Examples.theory_only_new_format 0));
    [reflexivity | repeat constructor | reflexivity | reflexivity | reflexivity].
Defined.

(** The claim of C3 fails on the old format: with a practical credit of
    0, the practical marks of the table are kept, the average of the
    internal marks is 0 and not null. *)
Lemma zero_credit_keeps_old_format_marks :
  has_column Examples.theory_only_old_format "practical_credit" = true
  ∧ col "practical_credit" (Examples.row_at Examples.theory_only_old_format 0)
    = Examples.num 0
  ∧ col "cia_practical_avg"
      (Examples.row_at
         (_add_derived_columns (H := Decimal.casts) Examples.theory_only_old_format) 0)
    = Examples.num 0
  ∧ col "ese_practical_internal"
      (Examples.row_at
         (_add_derived_columns (H := Decimal.casts) Examples.theory_only_old_format) 0)
    = Examples.num 55.
Proof.
  repeat split; try reflexivity.
  vm_compute. f_equal. apply Qc_is_canon. reflexivity.
Qed.

(** Two records without a total of their own: 30.5 + 40 = 70.5, and a
    null total where the external component is "Not Applicable". *)
Lemma totals_propagate_null_example :
  col "total_theory_marks"
    (Examples.row_at (_add_derived_columns (H := Decimal.casts) Examples.two_components) 0)
  = Num (Q2Qc (61 # 2) + Qc_of_Z 40)%Qc
  ∧ col "total_theory_marks"
      (Examples.row_at (_add_derived_columns (H := Decimal.casts) Examples.two_components) 1)
    = Null.
Proof.
  split.
  - apply (totals_propagate_null (H := Decimal.casts) Theory Examples.two_components 0
             (Examples.row_at
                (_add_derived_columns (H := Decimal.casts) Examples.two_components) 0)
             eq_refl eq_refl);
      vm_compute; f_equal; apply Qc_is_canon; reflexivity.
  - apply (totals_propagate_null (H := Decimal.casts) Theory Examples.two_components 1
             (Examples.row_at
                (_add_derived_columns (H := Decimal.casts) Examples.two_components) 1)
             eq_refl eq_refl).
    right. reflexivity.
Defined.

(** The claim of C8 fails on a table with a total of its own: the total
    is kept although both components are null. *)
Lemma own_total_is_kept :
  col "cia_theory_avg"
    (Examples.row_at (_add_derived_columns (H := Decimal.casts) Examples.with_own_total) 0)
  = Null
  ∧ col "ese_theory_internal"
      (Examples.row_at (_add_derived_columns (H := Decimal.casts) Examples.with_own_total) 0)
    = Null
  ∧ col "total_theory_marks"
      (Examples.row_at (_add_derived_columns (H := Decimal.casts) Examples.with_own_total) 0)
    = Examples.num 50.
Proof. repeat split; reflexivity. Qed.

End LoaderFacts.

(** ** Rates and filters *)

Module CalculationsFacts.
Import Frame Filtering Calculations FrameFacts.

Section WithCasts.
Context `{Casts}.

(** C4. On a table without records [calculate_rates] returns 0 for the
    three rates, 0 students and 0 exams; it neither divides nor reads a
    column, so no error can arise. *)
Theorem calculate_rates_empty data :
  height data = 0%nat ->
  calculate_rates data = Ok (mkRates 0%Qc 0%Qc 0%Qc 0 0).
Proof. intros Hempty. unfold calculate_rates. by rewrite Hempty. Qed.

End WithCasts.

Lemma calculate_rates_no_records :
  calculate_rates (H := Decimal.casts) Examples.no_records
  = Ok (mkRates 0%Qc 0%Qc 0%Qc 0 0).
Proof. apply (calculate_rates_empty (H := Decimal.casts)). reflexivity. Defined.

Lemma in_year_range_spec lo hi r :
  in_year_range lo hi r = true
  <-> ∃ y, col "exam_year" r = Num y ∧ (lo ≤ y)%Qc ∧ (y ≤ hi)%Qc.
Proof.
  unfold in_year_range. destruct (col "exam_year" r) as [|s|y].
  - split; [discriminate | intros (y & [=] & _)].
  - split; [discriminate | intros (y & [=] & _)].
  - rewrite andb_true_iff, !bool_decide_eq_true. split.
    + intros [Hlo Hhi]. by exists y.
    + intros (y' & [= ->] & Hlo & Hhi). by split.
Qed.

Lemma year_predicate lo hi r :
  bool_decide (and_ (ge_num (col "exam_year" r) lo) (le_num (col "exam_year" r) hi)
               = Some true)
  = in_year_range lo hi r.
Proof.
  unfold in_year_range. destruct (col "exam_year" r) as [|s|y]; simpl; try reflexivity.
  destruct (bool_decide (lo ≤ y)%Qc), (bool_decide (y ≤ hi)%Qc); reflexivity.
Qed.

(** C7. A year range [lo, hi] keeps exactly the records whose exam year
    lies between the two bounds, both included, in their order. *)
Theorem year_range_is_inclusive df lo hi rest :
  has_column df "exam_year" = true ->
  ∃ filtered,
    filter_data df (YearList (lo :: hi :: rest)) "All" SemesterAll "All" = Ok filtered
    ∧ rows filtered = List.filter (in_year_range lo hi) (rows df)
    ∧ ∀ r, r ∈ rows filtered
           <-> r ∈ rows df ∧ ∃ y, col "exam_year" r = Num y ∧ (lo ≤ y)%Qc ∧ (y ≤ hi)%Qc.
Proof.
  intros Hcol. eexists. split; [|split].
  - unfold filter_data, filter_year, filter_on. rewrite Hcol. reflexivity.
  - simpl. apply filter_ext. intros r. apply year_predicate.
  - intros r. simpl. rewrite list_elem_of_In, filter_In, <- list_elem_of_In.
    rewrite year_predicate, in_year_range_spec. reflexivity.
Qed.

(** The range [2020, 2022] keeps the records of 2020 and 2022 and drops
    those of 2019 and 2023 and the one without a year. *)
Lemma year_range_2020_2022 :
  ∃ filtered,
    filter_data Examples.five_years (YearList [Qc_of_Z 2020; Qc_of_Z 2022]) "All"
      SemesterAll "All" = Ok filtered
    ∧ map (col "student_id") (rows filtered) = [Text "S2"; Text "S3"].
Proof.
  destruct (year_range_is_inclusive Examples.five_years (Qc_of_Z 2020) (Qc_of_Z 2022) []
              eq_refl) as (filtered & Hok & Hrows & _).
  exists filtered. split; [exact Hok|]. rewrite Hrows. reflexivity.
Defined.

End CalculationsFacts.

(** ** Rounding *)

Module RoundingFacts.
Import Rounding.

Lemma round_half_even_of_Z z : round_half_even (Qc_of_Z z) = z.
Proof.
  unfold round_half_even. simpl. rewrite Z.div_1_r, Z.mod_1_r. reflexivity.
Qed.

Lemma hundred_nonzero : Qc_of_Z 100 ≠ 0%Qc.
Proof. rewrite <- Z2Qc_inj_0. intros Heq. apply Z2Qc_inj in Heq. discriminate. Qed.

Lemma centesimal_round2 q : centesimal (round2 q).
Proof. unfold round2. by eexists. Qed.

Lemma centesimal_of_Z z : centesimal (Qc_of_Z z).
Proof.
  exists (z * 100)%Z. rewrite Z2Qc_inj_mul. field. apply hundred_nonzero.
Qed.

Lemma round2_centesimal_sub a b :
  centesimal a -> centesimal b -> round2 (a - b) = (a - b)%Qc.
Proof.
  intros [x ->] [y ->]. unfold round2.
  replace ((Qc_of_Z x / Qc_of_Z 100 - Qc_of_Z y / Qc_of_Z 100) * Qc_of_Z 100)%Qc
    with (Qc_of_Z (x - y)).
  - rewrite round_half_even_of_Z, Z2Qc_inj_sub. field. apply hundred_nonzero.
  - rewrite Z2Qc_inj_sub. field. apply hundred_nonzero.
Qed.

Lemma div_cross_mono a b c d :
  (0 <= a)%Z -> (0 < b)%Z -> (0 < d)%Z -> (a * d <= c * b)%Z -> (a / b <= c / d)%Z.
Proof.
  intros Ha Hb Hd Hle. apply Z.div_le_lower_bound; [assumption|].
  pose proof (Z.mul_div_le a b Hb) as Hfloor.
  assert (Hq : (0 <= a / b)%Z) by (apply Z.div_pos; lia).
  apply Z.mul_le_mono_pos_r with (p := b); [assumption|]. nia.
Qed.

Lemma quot_cross_mono a b c d :
  (0 < b)%Z -> (0 < d)%Z -> (a * d <= c * b)%Z -> (a ÷ b <= c ÷ d)%Z.
Proof.
  intros Hb Hd Hle.
  destruct (Z.le_gt_cases 0 a) as [Ha|Ha].
  - assert (Hc : (0 <= c)%Z) by nia.
    rewrite !Z.quot_div_nonneg by lia. by apply div_cross_mono.
  - destruct (Z.le_gt_cases 0 c) as [Hc|Hc].
    + transitivity 0%Z; [|apply Z.quot_pos; lia].
      replace a with (- - a)%Z by lia. rewrite (Z.quot_opp_l (- a)) by lia.
      apply Z.opp_nonpos_nonneg. apply Z.quot_pos; lia.
    + replace a with (- - a)%Z by lia. replace c with (- - c)%Z by lia.
      rewrite (Z.quot_opp_l (- a)), (Z.quot_opp_l (- c)) by lia.
      apply -> Z.opp_le_mono.
      rewrite !Z.quot_div_nonneg by lia. apply div_cross_mono; nia.
Qed.

Lemma py_int_mono x y : (x ≤ y)%Qc -> (Filtering.py_int x <= Filtering.py_int y)%Z.
Proof.
  intros Hle. unfold Filtering.py_int. apply quot_cross_mono; [lia | lia |].
  exact Hle.
Qed.

End RoundingFacts.

(** ** Sort keys *)

Module OrderFacts.
Import Frame Order.

#[global] Instance cell_le_total descending : Total (cell_le descending).
Proof.
  intros a b. unfold cell_le.
  destruct (num_key a) as [x|], (num_key b) as [y|]; simpl; auto.
  destruct descending, (total Qcle x y); auto.
Qed.

#[global] Instance cell_le_trans descending : Transitive (cell_le descending).
Proof.
  intros a b c. unfold cell_le.
  destruct (num_key a) as [x|], (num_key b) as [y|], (num_key c) as [z|];
    simpl; try tauto.
  destruct descending; intros; etrans; eassumption.
Qed.

Lemma StronglySorted_Forall2 {A B} (R : relation A) (R' : relation B)
    (P : A -> B -> Prop) l k :
  (∀ a b a' b', R a b -> P a a' -> P b b' -> R' a' b') ->
  StronglySorted R l -> Forall2 P l k -> StronglySorted R' k.
Proof.
  intros Hmono Hsorted Hall. induction Hall as [|a a' l k Ha Hall IH].
  - constructor.
  - apply StronglySorted_inv in Hsorted as [Hl Hhd].
    constructor; [by apply IH|].
    clear IH Hl. induction Hall as [|b b' l k Hb Hall IH]; constructor.
    + apply Forall_cons in Hhd as [Hab _]. by eapply Hmono.
    + apply IH. by apply Forall_cons in Hhd as [_ ?].
Qed.

End OrderFacts.

(** ** Trends *)

Module AnalyticsFacts.
Import Frame Order Calculations Rounding Analytics FrameFacts RoundingFacts OrderFacts.

Section WithCasts.
Context `{Casts}.

Lemma yearly_row_year y g : yearly_row y g !! "exam_year" = Some y.
Proof. unfold yearly_row. apply lookup_insert_eq. Qed.

Lemma yearly_trends_sorted rs :
  StronglySorted (fun a b => cell_le false (col "exam_year" a) (col "exam_year" b))
    (yearly_trends rs).
Proof.
  unfold yearly_trends.
  apply (StronglySorted_fmap _ (cell_le false)).
  - intros x y Hxy. unfold col. by rewrite !yearly_row_year.
  - apply Sorted_StronglySorted; [apply _|]. apply Sorted_merge_sort. apply _.
Qed.

Lemma as_num_Some c q : as_num c = Some q -> c = Some (Num q).
Proof. destruct c as [[| |x]|]; simpl; congruence. Qed.

Lemma trend_point_of_Some metric row p :
  trend_point_of metric row = Some p ->
  ∃ y n pr dr m,
    row !! "exam_year" = Some (Num y)
    ∧ p = mkPoint (Filtering.py_int y) (Filtering.py_int n) (round2 pr) (round2 dr)
            (if String.eqb metric "exam_count" then Qc_of_Z (Filtering.py_int m)
             else round2 m).
Proof.
  unfold trend_point_of. intros Hp.
  apply bind_Some in Hp as (y & Hy & Hp). apply bind_Some in Hp as (n & _ & Hp).
  apply bind_Some in Hp as (pr & _ & Hp). apply bind_Some in Hp as (dr & _ & Hp).
  apply bind_Some in Hp as (m & _ & Hp). injection Hp as <-.
  apply as_num_Some in Hy. by exists y, n, pr, dr, m.
Qed.

Lemma trend_point_year metric row p :
  trend_point_of metric row = Some p ->
  ∃ y, col "exam_year" row = Num y ∧ year p = Filtering.py_int y.
Proof.
  intros Hp. apply trend_point_of_Some in Hp as (y & n & pr & dr & m & Hy & ->).
  exists y. unfold col. by rewrite Hy.
Qed.

Lemma trend_point_centesimal metric row p :
  trend_point_of metric row = Some p -> centesimal (value p).
Proof.
  intros Hp. apply trend_point_of_Some in Hp as (y & n & pr & dr & m & Hy & ->).
  simpl. destruct (String.eqb metric "exam_count");
    [apply centesimal_of_Z | apply centesimal_round2].
Qed.

Lemma trends_sorted_by_year metric rs ts :
  mapM (trend_point_of metric) (yearly_trends rs) = Some ts ->
  StronglySorted (fun a b => (year a <= year b)%Z) ts.
Proof.
  intros Hts. apply mapM_Some in Hts.
  eapply StronglySorted_Forall2; [| apply yearly_trends_sorted | exact Hts].
  intros a b a' b' Hle Ha Hb. simpl in *.
  apply trend_point_year in Ha as (x & Hx & ->).
  apply trend_point_year in Hb as (y & Hy & ->).
  rewrite Hx, Hy in Hle. by apply py_int_mono.
Qed.

Lemma trends_centesimal metric rows ts :
  mapM (trend_point_of metric) rows = Some ts -> Forall (fun p => centesimal (value p)) ts.
Proof.
  intros Hts. apply mapM_Some in Hts.
  induction Hts; constructor; eauto using trend_point_centesimal.
Qed.

Lemma trends_summarise ts : trends (summarise ts) = ts.
Proof. unfold summarise. by repeat case_match. Qed.

Lemma get_trends_Success df entity_type entity_name metric data :
  get_trends df entity_type entity_name metric = Success data ->
  ∃ entity_rows,
    mapM (trend_point_of metric) (yearly_trends entity_rows) = Some (trends data)
    ∧ data = summarise (trends data).
Proof.
  unfold get_trends. intros Hdata.
  destruct (negb (has_column df _)); [discriminate|].
  destruct (height _ =? 0)%nat; [discriminate|].
  destruct (negb (forallb _ _)); [discriminate|].
  destruct (mapM _ _) as [ts|] eqn:Hts; [|discriminate].
  injection Hdata as <-. rewrite trends_summarise. by eexists.
Qed.

(** C6. The points of a trend come in the order of their years.  With
    two points or more the direction compares the value of the last
    year with that of the first: upward when it is greater, downward
    when it is smaller, stable when they are equal; the change is their
    difference.  With fewer than two points the direction is stable and
    the change is 0. *)
Theorem trend_is_two_point df entity_type entity_name metric data :
  get_trends df entity_type entity_name metric = Success data ->
  StronglySorted (fun a b => (year a <= year b)%Z) (trends data)
  ∧ (∀ earliest latest,
       (2 <= length (trends data))%nat ->
       head (trends data) = Some earliest ->
       last (trends data) = Some latest ->
       ((value earliest < value latest)%Qc -> trend_direction data = "upward")
       ∧ ((value latest < value earliest)%Qc -> trend_direction data = "downward")
       ∧ (value latest = value earliest -> trend_direction data = "stable")
       ∧ trend_change data = (value latest - value earliest)%Qc)
  ∧ ((length (trends data) < 2)%nat ->
     trend_direction data = "stable" ∧ trend_change data = 0%Qc).
Proof.
  intros Hdata. apply get_trends_Success in Hdata as (rs & Hts & Hdata).
  split; [by eapply trends_sorted_by_year|].
  pose proof (trends_centesimal _ _ _ Hts) as Hcent.
  revert Hdata Hcent. generalize (trends data). intros ts -> Hcent. split.
  - intros earliest latest Hlen Hhead Hlast. unfold summarise.
    rewrite Hhead, Hlast. rewrite (proj2 (Nat.ltb_lt 1 (length ts))) by lia. simpl.
    assert (Hce : centesimal (value earliest)).
    { apply head_Some_elem_of in Hhead. by eapply (proj1 (Forall_forall _ _) Hcent) in Hhead. }
    assert (Hcl : centesimal (value latest)).
    { apply last_Some_elem_of in Hlast. by eapply (proj1 (Forall_forall _ _) Hcent) in Hlast. }
    unfold trend_direction_of. repeat split.
    + intros Hlt. by rewrite bool_decide_eq_true_2.
    + intros Hlt. rewrite bool_decide_eq_false_2, bool_decide_eq_true_2; [done..|].
      intros Hgt. by eapply (irreflexivity Qclt), (transitivity Hlt).
    + intros ->. by rewrite !bool_decide_eq_false_2 by apply (irreflexivity Qclt).
    + by apply round2_centesimal_sub.
  - intros Hlen. unfold summarise.
    rewrite (proj2 (Nat.ltb_ge 1 (length ts))) by lia. done.
Qed.

End WithCasts.

(** The yearly pass rates 70, 75 and 72: upward, by 2. *)
Lemma trend_70_75_72 :
  get_trends (H := Decimal.casts) Examples.three_years "department" "CS" "pass_rate"
  = Success Examples.three_years_trend
  ∧ map (fun p => (year p, this (value p))) (trends Examples.three_years_trend)
    = [(2020%Z, 70%Q); (2021%Z, 75%Q); (2022%Z, 72%Q)]
  ∧ trend_direction Examples.three_years_trend = "upward"
  ∧ trend_change Examples.three_years_trend = Qc_of_Z 2.
Proof.
  assert (Hget : get_trends (H := Decimal.casts) Examples.three_years "department" "CS"
                   "pass_rate" = Success Examples.three_years_trend)
    by (vm_compute; reflexivity).
  split; [exact Hget|]. split; [vm_compute; reflexivity|].
  destruct (trend_is_two_point (H := Decimal.casts) _ _ _ _ _ Hget) as (_ & Hlong & _).
  edestruct Hlong as (Hup & _ & _ & Hchange);
    [ | vm_compute; reflexivity | vm_compute; reflexivity | ].
  - vm_compute. lia.
  - split.
    + apply Hup. vm_compute. reflexivity.
    + rewrite Hchange. apply Qc_is_canon. vm_compute. reflexivity.
Defined.

End AnalyticsFacts.

(** ** The difficulty ranking *)

Module DifficultyFacts.
Import Frame Order Calculations Rounding Difficulty FrameFacts RoundingFacts OrderFacts.

#[global] Instance row_le_total c descending : Total (row_le c descending).
Proof. intros a b. apply cell_le_total. Qed.

#[global] Instance row_le_trans c descending : Transitive (row_le c descending).
Proof. intros x y z. apply cell_le_trans. Qed.

Section WithCasts.
Context `{Casts}.

Lemma entries_from_subjects category i rs subject_list :
  entries_from category i rs = Some subject_list ->
  map subject subject_list = map (col "subject") rs.
Proof.
  revert i subject_list. induction rs as [|row rs IH]; intros i subject_list; simpl.
  - by intros [= <-].
  - destruct (entry_of category i row) as [e|] eqn:He; [|discriminate].
    destruct (entries_from category (S i) rs) as [es|] eqn:Hes; [|discriminate].
    intros [= <-]. simpl. f_equal; [|by eapply IH].
    unfold entry_of in He.
    destruct (col "avg_total_marks" row), (col "exam_count" row), (col "pass_rate" row);
      try discriminate.
    by injection He as <-.
Qed.

(** What a ranking the route returns is made of. *)
Lemma ranking_is_sorted df limit category subject_list :
  get_difficulty_ranking df limit category (Success subject_list) ->
  ∃ score ordered,
    score_col df = Some score
    ∧ has_column df "pass_fail" && has_column df "subject" = true
    ∧ groups_in_row_order "subject" (difficulty_row score) (scored_rows score df)
        ≡ₚ ordered
    ∧ StronglySorted (row_le "avg_total_marks" (String.eqb category "easiest")) ordered
    ∧ entries_from category 1 (head_rows limit ordered) = Some subject_list.
Proof.
  inversion 1 as [| | |subject_diff sorted l Hdiff Hcol (Hcols & Hperm & Hsorted) Hentries];
    subst.
  inversion Hdiff as [Hnone | |score grouped d Hscore Hcols' Hgroup (_ & Hperm' & _)];
    subst.
  { discriminate. }
  exists score, (rows sorted). repeat split; try assumption.
  unfold group_by_outcome in Hgroup. simpl in Hperm'.
  by rewrite Hgroup, Hperm'.
Qed.

(** Every sorted order of the aggregate rows is a ranking the route may
    return. *)
Lemma ranking_permitted df limit category score ordered subject_list :
  score_col df = Some score ->
  has_column df "pass_fail" && has_column df "subject" = true ->
  groups_in_row_order "subject" (difficulty_row score) (scored_rows score df) ≡ₚ ordered ->
  StronglySorted (row_le "avg_total_marks" (String.eqb category "easiest")) ordered ->
  entries_from category 1 (head_rows limit ordered) = Some subject_list ->
  get_difficulty_ranking df limit category (Success subject_list).
Proof.
  intros Hscore Hcols Hperm Hsorted Hentries.
  set (groups := groups_in_row_order "subject" (difficulty_row score)
                   (scored_rows score df)) in *.
  eapply (ranking_success df limit category
            (mkFrame difficulty_columns (merge_sort (row_le "avg_total_marks" false) groups))
            (mkFrame difficulty_columns ordered)).
  - apply (difficulty_sorted df score groups);
      [assumption | assumption | by unfold group_by_outcome |].
    split; [reflexivity|]. split; simpl.
    + by rewrite merge_sort_Permutation.
    + apply Sorted_StronglySorted; [apply _|]. apply Sorted_merge_sort. apply _.
  - reflexivity.
  - split; [reflexivity|]. split; simpl; [|assumption].
    by rewrite merge_sort_Permutation.
  - exact Hentries.
Qed.

(** C5, as the code has it.  The rankings the route may return are
    exactly these: the score is the first column of the priority list
    the frame has; there is one aggregate row per subject, with the mean
    of the score over the records of the subject; the rows are put in
    an order that is sorted on the mean, descending for "easiest" and
    ascending otherwise ("hardest": the lowest mean first); the first
    [limit] of them are listed.  Which of two subjects with the same
    mean comes first is not determined. *)
Theorem ranking_orders_by_mean df limit category subject_list :
  get_difficulty_ranking df limit category (Success subject_list)
  <-> ∃ score ordered,
        score_col df = Some score
        ∧ has_column df "pass_fail" && has_column df "subject" = true
        ∧ groups_in_row_order "subject" (difficulty_row score) (scored_rows score df)
            ≡ₚ ordered
        ∧ StronglySorted (row_le "avg_total_marks" (String.eqb category "easiest")) ordered
        ∧ entries_from category 1 (head_rows limit ordered) = Some subject_list
        ∧ map subject subject_list = map (col "subject") (head_rows limit ordered).
Proof.
  split.
  - intros Hranked.
    apply ranking_is_sorted in Hranked
      as (score & ordered & Hscore & Hcols & Hperm & Hsorted & Hentries).
    exists score, ordered. repeat split; try assumption.
    by eapply entries_from_subjects.
  - intros (score & ordered & Hscore & Hcols & Hperm & Hsorted & Hentries & _).
    by eapply ranking_permitted.
Qed.

End WithCasts.

(** Subject A with a mean of 60 over 10 records and subject B with a
    mean of 40 over 5: ranked "hardest", every permitted result lists B
    and then A, and there is such a result. *)
Lemma hardest_lists_B_before_A :
  (∃ subject_list,
     get_difficulty_ranking (H := Decimal.casts) Examples.two_subjects 50 "hardest"
       (Success subject_list)
     ∧ map subject subject_list = [Text "B"; Text "A"])
  ∧ (∀ subject_list,
       get_difficulty_ranking (H := Decimal.casts) Examples.two_subjects 50 "hardest"
         (Success subject_list) ->
       map subject subject_list = [Text "B"; Text "A"]).
Proof.
  split.
  - destruct (entries_from "hardest" 1
                (head_rows 50 (reverse (Examples.subject_groups Examples.two_subjects))))
      as [subject_list|] eqn:Hentries; [|vm_compute in Hentries; discriminate].
    exists subject_list. split.
    + apply (ranking_orders_by_mean (H := Decimal.casts)).
      exists "total_theory_marks", (reverse (Examples.subject_groups Examples.two_subjects)).
      split; [vm_compute; reflexivity|]. split; [vm_compute; reflexivity|].
      split; [symmetry; apply reverse_Permutation|].
      split; [apply (bool_decide_unpack _); vm_compute; exact I|].
      split; [exact Hentries | by eapply entries_from_subjects].
    + rewrite (entries_from_subjects _ _ _ _ Hentries). vm_compute. reflexivity.
  - intros subject_list Hranked.
    apply (ranking_orders_by_mean (H := Decimal.casts)) in Hranked
      as (score & ordered & Hscore & _ & Hperm & Hsorted & _ & ->).
    vm_compute in Hscore. injection Hscore as <-.
    change (groups_in_row_order _ _ _) with (Examples.subject_groups Examples.two_subjects)
      in Hperm.
    assert (Hgroups : map (fun r => (col "subject" r, Examples.mean_of r))
                        (Examples.subject_groups Examples.two_subjects)
                      = [(Text "A", Some 60%Q); (Text "B", Some 40%Q)])
      by (vm_compute; reflexivity).
    destruct (Examples.subject_groups Examples.two_subjects) as [|ra [|rb [|]]];
      try discriminate Hgroups.
    injection Hgroups as Ha Hqa Hb Hqb.
    apply Permutation_length_2_inv in Hperm as [-> | ->].
    + apply StronglySorted_inv in Hsorted as [_ Hle].
      apply Forall_cons in Hle as [Hle _]. exfalso.
      unfold row_le, cell_le, Examples.mean_of in *.
      destruct (num_key (col "avg_total_marks" ra)) as [qa|]; [|discriminate].
      destruct (num_key (col "avg_total_marks" rb)) as [qb|]; [|discriminate].
      injection Hqa as Hqa. injection Hqb as Hqb. simpl in Hle.
      unfold Qcle in Hle. rewrite Hqa, Hqb in Hle. by apply Hle.
    + simpl. by rewrite Ha, Hb.
Defined.

(** The claim of C5 on ties fails: X is the subject of the first row, X
    and Y have the same mean, and a permitted result lists Y before X. *)
Lemma tie_order_is_open :
  map (col "subject") (rows Examples.tied_subjects) = [Text "X"; Text "Y"]
  ∧ map (fun r => (col "subject" r, Examples.mean_of r))
      (Examples.subject_groups Examples.tied_subjects)
    = [(Text "X", Some 50%Q); (Text "Y", Some 50%Q)]
  ∧ ∃ subject_list,
      get_difficulty_ranking (H := Decimal.casts) Examples.tied_subjects 50 "hardest"
        (Success subject_list)
      ∧ map subject subject_list = [Text "Y"; Text "X"].
Proof.
  split; [vm_compute; reflexivity|]. split; [vm_compute; reflexivity|].
  destruct (entries_from "hardest" 1
              (head_rows 50 (reverse (Examples.subject_groups Examples.tied_subjects))))
    as [subject_list|] eqn:Hentries; [|vm_compute in Hentries; discriminate].
  exists subject_list. split.
  - apply (ranking_permitted (H := Decimal.casts) _ _ _ "total_theory_marks"
             (reverse (Examples.subject_groups Examples.tied_subjects)));
      [vm_compute; reflexivity | vm_compute; reflexivity
      | symmetry; apply reverse_Permutation | | exact Hentries].
    apply (bool_decide_unpack _). vm_compute. exact I.
  - rewrite (entries_from_subjects _ _ _ _ Hentries). vm_compute. reflexivity.
Qed.

End DifficultyFacts.

(** ** Loading, caching and reloading *)

Module DependenciesFacts.
Import Frame Processor Loader Loading Dependencies Calculations FrameFacts.






Section WithParameters.
Context `{Casts} `{ValueRules}.

Lemma sample_has_no_pass_fail rng :
  has_column (_create_sample_data rng) "pass_fail" = false.
Proof.
  unfold _create_sample_data. rewrite has_column_with_column.
  unfold has_column. cbn [columns]. vm_compute. reflexivity.
Qed.

Lemma sample_is_not_classified rng :
  add_performance_column (_create_sample_data rng) = Err ColumnNotFoundError.
Proof.
  unfold add_performance_column, required_columns. cbn [forallb].
  rewrite sample_has_no_pass_fail. reflexivity.
Qed.




End WithParameters.

(** [load_data] alone is random when there is no file to read. *)
Example load_data_without_a_file :
  col "subject"
    (Examples.row_at
       (load_data (H := Decimal.casts) (H0 := Examples.plain_values) None
          Examples.low_draws) 0)
  = Text "Mathematics"
  ∧ col "subject"
      (Examples.row_at
         (load_data (H := Decimal.casts) (H0 := Examples.plain_values) None
            Examples.other_draws) 0)
    = Text "Physics".
Proof. split; vm_compute; reflexivity. Qed.


End DependenciesFacts.

(** ** The performance column, once more *)

Module ClassificationProps.
Import Frame Processor FrameFacts ProcessorFacts.

Section WithCasts.
Context `{Casts}.




(** The classification reads neither the performance column nor its
    name. *)
Lemma final_expr_insert_performance cols v r :
  final_expr cols (<["performance" := v]> r) = final_expr cols r.
Proof.
  rewrite !final_expr_unfold.
  unfold base_expr, pass_fail_norm, total_pct, theory_pct, practical_pct,
    na_check, fail_check, result_columns. simpl.
  by rewrite !(col_insert_ne "performance") by done.
Qed.

Lemma elem_of_snoc_performance c (cols : list string) :
  c ≠ "performance" ->
  bool_decide (c ∈ cols ++ ["performance"]) = bool_decide (c ∈ cols).
Proof.
  intros Hc. apply bool_decide_ext.
  rewrite elem_of_app, list_elem_of_singleton. tauto.
Qed.

Lemma final_expr_columns cols r :
  final_expr (cols ++ ["performance"]) r = final_expr cols r.
Proof.
  rewrite !final_expr_unfold. unfold result_columns. simpl.
  by rewrite !elem_of_snoc_performance by done.
Qed.

Lemma text_column_with_performance e df c :
  c ≠ "performance" ->
  text_column (with_column "performance" e df) c = text_column df c.
Proof.
  intros Hc. unfold text_column. rewrite rows_with_column.
  induction (rows df) as [|r rs IH]; simpl; [reflexivity|].
  by rewrite col_insert_ne, IH.
Qed.

Lemma with_column_again name (e e' : Row -> cell) df :
  (∀ r, e' (<[name := e r]> r) = e r) ->
  with_column name e' (with_column name e df) = with_column name e df.
Proof.
  intros He. unfold with_column at 1. rewrite has_column_with_column.
  rewrite bool_decide_eq_true_2, orb_true_r by done.
  destruct (with_column name e df) as [cols rs] eqn:Hdf.
  unfold with_column in Hdf. injection Hdf as Hcols Hrows. simpl. f_equal.
  rewrite <- Hrows, map_map. apply map_ext. intros r.
  by rewrite insert_insert_eq, He.
Qed.

(** X2. Classifying a classified frame changes nothing: the second run
    accepts the frame, adds no column and computes the same
    performance for every record, since the classification reads
    neither the performance column nor its presence. *)
Theorem add_performance_column_idempotent df df' :
  add_performance_column df = Ok df' ->
  add_performance_column df' = Ok df'.
Proof.
  intros Hok. pose proof Hok as Hdf'. apply add_performance_column_Ok in Hdf'.
  unfold add_performance_column in *.
  destruct (negb (forallb (has_column df) required_columns)) eqn:Hreq; [discriminate|].
  destruct (negb (forallb _ result_columns)) eqn:Htext; [discriminate|].
  clear Hok. subst df'.
  set (df' := with_column "performance" (final_expr (columns df)) df).
  assert (Hcols : ∀ c, c ≠ "performance" -> has_column df' c = has_column df c).
  { intros c Hc. unfold df'. rewrite has_column_with_column.
    rewrite (bool_decide_eq_false_2 _ Hc). apply orb_false_r. }
  assert (Hreq' : negb (forallb (has_column df') required_columns) = false).
  { rewrite <- Hreq. unfold required_columns. simpl. by rewrite !Hcols by done. }
  assert (Htext' : negb (forallb (fun c => negb (has_column df' c) || text_column df' c)
                           result_columns) = false).
  { rewrite <- Htext. unfold result_columns, df'. simpl.
    rewrite !text_column_with_performance by done. fold df'.
    by rewrite !Hcols by done. }
  rewrite Hreq', Htext'. f_equal. apply with_column_again. intros r.
  rewrite final_expr_insert_performance. unfold df', with_column. simpl.
  destruct (has_column df "performance"); [reflexivity|].
  apply final_expr_columns.
Qed.

End WithCasts.


(** The frame of the four outcomes, classified twice. *)
Lemma four_outcomes_classified_twice :
  add_performance_column (H := Decimal.casts) (Examples.classified Examples.four_outcomes)
  = Ok (Examples.classified Examples.four_outcomes).
Proof.
  apply (add_performance_column_idempotent (H := Decimal.casts) Examples.four_outcomes).
  reflexivity.
Defined.

End ClassificationProps.

(** ** Filters *)

Module FilterProps.
Import Frame Filtering Selection FrameFacts CalculationsFacts.

Lemma keep_all df : keep (fun _ => true) df = df.
Proof.
  destruct df as [cols rs]. unfold keep. simpl. f_equal.
  induction rs as [|r rs IH]; simpl; [reflexivity | by rewrite IH].
Qed.

Lemma keep_keep p q df : keep q (keep p df) = keep (fun r => p r && q r) df.
Proof.
  unfold keep. simpl. f_equal.
  induction (rows df) as [|r rs IH]; simpl; [reflexivity|].
  destruct (p r); simpl; [destruct (q r)|]; by rewrite IH.
Qed.

Lemma keep_ext p q df : (∀ r, p r = q r) -> keep p df = keep q df.
Proof. intros Hpq. unfold keep. f_equal. by apply filter_ext. Qed.

Lemma filter_rows_keep p df :
  filter_rows p df = keep (fun r => bool_decide (p r = Some true)) df.
Proof. reflexivity. Qed.

Lemma eq_num_selects c q :
  bool_decide (eq_num c q = Some true) = bool_decide (c = Num q).
Proof.
  apply bool_decide_ext. destruct c as [|s|x]; simpl; [split; discriminate..|].
  split.
  - intros [= Hx]. apply bool_decide_eq_true in Hx. by subst.
  - intros [= ->]. by rewrite bool_decide_eq_true_2.
Qed.

Lemma eq_text_selects c s :
  bool_decide (eq_text c s = Some true) = bool_decide (c = Text s).
Proof.
  apply bool_decide_ext.
  destruct c as [|t|x]; simpl; [split; discriminate| |split; discriminate].
  split.
  - intros [= Ht]. apply String.eqb_eq in Ht. by subst.
  - intros [= ->]. by rewrite String.eqb_refl.
Qed.

Lemma filter_year_present year_range df :
  has_column df "exam_year" = true ->
  filter_year year_range df = Ok (keep (year_selects year_range) df).
Proof.
  intros Hcol. unfold filter_year, try_filter_on, filter_on. rewrite Hcol.
  destruct year_range as [| |[|lo [|hi rest]]|y]; simpl;
    rewrite ?filter_rows_keep, ?keep_all; try reflexivity; f_equal; apply keep_ext; intros r.
  - apply eq_num_selects.
  - apply year_predicate.
  - apply eq_num_selects.
Qed.

Lemma filter_text_present c wanted df :
  has_column df c = true ->
  (if negb (String.eqb wanted "") && negb (String.eqb wanted "All")
   then filter_on c (fun x => eq_text x wanted) df
   else Ok df)
  = Ok (keep (text_selects c wanted) df).
Proof.
  intros Hcol. unfold text_selects, filter_on. rewrite Hcol.
  destruct (negb _ && negb _).
  - rewrite filter_rows_keep. f_equal. apply keep_ext. intros r. apply eq_text_selects.
  - by rewrite keep_all.
Qed.

Lemma filter_semester_present semester df :
  has_column df "semester" = true ->
  filter_semester semester df = keep (semester_selects semester) df.
Proof.
  intros Hcol. unfold filter_semester, try_filter_on, filter_on. rewrite Hcol.
  destruct semester as [|n]; simpl; [by rewrite keep_all|].
  rewrite filter_rows_keep. apply keep_ext. intros r. apply eq_num_selects.
Qed.

(** X3. On a frame that has the four columns, the years and semesters
    numbers and the departments and subjects texts, [filter_data]
    never raises and returns, in their order, exactly the records that
    pass all four tests at once: the year test (a range with both
    bounds included, or one year cut to an integer), the department,
    the semester and the subject, each skipped for "All". *)
Theorem filters_combine df year_range department semester subject :
  Forall (fun c => has_column df c = true) ["exam_year"; "department"; "semester"; "subject"] ->
  holds_numbers "exam_year" df = true ->
  holds_numbers "semester" df = true ->
  holds_texts "department" df = true ->
  holds_texts "subject" df = true ->
  ∃ filtered,
    filter_data df year_range department semester subject = Ok filtered
    ∧ columns filtered = columns df
    ∧ rows filtered
      = List.filter (selects year_range department semester subject) (rows df).
Proof.
  rewrite !Forall_cons. intros (Hy & Hd & Hs & Hsub & _) _ _ _ _.
  exists (keep (selects year_range department semester subject) df).
  split; [|split; reflexivity].
  unfold filter_data, filter_department, filter_subject.
  rewrite filter_year_present by assumption. simpl.
  rewrite filter_text_present by assumption. simpl.
  rewrite filter_semester_present by assumption.
  rewrite filter_text_present by assumption.
  rewrite !keep_keep. f_equal. apply keep_ext. intros r.
  unfold selects. by rewrite !andb_assoc.
Qed.

(** What the stages do, whatever the columns. *)
Lemma filter_year_cases year_range df :
  filter_year year_range df = Err ColumnNotFoundError
  ∨ ∃ q, filter_year year_range df = Ok (keep q df)
         ∧ ∀ df', columns df' = columns df ->
                  filter_year year_range df' = Ok (keep q df').
Proof.
  destruct (has_column df "exam_year") eqn:Hcol.
  - right. exists (year_selects year_range). split.
    + by apply filter_year_present.
    + intros df' Hcols. apply filter_year_present.
      unfold has_column in *. by rewrite Hcols.
  - unfold filter_year, try_filter_on, filter_on. rewrite Hcol.
    destruct year_range as [| |[|lo [|hi rest]]|y]; simpl; auto;
      right; exists (fun _ => true); rewrite keep_all;
      (split; [reflexivity|]); intros df' Hcols; unfold has_column in *;
      rewrite ?Hcols, ?Hcol, ?keep_all; reflexivity.
Qed.

Lemma filter_text_cases c wanted df :
  let stage df := if negb (String.eqb wanted "") && negb (String.eqb wanted "All")
                  then filter_on c (fun x => eq_text x wanted) df
                  else Ok df in
  stage df = Err ColumnNotFoundError
  ∨ ∃ q, stage df = Ok (keep q df)
         ∧ ∀ df', columns df' = columns df -> stage df' = Ok (keep q df').
Proof.
  intros stage. unfold stage.
  destruct (has_column df c) eqn:Hcol.
  - right. exists (text_selects c wanted). split.
    + by apply filter_text_present.
    + intros df' Hcols. apply filter_text_present.
      unfold has_column in *. by rewrite Hcols.
  - unfold filter_on. rewrite Hcol. destruct (negb _ && negb _); auto.
    right. exists (fun _ => true). rewrite keep_all. split; [reflexivity|].
    intros df' _. by rewrite keep_all.
Qed.

Lemma filter_semester_cases semester df :
  ∃ q, filter_semester semester df = keep q df
       ∧ ∀ df', columns df' = columns df -> filter_semester semester df' = keep q df'.
Proof.
  destruct (has_column df "semester") eqn:Hcol.
  - exists (semester_selects semester). split.
    + by apply filter_semester_present.
    + intros df' Hcols. apply filter_semester_present.
      unfold has_column in *. by rewrite Hcols.
  - exists (fun _ => true). unfold filter_semester, try_filter_on, filter_on.
    rewrite Hcol, keep_all. split; [by destruct semester|].
    intros df' Hcols. unfold has_column in *. rewrite Hcols, Hcol, keep_all.
    by destruct semester.
Qed.

(** A successful [filter_data] keeps the rows that a test on the row
    alone selects, and does the same on every frame with these columns. *)
Lemma filter_data_keeps df year_range department semester subject filtered :
  filter_data df year_range department semester subject = Ok filtered ->
  ∃ q, filtered = keep q df
       ∧ ∀ df', columns df' = columns df ->
                filter_data df' year_range department semester subject = Ok (keep q df').
Proof.
  unfold filter_data, filter_department, filter_subject.
  destruct (filter_year_cases year_range df) as [-> | (q1 & -> & H1)]; [discriminate|].
  simpl.
  destruct (filter_text_cases "department" department (keep q1 df))
    as [-> | (q2 & -> & H2)]; [discriminate|].
  simpl.
  destruct (filter_semester_cases semester (keep q2 (keep q1 df))) as (q3 & -> & H3).
  destruct (filter_text_cases "subject" subject (keep q3 (keep q2 (keep q1 df))))
    as [-> | (q4 & -> & H4)]; [discriminate|].
  intros [= <-]. exists (fun r => q1 r && (q2 r && (q3 r && q4 r))). split.
  - by rewrite !keep_keep.
  - intros df' Hcols. rewrite (H1 df' Hcols). simpl.
    rewrite (H2 (keep q1 df')) by (simpl; exact Hcols). simpl.
    rewrite (H3 (keep q2 (keep q1 df'))) by (simpl; exact Hcols).
    rewrite (H4 (keep q3 (keep q2 (keep q1 df')))) by (simpl; exact Hcols).
    by rewrite !keep_keep.
Qed.

Lemma filter_sublist {A} (q : A -> bool) (l : list A) : sublist (List.filter q l) l.
Proof.
  induction l as [|x l IH]; simpl; [constructor|].
  destruct (q x); by constructor.
Qed.

Lemma filter_idempotent {A} (q : A -> bool) (l : list A) :
  List.filter q (List.filter q l) = List.filter q l.
Proof.
  induction l as [|x l IH]; simpl; [reflexivity|].
  destruct (q x) eqn:Hq; simpl; rewrite ?Hq, IH; reflexivity.
Qed.

(** X4. Whatever the arguments, a frame [filter_data] returns has the
    columns of its input and a selection of its rows, in their order
    and unchanged: the filter adds, alters and reorders nothing. *)
Theorem filter_data_selects_rows df year_range department semester subject filtered :
  filter_data df year_range department semester subject = Ok filtered ->
  columns filtered = columns df
  ∧ sublist (rows filtered) (rows df)
  ∧ height filtered <= height df.
Proof.
  intros Hok. apply filter_data_keeps in Hok as (q & -> & _).
  split; [reflexivity|]. split; [apply filter_sublist|].
  unfold height. simpl. apply sublist_length, filter_sublist.
Qed.

(** X5. Filtering the result of [filter_data] again, with the same
    arguments, returns it as it is. *)
Theorem filter_data_idempotent df year_range department semester subject filtered :
  filter_data df year_range department semester subject = Ok filtered ->
  filter_data filtered year_range department semester subject = Ok filtered.
Proof.
  intros Hok. apply filter_data_keeps in Hok as (q & -> & Hsame).
  rewrite (Hsame (keep q df)) by reflexivity.
  f_equal. unfold keep. simpl. f_equal. apply filter_idempotent.
Qed.

(** X6. On a frame without an exam_year column the two year filters
    differ: a range of two or more years raises, whatever the other
    arguments, while a single year (alone in a list, or as a number)
    is skipped without notice to the caller and the frame comes back
    unfiltered. *)
Theorem missing_year_column df :
  has_column df "exam_year" = false ->
  (∀ lo hi rest department semester subject,
     filter_data df (YearList (lo :: hi :: rest)) department semester subject
     = Err ColumnNotFoundError)
  ∧ (∀ y, filter_data df (YearList [y]) "All" SemesterAll "All" = Ok df)
  ∧ (∀ y, filter_data df (YearScalar y) "All" SemesterAll "All" = Ok df).
Proof.
  intros Hcol. unfold filter_data, filter_year, try_filter_on, filter_on.
  rewrite Hcol. repeat split; intros; reflexivity.
Qed.

(** The CS records of the first semester between 2021 and 2022. *)
Lemma filters_combine_on_records :
  ∃ filtered,
    filter_data Cases.records (YearList [Qc_of_Z 2021; Qc_of_Z 2022]) "CS"
      (SemesterInt 1) "All" = Ok filtered
    ∧ map (fun r => (col "student_id" r, col "subject" r)) (rows filtered)
      = [(Text "S2", Text "Algebra"); (Text "S4", Text "Algebra"); (Text "S2", Text "Logic")].
Proof.
  destruct (filters_combine Cases.records (YearList [Qc_of_Z 2021; Qc_of_Z 2022]) "CS"
              (SemesterInt 1) "All")
    as (filtered & Hok & _ & Hrows);
    [repeat constructor | reflexivity | reflexivity | reflexivity | reflexivity |].
  exists filtered. split; [exact Hok|]. rewrite Hrows. vm_compute. reflexivity.
Defined.

(** The records of the year 2021 (given as 2021.7, which [int] cuts to
    2021) are a selection of the six records. *)
Lemma single_year_selects_rows :
  ∃ filtered,
    filter_data Cases.records (YearScalar (Q2Qc (20217 # 10))) "" SemesterAll "All"
    = Ok filtered
    ∧ map (col "student_id") (rows filtered) = [Text "S1"; Text "S2"; Text "S3"]
    ∧ columns filtered = columns Cases.records
    ∧ sublist (rows filtered) (rows Cases.records)
    ∧ height filtered <= height Cases.records.
Proof.
  eexists. split; [reflexivity|]. split; [vm_compute; reflexivity|].
  apply (filter_data_selects_rows Cases.records (YearScalar (Q2Qc (20217 # 10))) ""
           SemesterAll "All").
  reflexivity.
Defined.

(** The Algebra records, filtered for Algebra again. *)
Lemma algebra_filtered_twice :
  ∃ filtered,
    filter_data Cases.records YearAll "All" SemesterAll "Algebra" = Ok filtered
    ∧ height filtered = 4%nat
    ∧ filter_data filtered YearAll "All" SemesterAll "Algebra" = Ok filtered.
Proof.
  eexists. split; [reflexivity|]. split; [vm_compute; reflexivity|].
  apply (filter_data_idempotent Cases.records YearAll "All" SemesterAll "Algebra").
  reflexivity.
Defined.

(** The frame with its own total has no exam_year column. *)
Lemma missing_year_column_example :
  (∀ lo hi rest department semester subject,
     filter_data Examples.with_own_total (YearList (lo :: hi :: rest)) department
       semester subject
     = Err ColumnNotFoundError)
  ∧ (∀ y, filter_data Examples.with_own_total (YearList [y]) "All" SemesterAll "All"
          = Ok Examples.with_own_total)
  ∧ (∀ y, filter_data Examples.with_own_total (YearScalar y) "All" SemesterAll "All"
          = Ok Examples.with_own_total).
Proof. apply (missing_year_column Examples.with_own_total). reflexivity. Defined.

End FilterProps.

(** ** Rates *)

Module RateProps.
Import Frame Calculations FrameFacts.

Lemma Qc_of_nat_pos t : (0 < t)%nat -> (0 < Qc_of_Z (Z.of_nat t))%Qc.
Proof. intros Ht. rewrite <- Z2Qc_inj_0. apply (proj1 (Z2Qc_inj_lt _ _)). lia. Qed.

Lemma Qc_of_nat_nonneg t : (0 ≤ Qc_of_Z (Z.of_nat t))%Qc.
Proof. rewrite <- Z2Qc_inj_0. apply (proj1 (Z2Qc_inj_le _ _)). lia. Qed.

Lemma hundred_nonneg : (0 ≤ Qc_of_Z 100)%Qc.
Proof. rewrite <- Z2Qc_inj_0. by apply (proj1 (Z2Qc_inj_le _ _)). Qed.

Lemma rate_nonneg count total : (0 < total)%nat -> (0 ≤ rate count total)%Qc.
Proof.
  intros Ht. unfold rate, Qcdiv.
  apply Qcmult_nonneg_nonneg; [|apply hundred_nonneg].
  apply Qcmult_nonneg_nonneg; [apply Qc_of_nat_nonneg|].
  apply Qclt_le_weak, Qcinv_pos. by apply Qc_of_nat_pos.
Qed.

Lemma rate_le_100 count total :
  (0 < total)%nat -> (count <= total)%nat -> (rate count total ≤ Qc_of_Z 100)%Qc.
Proof.
  intros Ht Hle. pose proof (Qc_of_nat_pos total Ht) as Hpos.
  apply (Qcmult_le_mono_pos_r _ _ (Qc_of_Z (Z.of_nat total)) Hpos).
  replace (rate count total * Qc_of_Z (Z.of_nat total))%Qc
    with (Qc_of_Z 100 * Qc_of_Z (Z.of_nat count))%Qc.
  - apply Qcmult_le_mono_nonneg_l; [apply hundred_nonneg|]. apply (proj1 (Z2Qc_inj_le _ _)). lia.
  - unfold rate. field. intros Hz. rewrite Hz in Hpos. by apply (irreflexivity Qclt) in Hpos.
Qed.



Lemma count_true_le p (rs : list Row) : (count_true p rs <= length rs)%nat.
Proof. unfold count_true. apply filter_length_le || apply List.filter_length_le. Qed.



Lemma remove_dups_length_le (l : list cell) : (length (remove_dups l) <= length l)%nat.
Proof.
  induction l as [|x l IH]; simpl; [lia|]. case_decide; simpl; lia.
Qed.


Lemma n_unique_le c (rs : list Row) : (n_unique c rs <= length rs)%nat.
Proof.
  unfold n_unique. rewrite <- (length_map (col c) rs). apply remove_dups_length_le.
Qed.


Section WithCasts.
Context `{Casts}.



Lemma calculate_rates_Ok data rs :
  calculate_rates data = Ok rs ->
  (height data = 0%nat ∧ rs = mkRates 0%Qc 0%Qc 0%Qc 0 0)
  ∨ ((0 < height data)%nat
     ∧ rs = mkRates
              (rate (count_true (fun r => eq_text (norm_of "pass_fail" r) "pass")
                       (rows data)) (height data))
              (rate (count_true (fun r => eq_text (col "performance" r) "Distinction")
                       (rows data)) (height data))
              (rate (count_true (fun r => eq_text (norm_of "pass_fail" r) "fail")
                       (rows data)) (height data))
              (n_unique "student_id" (rows data)) (height data)).
Proof.
  unfold calculate_rates. destruct (height data =? 0)%nat eqn:Hheight.
  - apply Nat.eqb_eq in Hheight. intros [= <-]. by left.
  - apply Nat.eqb_neq in Hheight.
    destruct (negb (forallb _ _)); [discriminate|].
    rewrite (proj2 (Nat.ltb_lt 0 (height data))) by lia.
    intros [= <-]. right. split; [lia | reflexivity].
Qed.



End WithCasts.


Example rates_of_the_records_values :
  map this [pass_rate (Cases.rates_of Cases.records);
            dist_rate (Cases.rates_of Cases.records);
            fail_rate (Cases.rates_of Cases.records)]
  = [(200 # 3)%Q; (100 # 3)%Q; (50 # 3)%Q]
  ∧ unique_students (Cases.rates_of Cases.records) = 4%nat.
Proof. split; vm_compute; reflexivity. Qed.


End RateProps.

(** ** The derived columns, once more *)

Module DerivationProps.
Import Frame Loader Derived FrameFacts LoaderFacts.

#[local] Hint Resolve numeric_Null numeric_Num numeric_add numeric_mul numeric_div
  numeric_mean numeric_when : numeric.

Ltac stage_columns :=
  rewrite ?has_column_stage5 by done; rewrite ?has_column_stage4 by done;
  rewrite ?has_column_stage3 by done; rewrite ?has_column_stage2 by done;
  rewrite ?has_column_stage1 by done.

Ltac row_columns :=
  unfold row6, row5, row4, row3, row2, row1;
  repeat (rewrite col_insert_ne by done).

Lemma columns_with_column name e df :
  columns (with_column name e df)
  = columns df ++ (if has_column df name then [] else [name]).
Proof.
  unfold with_column. simpl. destruct (has_column df name); [by rewrite app_nil_r | done].
Qed.

Lemma pct_bounds (o m : Qc) :
  (0 < m)%Qc -> (0 ≤ o)%Qc -> (o ≤ m)%Qc ->
  (0 ≤ o / m * Qc_of_Z 100)%Qc ∧ (o / m * Qc_of_Z 100 ≤ Qc_of_Z 100)%Qc.
Proof.
  intros Hm Ho Hle.
  assert (H100 : (0 ≤ Qc_of_Z 100)%Qc).
  { rewrite <- Z2Qc_inj_0. by apply (proj1 (Z2Qc_inj_le _ _)). }
  assert (Hne : m ≠ 0%Qc).
  { intros Hz. rewrite Hz in Hm. by apply (irreflexivity Qclt) in Hm. }
  split.
  - apply Qcmult_nonneg_nonneg; [|exact H100]. unfold Qcdiv.
    apply Qcmult_nonneg_nonneg; [exact Ho|]. by apply Qclt_le_weak, Qcinv_pos.
  - apply (Qcmult_le_mono_pos_r _ _ m Hm).
    replace (o / m * Qc_of_Z 100 * m)%Qc with (Qc_of_Z 100 * o)%Qc by (field; exact Hne).
    by apply Qcmult_le_mono_nonneg_l.
Qed.

Section WithCasts.
Context `{Casts}.

#[local] Hint Resolve numeric_cast_f64 numeric_credit_gated numeric_ratio_pct : numeric.

Lemma has_column_stage6 c df :
  c ≠ "total_practical_marks" -> has_column (stage6 df) c = has_column (stage5 df) c.
Proof.
  intros Hc. unfold stage6, add_total. rewrite has_column_with_column.
  rewrite (bool_decide_eq_false_2 _ Hc). apply orb_false_r.
Qed.

Lemma cast_f64_numeric c : numeric c -> cast_f64 c = c.
Proof. by intros [-> | [q ->]]. Qed.

Lemma numeric_total total a b df r : numeric (total_expr total a b df r).
Proof. unfold total_expr. destruct (has_column df total); auto with numeric. Qed.

Lemma numeric_weighted_total df r : numeric (weighted_total_expr df r).
Proof. unfold weighted_total_expr. case_match; auto with numeric. Qed.

Lemma columns_add_derived_columns df :
  columns (_add_derived_columns df)
  = columns df ++ List.filter (fun c => negb (has_column df c)) derived_columns.
Proof.
  unfold _add_derived_columns, add_weighted_total, add_total, add_ese_practical,
    add_ese_theory, add_cia_practical, add_cia_theory.
  rewrite !columns_with_column, !has_column_with_column.
  rewrite !bool_decide_eq_false_2 by done. rewrite !orb_false_r.
  unfold derived_columns. simpl.
  destruct (has_column df "cia_theory_avg"), (has_column df "cia_practical_avg"),
    (has_column df "ese_theory_internal"), (has_column df "ese_practical_internal"),
    (has_column df "total_theory_marks"), (has_column df "total_practical_marks"),
    (has_column df "weighted_total"); simpl; rewrite <- ?app_assoc; reflexivity.
Qed.

Lemma has_derived_columns df c :
  c ∈ derived_columns -> has_column (_add_derived_columns df) c = true.
Proof.
  intros Hc. apply bool_decide_eq_true. rewrite columns_add_derived_columns.
  apply elem_of_app. destruct (has_column df c) eqn:Hhas.
  - left. by apply bool_decide_eq_true in Hhas.
  - right. apply list_elem_of_In, filter_In. split; [by apply list_elem_of_In|].
    by rewrite Hhas.
Qed.

(** X9. [_add_derived_columns] keeps the records and the columns it
    finds: the result has the columns of the input, in their order,
    followed by those of the seven derived columns the input lacks, in
    the order they are written; it has as many records, and every cell
    of a column that is not one of the seven is left as it was. *)
Theorem derived_columns_are_appended df :
  columns (_add_derived_columns df)
  = columns df ++ List.filter (fun c => negb (has_column df c)) derived_columns
  ∧ height (_add_derived_columns df) = height df
  ∧ ∀ i r', rows (_add_derived_columns df) !! i = Some r' ->
            ∃ r, rows df !! i = Some r ∧ ∀ c, c ∉ derived_columns -> r' !! c = r !! c.
Proof.
  split; [apply columns_add_derived_columns|split].
  - unfold height. by rewrite rows_add_derived_columns, length_map.
  - intros i r' Hr'. rewrite lookup_add_derived_columns in Hr'.
    destruct (rows df !! i) as [r|]; [|discriminate]. injection Hr' as <-.
    exists r. split; [reflexivity|]. intros c Hc.
    unfold derived_columns in Hc. rewrite !not_elem_of_cons in Hc.
    destruct Hc as (? & ? & ? & ? & ? & ? & ? & _).
    unfold derived_row, row6, row5, row4, row3, row2, row1.
    by rewrite !lookup_insert_ne by done.
Qed.

Lemma derived_row_numeric df r c :
  c ∈ derived_columns -> numeric (col c (derived_row df r)).
Proof.
  unfold derived_columns. rewrite !elem_of_cons, elem_of_nil.
  intros [-> | [-> | [-> | [-> | [-> | [-> | [-> | []]]]]]]];
    unfold derived_row; row_columns; rewrite col_insert_eq.
  - apply numeric_cia_theory.
  - apply numeric_cia_practical.
  - apply numeric_ese_theory.
  - apply numeric_ese_practical.
  - apply numeric_total.
  - apply numeric_total.
  - apply numeric_weighted_total.
Qed.

(** X10. Whatever the input holds, every cell of the seven derived
    columns is null or a number after [_add_derived_columns]: a text
    that does not read as a number has become null. *)
Theorem derived_cells_are_numbers df i r' c :
  rows (_add_derived_columns df) !! i = Some r' ->
  c ∈ derived_columns ->
  numeric (col c r').
Proof.
  intros Hr' Hc. rewrite lookup_add_derived_columns in Hr'.
  destruct (rows df !! i) as [r|]; [|discriminate]. injection Hr' as <-.
  by apply derived_row_numeric.
Qed.

Lemma credit_or_one_number df c r : ∃ q, credit_or_one df c r = Num q.
Proof.
  unfold credit_or_one. destruct (has_column df c); [|by eexists].
  destruct (numeric_cast_f64 (col c r)) as [-> | [q ->]]; by eexists.
Qed.

Lemma or_zero_number c : numeric c -> ∃ q, fill_null (Num 0%Qc) c = Num q.
Proof. intros [-> | [q ->]]; by eexists. Qed.

(** X11. The weighted total is never null: the two totals exist when it
    is computed, a missing total counts as 0 and a missing credit as
    1, so that every record gets the number
    theory total * theory credit + practical total * practical credit,
    and a record without any marks gets 0. *)
Theorem weighted_total_is_a_number df i r' :
  rows (_add_derived_columns df) !! i = Some r' ->
  (∃ t p ct cp,
     r' !! "weighted_total" = Some (Num (t * ct + p * cp))
     ∧ fill_null (Num 0%Qc) (col "total_theory_marks" r') = Num t
     ∧ fill_null (Num 0%Qc) (col "total_practical_marks" r') = Num p
     ∧ credit_or_one df "theory_credit" r' = Num ct
     ∧ credit_or_one df "practical_credit" r' = Num cp)
  ∧ (col "total_theory_marks" r' = Null -> col "total_practical_marks" r' = Null ->
     r' !! "weighted_total" = Some (Num 0%Qc)).
Proof.
  intros Hr'. rewrite lookup_add_derived_columns in Hr'.
  destruct (rows df !! i) as [r|]; [|discriminate]. injection Hr' as <-.
  assert (Hnt : numeric (col "total_theory_marks" (row6 df r))).
  { unfold row6. rewrite col_insert_ne by done. unfold row5. rewrite col_insert_eq.
    apply numeric_total. }
  assert (Hnp : numeric (col "total_practical_marks" (row6 df r))).
  { unfold row6. rewrite col_insert_eq. apply numeric_total. }
  assert (Hwt : derived_row df r !! "weighted_total"
                = Some (add (mul (fill_null (Num 0%Qc) (col "total_theory_marks" (row6 df r)))
                                 (credit_or_one (stage6 df) "theory_credit" (row6 df r)))
                            (mul (fill_null (Num 0%Qc)
                                    (col "total_practical_marks" (row6 df r)))
                                 (credit_or_one (stage6 df) "practical_credit" (row6 df r))))).
  { unfold derived_row. rewrite lookup_insert_eq. f_equal.
    unfold weighted_total_expr.
    assert (has_column (stage6 df) "total_theory_marks" = true) as ->.
    { rewrite has_column_stage6 by done. unfold stage5, add_total.
      rewrite has_column_with_column. rewrite bool_decide_eq_true_2 by done.
      apply orb_true_r. }
    assert (has_column (stage6 df) "total_practical_marks" = true) as ->.
    { unfold stage6, add_total. rewrite has_column_with_column.
      rewrite bool_decide_eq_true_2 by done. apply orb_true_r. }
    simpl. by rewrite !cast_f64_numeric by assumption. }
  assert (Hc : ∀ c, c ∉ derived_columns ->
               credit_or_one (stage6 df) c (row6 df r) = credit_or_one df c (derived_row df r)).
  { intros c Hc. unfold derived_columns in Hc. rewrite !not_elem_of_cons in Hc.
    destruct Hc as (? & ? & ? & ? & ? & ? & ? & _).
    unfold credit_or_one. rewrite has_column_stage6 by done. stage_columns.
    unfold derived_row. rewrite (col_insert_ne "weighted_total") by done. reflexivity. }
  rewrite !Hc in Hwt by (apply (bool_decide_unpack _); vm_compute; exact I).
  assert (Ht : col "total_theory_marks" (derived_row df r)
               = col "total_theory_marks" (row6 df r)).
  { unfold derived_row. by rewrite col_insert_ne by done. }
  assert (Hp : col "total_practical_marks" (derived_row df r)
               = col "total_practical_marks" (row6 df r)).
  { unfold derived_row. by rewrite col_insert_ne by done. }
  rewrite Ht, Hp.
  destruct (or_zero_number _ Hnt) as [t Het], (or_zero_number _ Hnp) as [p Hep].
  destruct (credit_or_one_number df "theory_credit" (derived_row df r)) as [ct Hct].
  destruct (credit_or_one_number df "practical_credit" (derived_row df r)) as [cp Hcp].
  rewrite Het, Hep, Hct, Hcp in Hwt. simpl in Hwt. split.
  - by exists t, p, ct, cp.
  - intros Hnull_t Hnull_p. rewrite Hnull_t in Het. rewrite Hnull_p in Hep.
    injection Het as <-. injection Hep as <-. rewrite Hwt.
    assert (Hz : (0 * ct + 0 * cp = 0)%Qc) by ring. by rewrite Hz.
Qed.

(** The sentinel, in any case, is deleted as a whole. *)
Lemma delete_sentinel s :
  TextOps.to_lowercase s = "not applicable" ->
  TextOps.delete_all_ci "not applicable" s = "".
Proof.
  intros Hs.
  do 14 (destruct s as [|? s]; [discriminate|]; simpl in Hs;
         injection Hs as ? Hs).
  destruct s; [|discriminate].
  unfold TextOps.delete_all_ci. simpl.
  repeat match goal with Heq : TextOps.ascii_lower _ = _ |- _ => rewrite Heq; clear Heq end.
  reflexivity.
Qed.

Lemma safe_percentage_sentinel c r s :
  str_to_f64 "" = None ->
  col c r = Text s ->
  TextOps.to_lowercase s = "not applicable" ->
  safe_percentage c r = Null.
Proof.
  intros Hempty Hcell Hs. unfold safe_percentage. rewrite Hcell. simpl.
  by rewrite (delete_sentinel s Hs), Hempty.
Qed.

Lemma credit_gated_sentinel credit c r s :
  str_to_f64 "" = None ->
  col c r = Text s ->
  TextOps.to_lowercase s = "not applicable" ->
  credit_gated credit c r = Null.
Proof.
  intros Hempty Hcell Hs. unfold credit_gated.
  rewrite (safe_percentage_sentinel c r s Hempty Hcell Hs).
  by destruct (gt_num _ _) as [[]|].
Qed.

(** X12. When a derived percentage field is taken from its percentage
    column of the new format and a record reads "Not Applicable" there,
    in any case, the field of that record is null, with or without a
    credit column and whatever the credit (the empty text that is left
    of the sentinel being no number). *)
Theorem not_applicable_is_null f df i r s :
  str_to_f64 "" = None ->
  rows df !! i = Some r ->
  Forall (fun c => has_column df c = false) (earlier_sources f) ->
  has_column df (percentage_source f) = true ->
  col (percentage_source f) r = Text s ->
  TextOps.to_lowercase s = "not applicable" ->
  ∃ r', rows (_add_derived_columns df) !! i = Some r' ∧ r' !! target f = Some Null.
Proof.
  intros Hempty Hr Hearlier Hsource Hcell Hs.
  rewrite lookup_add_derived_columns, Hr. simpl. eexists. split; [reflexivity|].
  unfold derived_row, row6, row5.
  unfold earlier_sources, cia_theory_cols, cia_prac_cols in Hearlier.
  destruct f; simpl in *; repeat (rewrite lookup_insert_ne by done);
    rewrite !Forall_cons in Hearlier.
  - unfold row4, row3, row2; repeat (rewrite lookup_insert_ne by done).
    unfold row1. rewrite lookup_insert_eq. f_equal.
    unfold cia_theory_expr, cia_theory_cols. simpl.
    destruct Hearlier as (-> & -> & -> & _). rewrite Hsource. simpl.
    destruct (has_column df "theory_credit");
      [by eapply credit_gated_sentinel | by eapply safe_percentage_sentinel].
  - unfold row4, row3; repeat (rewrite lookup_insert_ne by done).
    unfold row2. rewrite lookup_insert_eq. f_equal.
    unfold cia_practical_expr, cia_prac_cols. simpl. stage_columns.
    destruct Hearlier as (-> & -> & -> & _). rewrite Hsource. simpl.
    destruct (has_column df "practical_credit");
      [eapply credit_gated_sentinel | eapply safe_percentage_sentinel]; eauto;
      by row_columns.
  - unfold row4; repeat (rewrite lookup_insert_ne by done).
    unfold row3. rewrite lookup_insert_eq. f_equal.
    unfold ese_theory_expr. stage_columns.
    destruct Hearlier as (-> & _). rewrite Hsource. simpl.
    destruct (has_column df "theory_credit");
      [eapply credit_gated_sentinel | eapply safe_percentage_sentinel]; eauto;
      by row_columns.
  - unfold row4. rewrite lookup_insert_eq. f_equal.
    unfold ese_practical_expr. stage_columns.
    destruct Hearlier as (-> & _). rewrite Hsource. simpl.
    destruct (has_column df "practical_credit");
      [eapply credit_gated_sentinel | eapply safe_percentage_sentinel]; eauto;
      by row_columns.
Qed.

Lemma ratio_pct_cases obtained max r :
  (cast_f64 (col max r) = Null -> ratio_pct obtained max r = Null)
  ∧ (∀ m, cast_f64 (col max r) = Num m -> (m ≤ 0)%Qc -> ratio_pct obtained max r = Null)
  ∧ (∀ o m, cast_f64 (col obtained r) = Num o -> cast_f64 (col max r) = Num m ->
            (0 < m)%Qc ->
            ratio_pct obtained max r = Num (o / m * Qc_of_Z 100)).
Proof.
  unfold ratio_pct. split; [|split].
  - by intros ->.
  - intros m -> Hm. simpl. rewrite bool_decide_eq_false_2; [done|].
    by apply Qcle_not_lt.
  - intros o m -> -> Hm. simpl. by rewrite bool_decide_eq_true_2.
Qed.

(** X13. In the old format (no CIA marks, no percentage column and no
    average of its own, but the columns cia_obtained and cia_max) the
    CIA average of a record is the percentage obtained / max * 100
    when the maximum is positive, and null when the maximum is
    missing, zero or negative: the division is never by zero.  With
    marks between 0 and the maximum the percentage lies between 0 and
    100. *)
Theorem old_format_cia_is_a_ratio df i r :
  rows df !! i = Some r ->
  Forall (fun c => has_column df c = false)
    (cia_theory_cols ++ ["theory_internal_percentage"; "cia_theory_avg"]) ->
  has_column df "cia_obtained" = true ->
  has_column df "cia_max" = true ->
  ∃ r', rows (_add_derived_columns df) !! i = Some r'
        ∧ (cast_f64 (col "cia_max" r) = Null -> col "cia_theory_avg" r' = Null)
        ∧ (∀ m, cast_f64 (col "cia_max" r) = Num m -> (m ≤ 0)%Qc ->
                col "cia_theory_avg" r' = Null)
        ∧ (∀ o m, cast_f64 (col "cia_obtained" r) = Num o ->
                  cast_f64 (col "cia_max" r) = Num m -> (0 < m)%Qc ->
                  col "cia_theory_avg" r' = Num (o / m * Qc_of_Z 100)
                  ∧ ((0 ≤ o)%Qc -> (o ≤ m)%Qc ->
                     (0 ≤ o / m * Qc_of_Z 100)%Qc ∧ (o / m * Qc_of_Z 100 ≤ Qc_of_Z 100)%Qc)).
Proof.
  intros Hr Hnone Hobtained Hmax. unfold cia_theory_cols in Hnone. simpl in Hnone.
  rewrite !Forall_cons in Hnone. destruct Hnone as (H1 & H2 & H3 & H4 & H5 & _).
  rewrite lookup_add_derived_columns, Hr. simpl. eexists. split; [reflexivity|].
  assert (Hcia : col "cia_theory_avg" (derived_row df r)
                 = ratio_pct "cia_obtained" "cia_max" r).
  { unfold derived_row. row_columns. rewrite col_insert_eq.
    unfold cia_theory_expr, cia_theory_cols. simpl.
    by rewrite H1, H2, H3, H4, H5, Hobtained, Hmax. }
  rewrite Hcia.
  destruct (ratio_pct_cases "cia_obtained" "cia_max" r) as (Hnull & Hzero & Hpos).
  split; [exact Hnull|]. split; [exact Hzero|].
  intros o m Ho Hm Hlt. split; [by apply Hpos|].
  intros Hge Hle. by apply pct_bounds.
Qed.

End WithCasts.

(** The two components of the new format: the derived cells of its two
    records are numbers or null. *)
Lemma derived_cells_of_two_components :
  numeric (col "ese_theory_internal"
             (Examples.row_at
                (_add_derived_columns (H := Decimal.casts) Examples.two_components) 1)).
Proof.
  apply (derived_cells_are_numbers (H := Decimal.casts) Examples.two_components 1).
  - reflexivity.
  - apply (bool_decide_unpack _). vm_compute. exact I.
Defined.

(** A record whose external theory component is missing has a null
    theory total and no practical total: its weighted total is 0. *)
Lemma weighted_total_without_marks :
  (∃ t p ct cp,
     external_missing !! "weighted_total" = Some (Num (t * ct + p * cp))
     ∧ fill_null (Num 0%Qc) (col "total_theory_marks" external_missing) = Num t
     ∧ fill_null (Num 0%Qc) (col "total_practical_marks" external_missing) = Num p
     ∧ credit_or_one (H := Decimal.casts) Examples.two_components "theory_credit"
         external_missing = Num ct
     ∧ credit_or_one (H := Decimal.casts) Examples.two_components "practical_credit"
         external_missing = Num cp)
  ∧ (col "total_theory_marks" external_missing = Null ->
     col "total_practical_marks" external_missing = Null ->
     external_missing !! "weighted_total" = Some (Num 0%Qc)).
Proof.
  apply (weighted_total_is_a_number (H := Decimal.casts) Examples.two_components 1).
  reflexivity.
Defined.

Example weighted_totals_of_two_components :
  map (fun r => this <$> Order.num_key (col "weighted_total" r))
    (rows (_add_derived_columns (H := Decimal.casts) Examples.two_components))
  = [Some (141 # 2)%Q; Some 0%Q].
Proof. vm_compute. reflexivity. Qed.

(** The practical fields of a record that reads "NOT APPLICABLE" and
    "Not Applicable", its practical credit being 2. *)
Lemma not_applicable_with_credit :
  (∃ r', rows (_add_derived_columns (H := Decimal.casts) no_practical) !! 0%nat = Some r'
         ∧ r' !! target CiaPractical = Some Null)
  ∧ (∃ r', rows (_add_derived_columns (H := Decimal.casts) no_practical) !! 0%nat = Some r'
           ∧ r' !! target EsePractical = Some Null).
Proof.
  split.
  - apply (not_applicable_is_null (H := Decimal.casts) CiaPractical no_practical 0
             (Examples.row_at no_practical 0) "NOT APPLICABLE");
      first [reflexivity | repeat constructor].
  - apply (not_applicable_is_null (H := Decimal.casts) EsePractical no_practical 0
             (Examples.row_at no_practical 0) "Not Applicable");
      first [reflexivity | repeat constructor].
Defined.

(** 18 marks of 20 are 90 percent. *)
Lemma old_format_18_of_20 :
  ∃ r', rows (_add_derived_columns (H := Decimal.casts) old_format) !! 0%nat = Some r'
        ∧ col "cia_theory_avg" r' = Num (Qc_of_Z 18 / Qc_of_Z 20 * Qc_of_Z 100).
Proof.
  destruct (old_format_cia_is_a_ratio (H := Decimal.casts) old_format 0
              (Examples.row_at old_format 0))
    as (r' & Hr' & _ & _ & Hratio);
    [reflexivity | repeat constructor | reflexivity | reflexivity |].
  exists r'. split; [exact Hr'|].
  apply (Hratio (Qc_of_Z 18) (Qc_of_Z 20)); [reflexivity | reflexivity |].
  rewrite <- Z2Qc_inj_0. by apply (proj1 (Z2Qc_inj_lt _ _)).
Defined.

Example old_format_derived :
  map (fun r => (this <$> Order.num_key (col "cia_theory_avg" r),
                 this <$> Order.num_key (col "ese_theory_internal" r)))
    (rows (_add_derived_columns (H := Decimal.casts) old_format))
  = [(Some (90 # 1)%Q, Some (50 # 1)%Q); (None, Some (50 # 1)%Q); (None, None)].
Proof. vm_compute. reflexivity. Qed.

End DerivationProps.

(** ** Groups *)

Module GroupingProps.
Import Frame Order.

Lemma first_keys_from_elem (cs acc : list cell) x :
  x ∈ fold_left (fun acc x => if bool_decide (x ∈ acc) then acc else acc ++ [x]) cs acc
  <-> x ∈ acc ∨ x ∈ cs.
Proof.
  revert acc. induction cs as [|c cs IH]; intros acc; simpl.
  - rewrite elem_of_nil. tauto.
  - rewrite IH, elem_of_cons. case_bool_decide as Hin.
    + split; [tauto|]. intros [?|[->|?]]; tauto.
    + rewrite elem_of_app, list_elem_of_singleton. tauto.
Qed.

Lemma first_keys_from_NoDup (cs acc : list cell) :
  NoDup acc ->
  NoDup (fold_left (fun acc x => if bool_decide (x ∈ acc) then acc else acc ++ [x]) cs acc).
Proof.
  revert acc. induction cs as [|c cs IH]; intros acc Hacc; simpl; [assumption|].
  apply IH. case_bool_decide as Hin; [assumption|].
  apply NoDup_app. split; [assumption|]. split; [|apply NoDup_singleton].
  intros x Hx Hc. apply list_elem_of_singleton in Hc. by subst.
Qed.

Lemma elem_of_first_keys cs x : x ∈ first_keys cs <-> x ∈ cs.
Proof. unfold first_keys. rewrite first_keys_from_elem, elem_of_nil. tauto. Qed.

Lemma NoDup_first_keys cs : NoDup (first_keys cs).
Proof. apply first_keys_from_NoDup. constructor. Qed.

Lemma first_keys_nonempty cs : cs ≠ [] -> first_keys cs ≠ [].
Proof.
  destruct cs as [|c cs]; [done|]. intros _ Hnil.
  assert (Hc : c ∈ first_keys (c :: cs)) by (apply elem_of_first_keys; left).
  rewrite Hnil in Hc. by apply elem_of_nil in Hc.
Qed.

Lemma group_nonempty c k (rs : list Row) : k ∈ map (col c) rs -> group c k rs ≠ [].
Proof.
  intros Hk. apply list_elem_of_fmap in Hk as (r & -> & Hr).
  intros Hnil. assert (Hin : r ∈ group c (col c r) rs).
  { unfold group. apply list_elem_of_In, filter_In. split; [by apply list_elem_of_In|].
    by apply bool_decide_eq_true. }
  rewrite Hnil in Hin. by apply elem_of_nil in Hin.
Qed.

(** Each row lies in the group of exactly one key. *)
Lemma one_key (keys : list cell) (x : cell) :
  NoDup keys -> x ∈ keys ->
  sum_list (map (fun k => if bool_decide (x = k) then 1 else 0) keys) = 1.
Proof.
  induction 1 as [|k keys Hk Hnodup IH]; intros Hx; [by apply elem_of_nil in Hx|].
  simpl. apply elem_of_cons in Hx as [-> | Hx].
  - rewrite bool_decide_eq_true_2 by done.
    assert (Hzero : sum_list (map (fun k' => if bool_decide (k = k') then 1 else 0) keys) = 0).
    { clear IH Hnodup. induction keys as [|k' keys IH]; simpl; [reflexivity|].
      rewrite not_elem_of_cons in Hk. destruct Hk as [Hne Hk].
      rewrite bool_decide_eq_false_2 by done. by rewrite IH. }
    by rewrite Hzero.
  - rewrite bool_decide_eq_false_2 by (intros ->; contradiction).
    by rewrite IH.
Qed.

(** The groups of a list of keys that are distinct and cover the column
    partition the rows. *)
Lemma group_sizes c (keys : list cell) (rs : list Row) :
  NoDup keys -> (∀ r, r ∈ rs -> col c r ∈ keys) ->
  sum_list (map (fun k => length (group c k rs)) keys) = length rs.
Proof.
  intros Hnodup. induction rs as [|r rs IH]; intros Hcover.
  - clear. induction keys as [|k keys IHk]; simpl; [reflexivity | assumption].
  - assert (Hsplit : ∀ ks,
              sum_list (map (fun k => length (group c k (r :: rs))) ks)
              = sum_list (map (fun k => if bool_decide (col c r = k) then 1 else 0) ks)
                + sum_list (map (fun k => length (group c k rs)) ks)).
    { induction ks as [|k ks IHk]; simpl in *; [reflexivity|].
      rewrite IHk. case_bool_decide; simpl; lia. }
    rewrite Hsplit, one_key; [|assumption|apply Hcover; left].
    simpl. f_equal. apply IH. intros r' Hr'. apply Hcover. by right.
Qed.

(** [int] of a whole number. *)
Lemma py_int_of_Z z : Filtering.py_int (Qc_of_Z z) = z.
Proof. unfold Filtering.py_int. simpl. apply Z.quot_1_r. Qed.

End GroupingProps.

(** ** Trends, once more *)

Module TrendProps.
Import Frame Order Calculations Rounding Analytics Entities.
Import FrameFacts RoundingFacts OrderFacts AnalyticsFacts GroupingProps.

Ltac in_list := apply (bool_decide_unpack _); vm_compute; exact I.

Section WithCasts.
Context `{Casts}.

Lemma yearly_trends_rows rs :
  yearly_trends rs = map (fun y => yearly_row y (group "exam_year" y (normed rs))) (years_of rs).
Proof. reflexivity. Qed.

Lemma years_of_elem rs y : y ∈ years_of rs <-> ∃ r, r ∈ rs ∧ col "exam_year" r = y.
Proof.
  unfold years_of. rewrite merge_sort_Permutation, elem_of_first_keys.
  unfold normed. rewrite map_map, list_elem_of_fmap. split.
  - intros (r & -> & Hr). exists r. split; [assumption|].
    by rewrite col_insert_ne by done.
  - intros (r & Hr & <-). exists r. split; [|assumption].
    by rewrite col_insert_ne by done.
Qed.

Lemma years_of_NoDup rs : NoDup (years_of rs).
Proof. unfold years_of. rewrite merge_sort_Permutation. apply NoDup_first_keys. Qed.

Lemma years_of_nonempty rs : rs ≠ [] -> years_of rs ≠ [].
Proof.
  intros Hrs Hnil. destruct rs as [|r rs]; [done|].
  assert (Hin : col "exam_year" r ∈ years_of (r :: rs)).
  { apply years_of_elem. exists r. split; [left | reflexivity]. }
  rewrite Hnil in Hin. by apply elem_of_nil in Hin.
Qed.

Lemma yearly_row_lookup y g metric :
  is_Some (as_num (yearly_row y g !! metric))
  <-> (metric = "exam_year" ∧ ∃ q, y = Num q) ∨ (metric ∈ yearly_keys ∧ metric ≠ "exam_year").
Proof.
  unfold yearly_row, yearly_keys.
  destruct (decide (metric = "exam_year")) as [-> | Hy].
  { rewrite lookup_insert_eq. split.
    - intros [q Hq]. left. split; [reflexivity|]. destruct y; try discriminate. by eexists.
    - intros [[_ [q ->]] | [_ Hne]]; [by eexists | done]. }
  rewrite lookup_insert_ne by done.
  destruct (decide (metric = "exam_count")) as [-> | Hn].
  { rewrite lookup_insert_eq. split; [|by eexists].
    intros _. right. split; [|done]. in_list. }
  rewrite lookup_insert_ne by done.
  destruct (decide (metric = "pass_count")) as [-> | Hp].
  { rewrite lookup_insert_eq. split; [|by eexists].
    intros _. right. split; [|done]. in_list. }
  rewrite lookup_insert_ne by done.
  destruct (decide (metric = "dist_count")) as [-> | Hd].
  { rewrite lookup_insert_eq. split; [|by eexists].
    intros _. right. split; [|done]. in_list. }
  rewrite lookup_insert_ne by done.
  destruct (decide (metric = "pass_rate")) as [-> | Hpr].
  { rewrite lookup_insert_eq. split; [|by eexists].
    intros _. right. split; [|done]. in_list. }
  rewrite lookup_insert_ne by done.
  destruct (decide (metric = "distinction_rate")) as [-> | Hdr].
  { rewrite lookup_insert_eq. split; [|by eexists].
    intros _. right. split; [|done]. in_list. }
  rewrite lookup_insert_ne by done. rewrite lookup_empty. simpl. split.
  - intros [q Hq]. discriminate.
  - intros [[? _] | [Hin _]]; [done|].
    rewrite !elem_of_cons, elem_of_nil in Hin.
    destruct Hin as [?|[?|[?|[?|[?|[?|[]]]]]]]; contradiction.
Qed.

Lemma trend_point_of_is_Some metric row :
  is_Some (trend_point_of metric row)
  <-> is_Some (as_num (row !! "exam_year")) ∧ is_Some (as_num (row !! "exam_count"))
      ∧ is_Some (as_num (row !! "pass_rate")) ∧ is_Some (as_num (row !! "distinction_rate"))
      ∧ is_Some (as_num (row !! metric)).
Proof.
  split.
  - intros [pt Hpt]. unfold trend_point_of in Hpt.
    apply bind_Some in Hpt as (y & Hy & Hpt). apply bind_Some in Hpt as (n & Hn & Hpt).
    apply bind_Some in Hpt as (p & Hp & Hpt). apply bind_Some in Hpt as (d & Hd & Hpt).
    apply bind_Some in Hpt as (m & Hm & Hpt).
    repeat split; eexists; eassumption.
  - intros ([y Hy] & [n Hn] & [p Hp] & [d Hd] & [m Hm]).
    unfold trend_point_of. rewrite Hy, Hn, Hp, Hd. simpl. rewrite Hm. simpl. by eexists.
Qed.

Lemma yearly_point_is_Some metric y g :
  is_Some (trend_point_of metric (yearly_row y g))
  <-> (∃ q, y = Num q) ∧ metric ∈ yearly_keys.
Proof.
  rewrite trend_point_of_is_Some, !yearly_row_lookup. unfold yearly_keys. split.
  - intros ([[_ Hy] | [_ ?]] & _ & _ & _ & Hm); [|done]. split; [assumption|].
    destruct Hm as [[-> _] | [? _]]; [in_list | assumption].
  - intros [Hy Hm]. split; [left; by split|].
    split; [right; split; [in_list | done]|].
    split; [right; split; [in_list | done]|].
    split; [right; split; [in_list | done]|].
    destruct (decide (metric = "exam_year")) as [-> | Hne]; [left | right]; by split.
Qed.

Lemma entity_rows_filter df entity_type entity_name :
  rows (filter_rows (fun r => eq_text (col (entity_column entity_type) r) entity_name) df)
  = entity_rows df entity_type entity_name.
Proof.
  unfold entity_rows, filter_rows. simpl. apply filter_ext. intros r.
  apply bool_decide_ext. destruct (col _ r) as [|s|q]; simpl;
    [split; discriminate| |split; discriminate].
  split.
  - intros [= Hs]. apply String.eqb_eq in Hs. by subst.
  - intros [= ->]. by rewrite String.eqb_refl.
Qed.

(** X14. When the trends route succeeds.  The route returns a trend
    exactly when the frame has the entity column and the columns
    pass_fail, exam_year and performance, the entity has a record,
    every record of the entity has a year, and the metric is one of
    the six keys of a yearly aggregate: the three documented ones,
    but also pass_count, dist_count and exam_year.  In every other
    case it answers with an error. *)
Theorem trends_succeed_exactly_when df entity_type entity_name metric :
  (∃ data, get_trends df entity_type entity_name metric = Success data)
  <-> Forall (fun c => has_column df c = true)
        [entity_column entity_type; "pass_fail"; "exam_year"; "performance"]
      ∧ entity_rows df entity_type entity_name ≠ []
      ∧ (∀ r, r ∈ entity_rows df entity_type entity_name -> ∃ y, col "exam_year" r = Num y)
      ∧ metric ∈ yearly_keys.
Proof.
  unfold get_trends. fold (entity_column entity_type).
  unfold height. rewrite entity_rows_filter.
  set (rs := entity_rows df entity_type entity_name).
  rewrite !Forall_cons.
  assert (Hpoints : is_Some (mapM (trend_point_of metric) (yearly_trends rs))
                    <-> (∀ y, y ∈ years_of rs -> ∃ q, y = Num q)
                        ∧ (years_of rs = [] ∨ metric ∈ yearly_keys)).
  { rewrite mapM_is_Some, yearly_trends_rows, Forall_fmap, Forall_forall. split.
    - intros Hall. split.
      + intros y Hy. by apply (proj1 (yearly_point_is_Some metric y _) (Hall y Hy)).
      + destruct (years_of rs) as [|y ys] eqn:Hys; [by left | right].
        apply (proj1 (yearly_point_is_Some metric y
                        (group "exam_year" y (normed rs)))).
        apply Hall. left.
    - intros [Hnum [Hnil | Hm]] y Hy.
      + rewrite Hnil in Hy. by apply elem_of_nil in Hy.
      + apply yearly_point_is_Some. split; [by apply Hnum | assumption]. }
  destruct (has_column df (entity_column entity_type)) eqn:Hcol; simpl.
  2:{ split; [intros [? [=]] | intros ((? & _) & _); discriminate]. }
  destruct (length rs =? 0)%nat eqn:Hlen.
  { apply Nat.eqb_eq in Hlen. split; [intros [? [=]]|].
    intros (_ & Hne & _). destruct rs; [done | discriminate]. }
  apply Nat.eqb_neq in Hlen.
  assert (Hne : rs ≠ []) by (intros Hnil; by rewrite Hnil in Hlen).
  destruct (has_column df "pass_fail") eqn:Hpf; simpl.
  2:{ split; [intros [? [=]] | intros ((_ & ? & _) & _); discriminate]. }
  destruct (has_column df "exam_year") eqn:Hyear; simpl.
  2:{ split; [intros [? [=]] | intros ((_ & _ & ? & _) & _); discriminate]. }
  destruct (has_column df "performance") eqn:Hperf; simpl.
  2:{ split; [intros [? [=]] | intros ((_ & _ & _ & ? & _) & _); discriminate]. }
  split.
  - intros [data Hdata].
    destruct (mapM _ _) as [ts|] eqn:Hts; [|discriminate].
    assert (Hsome : is_Some (Some ts)) by (by eexists).
    apply Hpoints in Hsome as [Hnum Hm].
    split; [repeat split; constructor|]. split; [assumption|]. split.
    + intros r Hr. apply Hnum, years_of_elem. by exists r.
    + destruct Hm as [Hnil | Hm]; [|assumption]. by apply years_of_nonempty in Hne.
  - intros (_ & _ & Hnum & Hm).
    assert (Hsome : is_Some (mapM (trend_point_of metric) (yearly_trends rs))).
    { apply Hpoints. split; [|by right].
      intros y Hy. apply years_of_elem in Hy as (r & Hr & <-). by apply Hnum. }
    destruct Hsome as [ts ->]. by eexists.
Qed.

Lemma group_normed y rs :
  length (group "exam_year" y (normed rs)) = length (group "exam_year" y rs).
Proof.
  unfold group, normed. induction rs as [|r rs IH]; simpl; [reflexivity|].
  rewrite col_insert_ne by done. case_bool_decide; simpl; by rewrite IH.
Qed.

Lemma trend_point_count metric y g p :
  trend_point_of metric (yearly_row y g) = Some p ->
  exam_count p = Z.of_nat (length g).
Proof.
  unfold trend_point_of. intros Hp.
  apply bind_Some in Hp as (y0 & Hy & Hp). apply bind_Some in Hp as (n & Hn & Hp).
  apply bind_Some in Hp as (pr & Hpr & Hp). apply bind_Some in Hp as (d & Hd & Hp).
  apply bind_Some in Hp as (m & Hm & Hp). injection Hp as <-. simpl.
  unfold yearly_row in Hn. rewrite lookup_insert_ne in Hn by done.
  rewrite lookup_insert_eq in Hn. simpl in Hn. injection Hn as <-.
  apply py_int_of_Z.
Qed.

Lemma get_trends_points df entity_type entity_name metric data :
  get_trends df entity_type entity_name metric = Success data ->
  entity_rows df entity_type entity_name ≠ []
  ∧ mapM (trend_point_of metric) (yearly_trends (entity_rows df entity_type entity_name))
    = Some (trends data).
Proof.
  unfold get_trends. fold (entity_column entity_type). unfold height.
  rewrite entity_rows_filter. intros Hdata.
  destruct (negb (has_column df _)); [discriminate|].
  destruct (length _ =? 0)%nat eqn:Hlen; [discriminate|].
  destruct (negb (forallb _ _)); [discriminate|].
  destruct (mapM _ _) as [ts|] eqn:Hts; [|discriminate].
  injection Hdata as <-. rewrite trends_summarise. split; [|reflexivity].
  apply Nat.eqb_neq in Hlen. intros Hnil. by rewrite Hnil in Hlen.
Qed.

Lemma counts_of_points metric (G : cell -> list Row) years ts :
  Forall2 (fun row p => trend_point_of metric row = Some p)
    (map (fun y => yearly_row y (G y)) years) ts ->
  total (map exam_count ts)
  = Z.of_nat (sum_list (map (fun y => length (G y)) years)).
Proof.
  revert ts. induction years as [|y years IH]; intros ts Hts; simpl in *.
  - apply Forall2_nil_inv_l in Hts as ->. reflexivity.
  - apply Forall2_cons_inv_l in Hts as (p & ts' & Hp & Hts' & ->). simpl.
    rewrite (IH ts' Hts'), (trend_point_count _ _ _ _ Hp). lia.
Qed.

Lemma normed_length rs : length (normed rs) = length rs.
Proof. unfold normed. apply length_map. Qed.

Lemma years_of_length rs :
  length (years_of rs) = length (remove_dups (map (col "exam_year") rs)).
Proof.
  apply Permutation_length, NoDup_Permutation;
    [apply years_of_NoDup | apply NoDup_remove_dups |].
  intros y. rewrite years_of_elem, elem_of_remove_dups, list_elem_of_fmap. split.
  - intros (r & Hr & <-). by exists r.
  - intros (r & -> & Hr). by exists r.
Qed.

(** X15. The points of a trend partition the records of the entity:
    there is one point per year that occurs among them, at least one,
    and the exam counts of the points add up to the number of records
    of the entity. *)
Theorem trends_partition_the_records df entity_type entity_name metric data :
  get_trends df entity_type entity_name metric = Success data ->
  trends data ≠ []
  ∧ length (trends data)
    = length (remove_dups (map (col "exam_year") (entity_rows df entity_type entity_name)))
  ∧ total (map exam_count (trends data))
    = Z.of_nat (length (entity_rows df entity_type entity_name)).
Proof.
  intros Hdata. apply get_trends_points in Hdata as [Hne Hts].
  set (rs := entity_rows df entity_type entity_name) in *.
  apply mapM_Some in Hts. rewrite yearly_trends_rows in Hts.
  assert (Hlen : length (trends data) = length (years_of rs)).
  { apply Forall2_length in Hts. by rewrite length_map in Hts. }
  split; [|split].
  - intros Hnil. rewrite Hnil in Hlen. simpl in Hlen.
    apply (years_of_nonempty rs Hne). by destruct (years_of rs).
  - by rewrite Hlen, years_of_length.
  - rewrite (counts_of_points _ _ _ _ Hts). f_equal.
    rewrite (group_sizes "exam_year" (years_of rs) (normed rs)).
    + apply normed_length.
    + apply years_of_NoDup.
    + intros r Hr. unfold years_of. rewrite merge_sort_Permutation.
      apply elem_of_first_keys. by apply list_elem_of_fmap_2.
Qed.

End WithCasts.

(** The three years of CS: 10, 20 and 25 records. *)
Lemma three_years_partition :
  trends Examples.three_years_trend ≠ []
  ∧ length (trends Examples.three_years_trend)
    = length (remove_dups (map (col "exam_year")
                             (entity_rows Examples.three_years "department" "CS")))
  ∧ total (map exam_count (trends Examples.three_years_trend))
    = Z.of_nat (length (entity_rows Examples.three_years "department" "CS")).
Proof.
  apply (trends_partition_the_records (H := Decimal.casts) Examples.three_years
           "department" "CS" "pass_rate").
  vm_compute. reflexivity.
Defined.

Example three_years_counts :
  map exam_count (trends Examples.three_years_trend) = [10; 20; 25]%Z.
Proof. vm_compute. reflexivity. Qed.

(** The undocumented metric pass_count is accepted, an unknown one is
    refused. *)
Example metrics_of_three_years :
  (∃ data, get_trends (H := Decimal.casts) Examples.three_years "department" "CS"
             "pass_count" = Success data)
  ∧ get_trends (H := Decimal.casts) Examples.three_years "department" "CS" "fail_rate"
    = Failure "ERR_ANA_004".
Proof. split; [eexists|]; vm_compute; reflexivity. Qed.

End TrendProps.

(** ** The difficulty ranking, once more *)

Module RankingProps.
Import Frame Order Calculations Rounding Difficulty Entities.
Import FrameFacts RoundingFacts OrderFacts DifficultyFacts GroupingProps.

Section WithCasts.
Context `{Casts}.

(** X16. Without a score column (none of total_theory_marks,
    cia_theory_avg, theory_percentage and ese_theory_internal), or
    without the pass_fail or the subject column, the ranking route has
    one answer: the error ERR_SUBJ_003.  In the first case the
    aggregation returns a frame without columns and the route fails
    when it sorts it; an empty ranking is never returned for it. *)
Theorem ranking_needs_its_columns df limit category :
  score_col df = None ∨ has_column df "pass_fail" && has_column df "subject" = false ->
  get_difficulty_ranking df limit category (Failure "ERR_SUBJ_003")
  ∧ ∀ answer, get_difficulty_ranking df limit category answer ->
              answer = Failure "ERR_SUBJ_003".
Proof.
  intros Hmissing.
  assert (Hdiff : ∀ subject_diff, get_subject_difficulty df (Ok subject_diff) ->
                    subject_diff = mkFrame [] []).
  { intros subject_diff Hd.
    inversion Hd as [Hnone | | score grouped d Hscore Hcols]; subst; [reflexivity|].
    destruct Hmissing as [Hnone | Hno]; congruence. }
  split.
  - destruct (score_col df) as [score|] eqn:Hscore.
    + destruct Hmissing as [? | Hno]; [discriminate|].
      apply (ranking_difficulty_error df limit category ColumnNotFoundError).
      by apply (difficulty_missing_column df score).
    + apply (ranking_sort_error df limit category (mkFrame [] []));
        [by apply difficulty_no_score | reflexivity].
  - intros answer Hanswer.
    inversion Hanswer as [ | | |subject_diff sorted l Hd Hcol]; subst; try reflexivity.
    apply Hdiff in Hd. subst. discriminate.
Qed.

Lemma entries_from_shape category i rs subject_list :
  entries_from category i rs = Some subject_list ->
  map rank subject_list = seq i (length subject_list)
  ∧ Forall2 (fun row e => entry_of category (rank e) row = Some e) rs subject_list.
Proof.
  revert i subject_list. induction rs as [|row rs IH]; intros i subject_list; simpl.
  - intros [= <-]. split; [reflexivity | constructor].
  - destruct (entry_of category i row) as [e|] eqn:He; [|discriminate].
    destruct (entries_from category (S i) rs) as [es|] eqn:Hes; [|discriminate].
    intros [= <-]. destruct (IH _ _ Hes) as [Hranks Hall].
    assert (Hrank : rank e = i).
    { unfold entry_of in He.
      destruct (col "avg_total_marks" row), (col "exam_count" row), (col "pass_rate" row);
        try discriminate.
      by injection He as <-. }
    split.
    + simpl. by rewrite Hrank, Hranks.
    + constructor; [by rewrite Hrank | assumption].
Qed.

Lemma scored_rows_subject score df r :
  r ∈ scored_rows score df -> col "subject" r ≠ Null.
Proof.
  unfold scored_rows, filter_rows. simpl. intros Hr.
  apply list_elem_of_In, filter_In in Hr as [Hr _].
  apply filter_In in Hr as [_ Hr]. apply bool_decide_eq_true in Hr.
  unfold is_not_null in Hr. intros Hnull. rewrite Hnull in Hr. discriminate.
Qed.

Lemma head_rows_sublist {A} limit (l : list A) : sublist (head_rows limit l) l.
Proof. unfold head_rows. destruct (0 <=? limit)%Z; apply sublist_take. Qed.

Lemma head_rows_length {A} limit (l : list A) :
  (0 <= limit)%Z -> length (head_rows limit l) <= Z.to_nat limit.
Proof.
  intros Hlimit. unfold head_rows. rewrite (proj2 (Z.leb_le 0 limit) Hlimit).
  rewrite length_take. lia.
Qed.

Lemma groups_subjects score rs :
  map (col "subject") (groups_in_row_order "subject" (difficulty_row score) rs)
  = first_keys (map (col "subject") rs).
Proof.
  unfold groups_in_row_order. rewrite map_map.
  rewrite <- (map_id (first_keys _)) at 2. apply map_ext. intros k.
  unfold difficulty_row. apply col_insert_eq.
Qed.

(** X17. A ranking the route returns numbers its entries 1, 2, ... in
    their order, lists no subject twice and none that is null, labels
    every entry "Hard" for the category "hardest" and "Easy" for every
    other category, counts at least one exam for every subject, and
    has at most [limit] entries (for a limit that is not negative) and
    at most one per subject of the frame. *)
Theorem ranking_shape df limit category subject_list :
  get_difficulty_ranking df limit category (Success subject_list) ->
  map rank subject_list = seq 1 (length subject_list)
  ∧ NoDup (map subject subject_list)
  ∧ Forall (fun e => subject e ≠ Null
                     ∧ difficulty e = (if String.eqb category "hardest" then "Hard" else "Easy")
                     ∧ (1 <= exam_count e)%Z) subject_list
  ∧ ((0 <= limit)%Z -> length subject_list <= Z.to_nat limit)
  ∧ ∃ score, score_col df = Some score
             ∧ length subject_list
               <= length (remove_dups (map (col "subject") (scored_rows score df))).
Proof.
  intros Hranked.
  apply ranking_is_sorted in Hranked
    as (score & ordered & Hscore & Hcols & Hperm & Hsorted & Hentries).
  pose proof (entries_from_subjects _ _ _ _ Hentries) as Hsubjects.
  destruct (entries_from_shape _ _ _ _ Hentries) as [Hranks Hall].
  set (rs := scored_rows score df) in *.
  set (groups := groups_in_row_order "subject" (difficulty_row score) rs) in *.
  assert (Hkeys : NoDup (map (col "subject") ordered)).
  { rewrite <- Hperm. unfold groups. rewrite groups_subjects. apply NoDup_first_keys. }
  assert (Hlen : length subject_list = length (head_rows limit ordered)).
  { by rewrite <- (length_map subject), Hsubjects, length_map. }
  split; [exact Hranks|]. split; [|split; [|split]].
  - rewrite Hsubjects. apply (sublist_NoDup _ (map (col "subject") ordered));
      first [exact Hkeys | apply (fmap_sublist (col "subject")), head_rows_sublist].
  - apply Forall_forall. intros e He.
    apply list_elem_of_lookup in He as [i Hi].
    destruct (Forall2_lookup_r _ _ _ i e Hall Hi) as (row & Hrow & He).
    assert (Hin : row ∈ groups).
    { rewrite Hperm. eapply elem_of_sublist; [|apply (head_rows_sublist limit)].
      by eapply list_elem_of_lookup_2. }
    unfold groups, groups_in_row_order in Hin.
    apply list_elem_of_fmap in Hin as (k & -> & Hk).
    apply (proj1 (elem_of_first_keys _ _)) in Hk.
    unfold entry_of, difficulty_row in He.
    rewrite col_insert_ne in He by done. rewrite col_insert_eq in He.
    rewrite !(col_insert_ne "subject") in He by done.
    rewrite (col_insert_ne "avg_total_marks" "exam_count") in He by done.
    rewrite col_insert_eq in He.
    rewrite (col_insert_ne "avg_total_marks" "pass_rate") in He by done.
    rewrite (col_insert_ne "exam_count" "pass_rate") in He by done.
    rewrite !col_insert_eq in He.
    destruct (mean_Qc _) as [| |avg]; try discriminate.
    injection He as <-. simpl. split; [|split; [reflexivity|]].
    + apply list_elem_of_fmap in Hk as Hk'. destruct Hk' as (r & -> & Hr).
      by eapply scored_rows_subject.
    + rewrite py_int_of_Z.
      pose proof (group_nonempty "subject" k rs Hk) as Hne.
      destruct (group "subject" k rs); [done | simpl; lia].
  - intros Hlimit. rewrite Hlen. by apply head_rows_length.
  - exists score. split; [assumption|]. rewrite Hlen.
    etransitivity; [apply sublist_length, head_rows_sublist|].
    rewrite <- (length_map (col "subject") ordered).
    apply Nat.eq_le_incl, Permutation_length, NoDup_Permutation;
      [assumption | apply NoDup_remove_dups |].
    intros k. rewrite <- Hperm. unfold groups. rewrite groups_subjects.
    by rewrite elem_of_first_keys, elem_of_remove_dups.
Qed.

End WithCasts.

(** The six exam records have no score column. *)
Lemma ranking_of_the_records :
  get_difficulty_ranking (H := Decimal.casts) Cases.records 10 "hardest"
    (Failure "ERR_SUBJ_003")
  ∧ ∀ answer, get_difficulty_ranking (H := Decimal.casts) Cases.records 10 "hardest" answer ->
              answer = Failure "ERR_SUBJ_003".
Proof.
  apply (ranking_needs_its_columns (H := Decimal.casts) Cases.records 10 "hardest").
  left. vm_compute. reflexivity.
Defined.

Lemma hardest_two_is_a_ranking :
  get_difficulty_ranking (H := Decimal.casts) Examples.two_subjects 50 "hardest"
    (Success hardest_two).
Proof.
  apply (ranking_permitted (H := Decimal.casts) _ _ _ "total_theory_marks"
           (reverse (Examples.subject_groups Examples.two_subjects)));
    [vm_compute; reflexivity | vm_compute; reflexivity
    | symmetry; apply reverse_Permutation | | vm_compute; reflexivity].
  apply (bool_decide_unpack _). vm_compute. exact I.
Qed.

(** The ranking of the two subjects. *)
Lemma shape_of_hardest_two :
  map rank hardest_two = seq 1 (length hardest_two)
  ∧ NoDup (map subject hardest_two)
  ∧ Forall (fun e => subject e ≠ Null
                     ∧ difficulty e = (if String.eqb "hardest" "hardest" then "Hard" else "Easy")
                     ∧ (1 <= exam_count e)%Z) hardest_two
  ∧ ((0 <= 50)%Z -> length hardest_two <= Z.to_nat 50)
  ∧ ∃ score, score_col Examples.two_subjects = Some score
             ∧ length hardest_two
               <= length (remove_dups (map (col "subject")
                                         (scored_rows (H := Decimal.casts) score
                                            Examples.two_subjects))).
Proof.
  apply (ranking_shape (H := Decimal.casts) Examples.two_subjects 50 "hardest" hardest_two).
  apply hardest_two_is_a_ranking.
Defined.

Example hardest_two_entries :
  map (fun e => (rank e, subject e, difficulty e, exam_count e)) hardest_two
  = [(1, Text "B", "Hard", 5%Z); (2, Text "A", "Hard", 10%Z)].
Proof. vm_compute. reflexivity. Qed.

End RankingProps.

(** ** The column resolution *)

Module ResolutionProps.
Import Frame Loading Files FrameFacts.

Ltac in_list := apply (bool_decide_unpack _); vm_compute; exact I.

Lemma elem_of_rename_column old new df c :
  c ∈ columns (rename_column old new df)
  <-> (c = new ∧ old ∈ columns df) ∨ (c ≠ old ∧ c ∈ columns df).
Proof.
  unfold rename_column. simpl. rewrite list_elem_of_fmap. split.
  - intros (x & -> & Hx). destruct (String.eqb x old) eqn:Heq.
    + apply String.eqb_eq in Heq. subst. by left.
    + apply String.eqb_neq in Heq. by right.
  - intros [[-> Hold] | [Hne Hc]].
    + exists old. by rewrite String.eqb_refl.
    + exists c. by rewrite (proj2 (String.eqb_neq c old) Hne).
Qed.

Lemma find_head df std rest v :
  List.find (has_column df) (std :: rest) = Some v -> v ≠ std ->
  has_column df std = false ∧ has_column df v = true.
Proof.
  simpl. destruct (has_column df std); [intros [= ->]; done|].
  intros Hfind _. split; [reflexivity|]. by apply find_some in Hfind as [_ ?].
Qed.

(** One turn of the loop keeps the column names distinct: the standard
    name is tried first, so that a variant is only renamed to a name
    the frame does not have. *)
Lemma standardise_distinct df entry :
  (∃ rest, entry.2 = entry.1 :: rest) ->
  NoDup (columns df) ->
  NoDup (columns (standardise df entry).1)
  ∧ length (columns (standardise df entry).1) = length (columns df)
  ∧ height (standardise df entry).1 = height df.
Proof.
  intros [rest Hentry] Hnodup. unfold standardise. rewrite Hentry.
  destruct (List.find _ _) as [v|] eqn:Hfind; simpl; [|done].
  destruct (String.eqb v entry.1) eqn:Heq; [done|].
  apply String.eqb_neq in Heq.
  destruct (find_head _ _ _ _ Hfind Heq) as [Hstd Hv].
  apply bool_decide_eq_false in Hstd.
  unfold rename_column, height. simpl. rewrite !length_map.
  split; [|done].
  apply NoDup_fmap_2_strong; [|assumption].
  intros x y Hx Hy.
  destruct (String.eqb x v) eqn:Hxv, (String.eqb y v) eqn:Hyv;
    try apply String.eqb_eq in Hxv; try apply String.eqb_eq in Hyv; subst;
    intros Hxy; subst; try done.
Qed.

Lemma resolve_columns_from_distinct entries df found :
  Forall (fun entry => ∃ rest, entry.2 = entry.1 :: rest) entries ->
  NoDup (columns df) ->
  NoDup (columns (resolve_columns_step entries (df, found)).1)
  ∧ length (columns (resolve_columns_step entries (df, found)).1) = length (columns df)
  ∧ height (resolve_columns_step entries (df, found)).1 = height df.
Proof.
  revert df found. induction entries as [|entry entries IH]; intros df found Hall Hnodup.
  - by simpl.
  - apply Forall_cons in Hall as [Hentry Hall]. simpl.
    destruct (standardise_distinct df entry Hentry Hnodup) as (Hnodup' & Hlen & Hheight).
    destruct (IH (standardise df entry).1 (found ++ [(standardise df entry).2]) Hall Hnodup')
      as (Hn & Hl & Hh).
    split; [exact Hn|]. split; [exact (eq_trans Hl Hlen) | exact (eq_trans Hh Hheight)].
Qed.

Lemma resolve_columns_from_names entries df found :
  map fst (resolve_columns_step entries (df, found)).2 = map fst found ++ map fst entries.
Proof.
  revert df found. induction entries as [|entry entries IH]; intros df found; simpl.
  - by rewrite app_nil_r.
  - rewrite IH, map_app. simpl. rewrite <- app_assoc. simpl. do 2 f_equal.
    unfold standardise. by destruct (List.find _ _).
Qed.

(** X18. Resolving the column names never makes two columns share a
    name and loses neither a column nor a record: the frame has
    distinct column names again, as many of them, and as many rows;
    and one choice is recorded for each of the six standard names, in
    the order of the mapping. *)
Theorem resolve_columns_keeps_names_distinct df :
  NoDup (columns df) ->
  NoDup (columns (resolve_columns df).1)
  ∧ length (columns (resolve_columns df).1) = length (columns df)
  ∧ height (resolve_columns df).1 = height df
  ∧ map fst (resolve_columns df).2
    = ["student_id"; "subject"; "department"; "exam_name"; "student_name"; "course_name"].
Proof.
  intros Hnodup.
  destruct (resolve_columns_from_distinct column_map df [] ) as (H1 & H2 & H3);
    [|assumption|].
  { unfold column_map. repeat constructor; by eexists. }
  repeat split; try assumption.
  apply (resolve_columns_from_names column_map df []).
Qed.

(** A column that an entry of the mapping does not name is left alone
    by its turn of the loop. *)
Lemma standardise_other df entry c :
  c ∉ entry.1 :: entry.2 ->
  has_column (standardise df entry).1 c = has_column df c
  ∧ ∀ i r, rows df !! i = Some r ->
           ∃ r', rows (standardise df entry).1 !! i = Some r' ∧ r' !! c = r !! c.
Proof.
  intros Hc. apply not_elem_of_cons in Hc as [Hstd Hvariants].
  unfold standardise. destruct (List.find _ _) as [v|] eqn:Hfind; simpl.
  2:{ split; [reflexivity|]. intros i r Hr. by exists r. }
  destruct (String.eqb v entry.1) eqn:Heq.
  { split; [reflexivity|]. intros i r Hr. by exists r. }
  apply find_some in Hfind as [Hv _].
  assert (Hcv : c ≠ v). { intros ->. apply Hvariants. by apply list_elem_of_In. }
  split.
  - unfold has_column. apply bool_decide_ext. rewrite elem_of_rename_column. tauto.
  - intros i r Hr. unfold rename_column. simpl.
    rewrite list_lookup_fmap, Hr. simpl. eexists. split; [reflexivity|].
    destruct (r !! v); [|reflexivity].
    rewrite lookup_insert_ne by done. by rewrite lookup_delete_ne by done.
Qed.

Lemma standardise_other_column df entry c :
  bool_decide (c ∉ entry.1 :: entry.2) = true ->
  has_column (standardise df entry).1 c = has_column df c.
Proof. intros Hc. apply standardise_other. by apply bool_decide_eq_true in Hc. Qed.

(** The turn that takes a variant. *)
Lemma standardise_variant df std variants v :
  List.find (has_column df) (std :: variants) = Some v -> v ≠ std ->
  standardise df (std, std :: variants) = (rename_column v std df, (std, Some v))
  ∧ has_column (rename_column v std df) std = true
  ∧ has_column (rename_column v std df) v = false
  ∧ ∀ i r x, rows df !! i = Some r -> r !! v = Some x ->
             ∃ r', rows (rename_column v std df) !! i = Some r'
                   ∧ r' !! std = Some x ∧ r' !! v = None.
Proof.
  intros Hfind Hne. destruct (find_head _ _ _ _ Hfind Hne) as [Hstd Hv].
  split; [|split; [|split]].
  - unfold standardise. cbn [fst snd]. rewrite Hfind.
    by rewrite (proj2 (String.eqb_neq v std) Hne).
  - apply bool_decide_eq_true. apply elem_of_rename_column. left.
    split; [reflexivity|]. by apply bool_decide_eq_true in Hv.
  - apply bool_decide_eq_false. rewrite elem_of_rename_column.
    apply bool_decide_eq_false in Hstd. intros [[-> _] | [? _]]; done.
  - intros i r x Hr Hx. unfold rename_column. simpl.
    rewrite list_lookup_fmap, Hr. simpl. eexists. split; [reflexivity|].
    rewrite Hx. rewrite lookup_insert_eq. split; [reflexivity|].
    rewrite lookup_insert_ne by done. apply lookup_delete_eq.
Qed.

(** X19. A column called "name" stands for the subject, not for the
    student: when the frame has a "name" column and none of subject,
    subject_name and student_name, the resolution takes "name" for the
    subject and finds nothing for student_name, although the mapping
    lists "name" under both; the resolved frame has a subject column
    with the cells of "name", and neither a name nor a student_name
    column. *)
Theorem name_is_read_as_the_subject df :
  has_column df "name" = true ->
  Forall (fun c => has_column df c = false) ["subject"; "subject_name"; "student_name"] ->
  ("subject", Some "name") ∈ (resolve_columns df).2
  ∧ ("student_name", None) ∈ (resolve_columns df).2
  ∧ has_column (resolve_columns df).1 "subject" = true
  ∧ has_column (resolve_columns df).1 "name" = false
  ∧ has_column (resolve_columns df).1 "student_name" = false
  ∧ ∀ i r x, rows df !! i = Some r -> r !! "name" = Some x ->
             ∃ r', rows (resolve_columns df).1 !! i = Some r'
                   ∧ r' !! "subject" = Some x ∧ r' !! "name" = None.
Proof.
  intros Hname Hnone. rewrite !Forall_cons in Hnone.
  destruct Hnone as (Hsubject & Hsubject_name & Hstudent_name & _).
  unfold resolve_columns, resolve_columns_from, column_map. cbn [fold_left fst snd app].
  set (e1 := ("student_id", ["student_id"; "studentid"])).
  set (e3 := ("department", ["department"; "dept"; "offering_department"])).
  set (e4 := ("exam_name", ["exam_name"; "exam"])).
  set (e6 := ("course_name", ["course_name"; "course"])).
  set (df1 := (standardise df e1).1).
  assert (Hfind : List.find (has_column df1) ["subject"; "subject_name"; "name"]
                  = Some "name").
  { simpl. unfold df1.
    rewrite (standardise_other_column df e1 "subject" eq_refl).
    rewrite (standardise_other_column df e1 "subject_name" eq_refl).
    rewrite (standardise_other_column df e1 "name" eq_refl).
    by rewrite Hsubject, Hsubject_name, Hname. }
  destruct (standardise_variant df1 "subject" ["subject_name"; "name"] "name" Hfind
              ltac:(done)) as (Hstep & Hhas_subject & Hhas_name & Hcells).
  rewrite Hstep. cbn [fst snd].
  set (df2 := rename_column "name" "subject" df1) in *.
  set (df3 := (standardise df2 e3).1).
  set (df4 := (standardise df3 e4).1).
  assert (Hstudent : has_column df4 "student_name" = false).
  { unfold df4, df3.
    rewrite (standardise_other_column _ e4 "student_name" eq_refl).
    rewrite (standardise_other_column _ e3 "student_name" eq_refl).
    assert (Hs1 : has_column df1 "student_name" = false).
    { unfold df1. by rewrite (standardise_other_column df e1 "student_name" eq_refl). }
    apply bool_decide_eq_false in Hs1.
    apply bool_decide_eq_false. unfold df2. rewrite elem_of_rename_column.
    intros [[? _] | [_ Hin]]; [done | by apply Hs1]. }
  assert (Hname4 : has_column df4 "name" = false).
  { unfold df4, df3.
    rewrite (standardise_other_column _ e4 "name" eq_refl).
    by rewrite (standardise_other_column _ e3 "name" eq_refl). }
  assert (Hstep5 : standardise df4 ("student_name", ["student_name"; "name"])
                   = (df4, ("student_name", None))).
  { unfold standardise. cbn [fst snd List.find]. by rewrite Hstudent, Hname4. }
  rewrite Hstep5. cbn [fst snd].
  set (df6 := (standardise df4 e6).1).
  split; [apply list_elem_of_further, list_elem_of_here|].
  split; [do 4 apply list_elem_of_further; apply list_elem_of_here|].
  split; [|split; [|split]].
  - unfold df6, df4, df3.
    rewrite (standardise_other_column _ e6 "subject" eq_refl).
    rewrite (standardise_other_column _ e4 "subject" eq_refl).
    by rewrite (standardise_other_column _ e3 "subject" eq_refl).
  - unfold df6. by rewrite (standardise_other_column _ e6 "name" eq_refl).
  - unfold df6. by rewrite (standardise_other_column _ e6 "student_name" eq_refl).
  - intros i r x Hr Hx.
    assert (H1 : ∃ r1, rows df1 !! i = Some r1 ∧ r1 !! "name" = Some x).
    { unfold df1, standardise, e1. cbn [fst snd].
      destruct (List.find (has_column df) ["student_id"; "studentid"]) as [v|] eqn:Hv;
        cbn [fst]; [|by exists r].
      destruct (String.eqb v "student_id") eqn:Heq; [by exists r|].
      unfold rename_column. simpl. rewrite list_lookup_fmap, Hr. simpl.
      eexists. split; [reflexivity|].
      apply find_some in Hv as [Hv _]. simpl in Hv.
      destruct Hv as [<- | [<- | []]].
      - by rewrite String.eqb_refl in Heq.
      - destruct (r !! "studentid"); [|assumption].
        rewrite lookup_insert_ne by done. by rewrite lookup_delete_ne by done. }
    destruct H1 as (r1 & Hr1 & Hx1).
    destruct (Hcells i r1 x Hr1 Hx1) as (r2 & Hr2 & Hs2 & Hn2).
    assert (Hlater : ∀ d e c, bool_decide (c ∉ e.1 :: e.2) = true ->
              (∃ r', rows d !! i = Some r' ∧ r' !! c = r2 !! c) ->
              ∃ r', rows (standardise d e).1 !! i = Some r' ∧ r' !! c = r2 !! c).
    { intros d e c Hc (ra & Hra & Hca). apply bool_decide_eq_true in Hc.
      destruct (standardise_other d e c Hc) as [_ Hrows].
      destruct (Hrows i ra Hra) as (rb & Hrb & Hcb).
      exists rb. split; [assumption | congruence]. }
    assert (Hboth : ∀ c, c = "subject" ∨ c = "name" ->
              ∃ r', rows df6 !! i = Some r' ∧ r' !! c = r2 !! c).
    { intros c Hc. unfold df6, df4, df3.
      apply Hlater; [destruct Hc as [-> | ->]; reflexivity|].
      apply Hlater; [destruct Hc as [-> | ->]; reflexivity|].
      apply Hlater; [destruct Hc as [-> | ->]; reflexivity|].
      by exists r2. }
    destruct (Hboth "subject" ltac:(by left)) as (r6 & Hr6 & Hs6).
    destruct (Hboth "name" ltac:(by right)) as (r6' & Hr6' & Hn6).
    rewrite Hr6 in Hr6'. injection Hr6' as <-.
    exists r6. split; [assumption|]. split; congruence.
Qed.

(** The file with a "name" column. *)
Lemma resolution_of_a_name_column :
  ("subject", Some "name") ∈ (resolve_columns Files.with_a_name).2
  ∧ ("student_name", None) ∈ (resolve_columns Files.with_a_name).2
  ∧ has_column (resolve_columns Files.with_a_name).1 "subject" = true
  ∧ has_column (resolve_columns Files.with_a_name).1 "name" = false
  ∧ has_column (resolve_columns Files.with_a_name).1 "student_name" = false
  ∧ ∀ i r x, rows Files.with_a_name !! i = Some r -> r !! "name" = Some x ->
             ∃ r', rows (resolve_columns Files.with_a_name).1 !! i = Some r'
                   ∧ r' !! "subject" = Some x ∧ r' !! "name" = None.
Proof.
  apply (name_is_read_as_the_subject Files.with_a_name).
  - reflexivity.
  - repeat constructor.
Defined.

Lemma resolution_keeps_four_columns :
  NoDup (columns (resolve_columns Files.with_a_name).1)
  ∧ length (columns (resolve_columns Files.with_a_name).1)
    = length (columns Files.with_a_name)
  ∧ height (resolve_columns Files.with_a_name).1 = height Files.with_a_name
  ∧ map fst (resolve_columns Files.with_a_name).2
    = ["student_id"; "subject"; "department"; "exam_name"; "student_name"; "course_name"].
Proof.
  apply (resolve_columns_keeps_names_distinct Files.with_a_name).
  apply (bool_decide_unpack _). vm_compute. exact I.
Defined.

Example columns_of_a_name_column :
  columns (resolve_columns Files.with_a_name).1
  = ["student_id"; "subject"; "department"; "pass_fail"]
  ∧ map (col "subject") (rows (resolve_columns Files.with_a_name).1)
    = [Text "Algebra"; Text "Logic"].
Proof. split; vm_compute; reflexivity. Qed.

End ResolutionProps.

(** ** The pipeline, once more *)

Module PipelineProps.
Import Frame Processor Loader Loading Dependencies Derived.
Import FrameFacts ProcessorFacts DependenciesFacts DerivationProps.

Section WithParameters.
Context `{Casts} `{ValueRules}.

Lemma add_performance_column_columns df df' c :
  add_performance_column df = Ok df' ->
  has_column df' "performance" = true
  ∧ (has_column df c = true -> has_column df' c = true)
  ∧ Forall (fun c => has_column df' c = true) required_columns.
Proof.
  intros Hok. pose proof (add_performance_column_Ok _ _ Hok) as ->.
  assert (Hkeep : ∀ c', has_column df c' = true ->
                        has_column (with_column "performance" (final_expr (columns df)) df) c'
                        = true).
  { intros c' Hc'. rewrite has_column_with_column, Hc'. reflexivity. }
  split; [|split].
  - rewrite has_column_with_column. rewrite bool_decide_eq_true_2 by done.
    apply orb_true_r.
  - apply Hkeep.
  - unfold add_performance_column in Hok.
    destruct (forallb (has_column df) required_columns) eqn:Hreq; [|discriminate].
    apply Forall_forall. intros c' Hc'. apply Hkeep.
    apply (proj1 (forallb_forall _ _) Hreq). by apply list_elem_of_In.
Qed.

(** X20. A frame that [get_dataframe] serves comes from the data file
    and never from the sample data: there is a file, its headers
    normalise without a collision, the validation accepts it, and the
    frame is the classified frame of its derived columns.  It has the
    performance column, the three columns the classification reads and
    the seven derived columns; it is the content of the cache, and
    every further call returns it, whatever the file has become, until
    the cache is cleared. *)
Theorem served_frame_comes_from_the_file source rng df cache :
  get_dataframe source rng None = (Ok df, cache) ->
  cache = Some df
  ∧ (∃ raw named valid,
       source = Some raw
       ∧ rename_all normalise_name raw = Ok named
       ∧ _validate_and_process named = Ok valid
       ∧ add_performance_column (_add_derived_columns valid) = Ok df)
  ∧ Forall (fun c => has_column df c = true)
      ("performance" :: required_columns ++ derived_columns)
  ∧ ∀ source' rng', get_dataframe source' rng' cache = (Ok df, cache).
Proof.
  unfold get_dataframe.
  destruct (add_performance_column (load_data source rng)) as [df'|e] eqn:Hadd;
    [|discriminate].
  intros [= <- <-]. split; [reflexivity|].
  assert (Hfile : ∃ raw named valid,
            source = Some raw
            ∧ rename_all normalise_name raw = Ok named
            ∧ _validate_and_process named = Ok valid
            ∧ add_performance_column (_add_derived_columns valid) = Ok df').
  { unfold load_data in Hadd. destruct source as [raw|];
      [|by rewrite sample_is_not_classified in Hadd].
    destruct (rename_all normalise_name raw) as [named|] eqn:Hnamed; simpl in Hadd;
      [|by rewrite sample_is_not_classified in Hadd].
    destruct (_validate_and_process named) as [valid|] eqn:Hvalid;
      [|by rewrite sample_is_not_classified in Hadd].
    by exists raw, named, valid. }
  split; [exact Hfile|]. split; [|reflexivity].
  destruct Hfile as (raw & named & valid & _ & _ & _ & Hclassified).
  destruct (add_performance_column_columns _ _ "performance" Hclassified)
    as (Hperformance & _ & Hrequired).
  constructor; [assumption|]. apply Forall_app. split; [assumption|].
  apply Forall_forall. intros c Hc.
  apply (add_performance_column_columns _ _ c Hclassified).
  by apply has_derived_columns.
Qed.

(** X21. The sample data is never served.  When there is no data
    file, or its headers collide once normalised, or the validation
    fails, [load_data] answers with the random sample frame, which
    has no pass_fail column: [get_dataframe] raises, and nothing
    enters the cache, so that every call raises again. *)
Theorem sample_data_is_never_served source rng cache :
  source = None
  ∨ (∃ raw e, source = Some raw
              ∧ Filtering.bind (rename_all normalise_name raw) _validate_and_process
                = Err e) ->
  load_data source rng = _create_sample_data rng
  ∧ get_dataframe source rng (reload_data cache) = (Err ColumnNotFoundError, None).
Proof.
  intros Hfallback.
  assert (Hsample : load_data source rng = _create_sample_data rng).
  { unfold load_data. destruct Hfallback as [-> | (raw & e & -> & ->)]; reflexivity. }
  split; [exact Hsample|].
  unfold reload_data, get_dataframe. by rewrite Hsample, sample_is_not_classified.
Qed.

End WithParameters.

(** The frame served for the data file of two records. *)
Lemma served_data_file :
  Some Files.served = Some Files.served
  ∧ (∃ raw named valid,
       Some Examples.data_file = Some raw
       ∧ rename_all normalise_name raw = Ok named
       ∧ _validate_and_process (H0 := Examples.plain_values) named = Ok valid
       ∧ add_performance_column (H := Decimal.casts)
           (_add_derived_columns (H := Decimal.casts) valid) = Ok Files.served)
  ∧ Forall (fun c => has_column Files.served c = true)
      ("performance" :: required_columns ++ derived_columns)
  ∧ ∀ source' rng',
      get_dataframe (H := Decimal.casts) (H0 := Examples.plain_values) source' rng'
        (Some Files.served)
      = (Ok Files.served, Some Files.served).
Proof.
  apply (served_frame_comes_from_the_file (H := Decimal.casts) (H0 := Examples.plain_values)
           (Some Examples.data_file) Examples.low_draws Files.served (Some Files.served)).
  vm_compute. reflexivity.
Defined.

(** No file, and a file with colliding headers. *)
Lemma no_file_is_not_served :
  load_data (H := Decimal.casts) (H0 := Examples.plain_values) None Examples.low_draws
  = _create_sample_data Examples.low_draws
  ∧ get_dataframe (H := Decimal.casts) (H0 := Examples.plain_values) None
      Examples.low_draws (reload_data None)
    = (Err ColumnNotFoundError, None).
Proof.
  apply (sample_data_is_never_served (H := Decimal.casts) (H0 := Examples.plain_values)
           None Examples.low_draws None).
  by left.
Defined.

Example colliding_headers_are_refused :
  rename_all normalise_name Files.colliding_headers = Err DuplicateError.
Proof. vm_compute. reflexivity. Qed.

End PipelineProps.

(** ** The options of the filters *)

Module OptionProps.
Import Frame Filtering Selection Options FrameFacts FilterProps.

Lemma ascii_compare_Eq x y : Ascii.compare x y = Eq -> x = y.
Proof. apply Ascii.compare_eq_iff. Qed.

Lemma string_leb_trans s t u :
  String.leb s t = true -> String.leb t u = true -> String.leb s u = true.
Proof.
  unfold String.leb. revert t u. induction s as [|x s IH]; intros [|y t] [|z u]; simpl;
    try done.
  destruct (Ascii.compare x y) eqn:Hxy, (Ascii.compare y z) eqn:Hyz,
    (Ascii.compare x z) eqn:Hxz; try done; try apply IH;
    try apply ascii_compare_Eq in Hxy; try apply ascii_compare_Eq in Hyz;
    try apply ascii_compare_Eq in Hxz; subst;
    unfold Ascii.compare in *;
    rewrite ?N.compare_eq_iff, ?N.compare_lt_iff, ?N.compare_gt_iff in *;
    intros; try lia; try congruence.
Qed.

#[global] Instance py_le_total : Total py_le.
Proof.
  intros [|s|x] [|t|y]; simpl; auto.
  - apply String.leb_total.
  - destruct (Qclt_le_dec x y) as [Hlt | Hle]; [left; by apply Qclt_le_weak | by right].
Qed.

#[global] Instance py_le_trans : Transitive py_le.
Proof.
  intros [|s|x] [|t|y] [|u|z]; simpl; try done.
  - apply string_leb_trans.
  - apply Qcle_trans.
Qed.


Lemma py_sorted_lists keep c df l :
  py_sorted (List.filter keep (unique_values c df)) = Some l ->
  lists_values keep py_le c df l.
Proof.
  unfold py_sorted. destruct (_ || _); [|discriminate]. intros [= <-].
  unfold lists_values. split; [|split].
  - rewrite merge_sort_Permutation. apply NoDup_ListNoDup, List.NoDup_filter.
    apply NoDup_ListNoDup, NoDup_remove_dups.
  - apply Sorted_StronglySorted; [apply _|]. apply Sorted_merge_sort. apply _.
  - intros v. rewrite merge_sort_Permutation.
    rewrite list_elem_of_In, filter_In, <- list_elem_of_In.
    unfold unique_values. rewrite elem_of_remove_dups. tauto.
Qed.



Lemma departments_listed df options :
  get_filter_options df = Returns options ->
  ∃ ds, departments options = Text "All" :: ds
        ∧ lists_values is_not_blank py_le "department" df ds.
Proof.
  unfold get_filter_options.
  destruct (negb (has_column df "exam_year")); [discriminate|].
  destruct (negb (has_column df "department")); [discriminate|].
  destruct (negb (has_column df "semester")); [discriminate|].
  destruct (py_sorted (List.filter is_not_none (unique_values "exam_year" df)))
    as [ys|]; [|discriminate].
  destruct (py_sorted (List.filter is_not_blank (unique_values "department" df)))
    as [ds|] eqn:Hds; [|discriminate].
  destruct (py_sorted (List.filter is_not_none (unique_values "semester" df)))
    as [ss|]; [|discriminate].
  intros [= <-]. exists ds. split; [reflexivity|]. by apply py_sorted_lists.
Qed.

(** X23. Every department the options offer selects a record: with a
    department of the options (other than the leading "All") as its
    department argument and no other restriction, [filter_data]
    returns at least one record, and only records of that department
    unless the department is itself called "All". *)
Theorem department_options_select_records df options s :
  get_filter_options df = Returns options ->
  Text s ∈ tail (departments options) ->
  ∃ filtered,
    filter_data df YearNone s SemesterAll "All" = Ok filtered
    ∧ rows filtered ≠ []
    ∧ (s ≠ "All" -> ∀ r, r ∈ rows filtered -> col "department" r = Text s).
Proof.
  intros Hoptions Hs.
  assert (Hcol : has_column df "department" = true).
  { unfold get_filter_options in Hoptions.
    destruct (negb (has_column df "exam_year")); [discriminate|].
    by destruct (has_column df "department"). }
  destruct (departments_listed df options Hoptions) as (ds & Hds & _ & _ & Hvalues).
  rewrite Hds in Hs. simpl in Hs. apply Hvalues in Hs as [Hkeep Hin].
  apply list_elem_of_fmap in Hin as (r & Hr & Hin).
  assert (Hblank : s ≠ "").
  { intros ->. discriminate. }
  unfold filter_data, filter_year, filter_department, filter_subject, filter_semester.
  simpl. unfold filter_on. rewrite Hcol.
  rewrite (proj2 (String.eqb_neq s "") Hblank). simpl.
  destruct (String.eqb s "All") eqn:Hall; simpl.
  - exists df. split; [reflexivity|]. split.
    + intros Hnil. rewrite Hnil in Hin. by apply elem_of_nil in Hin.
    + apply String.eqb_eq in Hall. by intros.
  - eexists. split; [reflexivity|]. split.
    + simpl. intros Hnil.
      assert (Hkept : r ∈ List.filter
                        (fun r => bool_decide (eq_text (col "department" r) s = Some true))
                        (rows df)).
      { apply list_elem_of_In, filter_In. split; [by apply list_elem_of_In|].
        apply bool_decide_eq_true. rewrite <- Hr. simpl. by rewrite String.eqb_refl. }
      rewrite Hnil in Hkept. by apply elem_of_nil in Hkept.
    + intros _ r' Hr'. simpl in Hr'.
      apply list_elem_of_In, filter_In in Hr' as [_ Hr'].
      rewrite eq_text_selects in Hr'. by apply bool_decide_eq_true in Hr'.
Qed.


Example options_of_the_records_values :
  map (fun v => this <$> Order.num_key v) (tail (years (options_of Cases.records)))
  = [Some (2022 # 1)%Q; Some (2021 # 1)%Q; Some (2020 # 1)%Q]
  ∧ departments (options_of Cases.records) = [Text "All"; Text "CS"; Text "EE"]
  ∧ subjects (options_of Cases.records) = [Text "All"; Text "Algebra"; Text "Logic"].
Proof. repeat split; vm_compute; reflexivity. Qed.

(** The department EE of the six records. *)
Lemma department_EE_selects_a_record :
  ∃ filtered,
    filter_data Cases.records YearNone "EE" SemesterAll "All" = Ok filtered
    ∧ rows filtered ≠ []
    ∧ ("EE" ≠ "All" -> ∀ r, r ∈ rows filtered -> col "department" r = Text "EE").
Proof.
  apply (department_options_select_records Cases.records (options_of Cases.records) "EE").
  - vm_compute. reflexivity.
  - apply (bool_decide_unpack _). vm_compute. exact I.
Defined.

End OptionProps.

(** ** The department leaderboard *)

Module LeaderboardProps.
Import Frame Order Calculations Departments.
Import FrameFacts OrderFacts DifficultyFacts GroupingProps RankingProps.

Section WithCasts.
Context `{Casts}.

Lemma normed_departments rs :
  map (col "department") (Entities.normed rs) = map (col "department") rs.
Proof.
  unfold Entities.normed. rewrite map_map. apply map_ext. intros r.
  by rewrite col_insert_ne by done.
Qed.

Lemma groups_departments rs :
  map (col "department") (groups_in_row_order "department" department_row rs)
  = first_keys (map (col "department") rs).
Proof.
  unfold groups_in_row_order. rewrite map_map.
  rewrite <- (map_id (first_keys _)) at 2. apply map_ext. intros k.
  unfold department_row. apply col_insert_eq.
Qed.

(** What the aggregates are made of. *)
Lemma department_stats_rows df stats :
  get_department_stats df (Ok stats) ->
  listed stats ≡ₚ remove_dups (map (col "department") (rows df))
  ∧ NoDup (listed stats)
  ∧ ∀ r, r ∈ rows stats -> ∃ q, col "pass_rate" r = Num q.
Proof.
  inversion 1 as [|grouped s Hcols Hgroup (_ & Hperm & _)]; subst. simpl in Hperm.
  unfold group_by_outcome in Hgroup.
  assert (Hlisted : listed stats
                    ≡ₚ first_keys (map (col "department") (rows df))).
  { unfold listed. rewrite <- Hperm, <- Hgroup, groups_departments.
    by rewrite normed_departments. }
  split; [|split].
  - rewrite Hlisted. apply NoDup_Permutation;
      [apply NoDup_first_keys | apply NoDup_remove_dups |].
    intros k. by rewrite elem_of_first_keys, elem_of_remove_dups.
  - rewrite Hlisted. apply NoDup_first_keys.
  - intros r Hr. rewrite <- Hperm, <- Hgroup in Hr.
    unfold groups_in_row_order in Hr. apply list_elem_of_fmap in Hr as (k & -> & _).
    unfold department_row. rewrite !(col_insert_ne _ "pass_rate") by done.
    rewrite col_insert_eq. by eexists.
Qed.

Lemma board_parts df top_n top bottom combined :
  get_department_leaderboard df top_n (Ok (Board top bottom combined)) ->
  ∃ stats descending ascending,
    get_department_stats df (Ok stats)
    ∧ height stats ≠ 0
    ∧ sort_outcome "pass_rate" true stats descending
    ∧ sort_outcome "pass_rate" false stats ascending
    ∧ top = labelled "Top" (head top_n descending)
    ∧ bottom = labelled "Bottom" (head top_n ascending)
    ∧ sort_outcome "pass_rate" false (concat bottom top) combined.
Proof.
  inversion 1 as [| |stats descending ascending c Hstats Hheight Hdesc Hasc Hcombined];
    subst.
  by exists stats, descending, ascending.
Qed.

Lemma labelled_rows category df :
  rows (labelled category df) = map (fun r => <["category" := Text category]> r) (rows df).
Proof. reflexivity. Qed.

Lemma labelled_col category df c :
  c ≠ "category" ->
  map (col c) (rows (labelled category df)) = map (col c) (rows df).
Proof.
  intros Hc. rewrite labelled_rows, map_map. apply map_ext. intros r.
  by rewrite col_insert_ne by done.
Qed.

Lemma head_rows_split {A} n (l : list A) : ∃ rest, l = head_rows n l ++ rest.
Proof.
  unfold head_rows. destruct (0 <=? n)%Z; eexists; symmetry; apply take_drop.
Qed.

(** One side of the board: the first rows of a sorted order of the
    aggregates come before every department that is left out. *)
Lemma head_is_extreme descending category n stats sorted a b :
  NoDup (listed stats) ->
  sort_outcome "pass_rate" descending stats sorted ->
  a ∈ rows (labelled category (head n sorted)) ->
  b ∈ rows stats ->
  col "department" b ∉ listed (labelled category (head n sorted)) ->
  ∃ a0, a0 ∈ rows sorted
        ∧ col "pass_rate" a = col "pass_rate" a0
        ∧ row_le "pass_rate" descending a0 b.
Proof.
  intros Hnodup (_ & Hperm & Hsorted) Ha Hb Hout.
  rewrite labelled_rows in Ha. apply list_elem_of_fmap in Ha as (a0 & -> & Ha0).
  simpl in Ha0. unfold listed in Hout. rewrite labelled_col in Hout by done.
  simpl in Hout.
  destruct (head_rows_split n (rows sorted)) as [rest Hsplit].
  exists a0. split; [|split].
  - rewrite Hsplit. apply elem_of_app. by left.
  - by rewrite col_insert_ne by done.
  - rewrite Hsplit in Hsorted. eapply StronglySorted_app_1_elem_of; [exact Hsorted|exact Ha0|].
    rewrite Hperm, Hsplit in Hb. apply elem_of_app in Hb as [Hb | Hb]; [|assumption].
    exfalso. apply Hout. by apply list_elem_of_fmap_2.
Qed.

Lemma labelled_sorted descending category df :
  StronglySorted (row_le "pass_rate" descending) (rows df) ->
  StronglySorted (row_le "pass_rate" descending) (rows (labelled category df)).
Proof.
  intros Hsorted. rewrite labelled_rows.
  apply (StronglySorted_fmap _ (row_le "pass_rate" descending)); [|assumption].
  intros x y Hxy. unfold row_le in *. by rewrite !col_insert_ne by done.
Qed.

Lemma head_sorted descending n df :
  StronglySorted (row_le "pass_rate" descending) (rows df) ->
  StronglySorted (row_le "pass_rate" descending) (rows (head n df)).
Proof.
  intros Hsorted. simpl. destruct (head_rows_split n (rows df)) as [rest Hsplit].
  rewrite Hsplit in Hsorted. by apply StronglySorted_app_1_l in Hsorted.
Qed.

Lemma labelled_category category df :
  Forall (fun r => col "category" r = Text category) (rows (labelled category df)).
Proof.
  rewrite labelled_rows. apply Forall_fmap, Forall_forall. intros r _.
  apply col_insert_eq.
Qed.

(** X24. The leaderboard ranks by pass rate.  The departments listed
    as "Top" have a pass rate at least as high as every department
    that is not listed there, and come with the highest first; those
    listed as "Bottom" have a pass rate at most as high as every
    department not listed there, the lowest first; and the combined
    table holds the rows of both, by ascending pass rate. *)
Theorem leaderboard_ranks_by_pass_rate df top_n top bottom combined :
  get_department_leaderboard df top_n (Ok (Board top bottom combined)) ->
  ∃ stats,
    get_department_stats df (Ok stats)
    ∧ (∀ a b, a ∈ rows top -> b ∈ rows stats -> col "department" b ∉ listed top ->
              row_le "pass_rate" false b a)
    ∧ (∀ a b, a ∈ rows bottom -> b ∈ rows stats -> col "department" b ∉ listed bottom ->
              row_le "pass_rate" false a b)
    ∧ StronglySorted (row_le "pass_rate" true) (rows top)
    ∧ StronglySorted (row_le "pass_rate" false) (rows bottom)
    ∧ Forall (fun r => col "category" r = Text "Top") (rows top)
    ∧ Forall (fun r => col "category" r = Text "Bottom") (rows bottom)
    ∧ rows bottom ++ rows top ≡ₚ rows combined
    ∧ StronglySorted (row_le "pass_rate" false) (rows combined).
Proof.
  intros Hboard.
  apply board_parts in Hboard
    as (stats & descending & ascending & Hstats & _ & Hdesc & Hasc & -> & -> & Hcombined).
  destruct (department_stats_rows df stats Hstats) as (_ & Hnodup & Hrates).
  exists stats. split; [assumption|]. split; [|split].
  - intros a b Ha Hb Hout.
    destruct (head_is_extreme true "Top" top_n stats descending a b Hnodup Hdesc Ha Hb Hout)
      as (a0 & Ha0 & Hrate & Hle).
    destruct Hdesc as (_ & Hperm & _). rewrite <- Hperm in Ha0.
    destruct (Hrates a0 Ha0) as [qa Hqa], (Hrates b Hb) as [qb Hqb].
    unfold row_le, cell_le in *. rewrite Hrate. by rewrite Hqa, Hqb in *.
  - intros a b Ha Hb Hout.
    destruct (head_is_extreme false "Bottom" top_n stats ascending a b Hnodup Hasc Ha Hb Hout)
      as (a0 & Ha0 & Hrate & Hle).
    unfold row_le in *. by rewrite Hrate.
  - destruct Hdesc as (_ & _ & Hsorted_desc), Hasc as (_ & _ & Hsorted_asc).
    destruct Hcombined as (_ & Hperm & Hsorted).
    split; [by apply labelled_sorted, head_sorted|].
    split; [by apply labelled_sorted, head_sorted|].
    split; [apply labelled_category|]. split; [apply labelled_category|].
    by split.
Qed.

Lemma head_rows_nat {A} n (l : list A) :
  (0 <= n)%Z -> head_rows n l = take (Z.to_nat n) l.
Proof. intros Hn. unfold head_rows. by rewrite (proj2 (Z.leb_le 0 n) Hn). Qed.

Lemma side_departments category n stats sorted descending :
  (0 <= n)%Z ->
  NoDup (listed stats) ->
  sort_outcome "pass_rate" descending stats sorted ->
  NoDup (listed (labelled category (head n sorted)))
  ∧ length (listed (labelled category (head n sorted)))
    = Z.to_nat n `min` length (listed stats)
  ∧ ∀ d, d ∈ listed (labelled category (head n sorted)) -> d ∈ listed stats.
Proof.
  intros Hn Hnodup (_ & Hperm & _). unfold listed.
  rewrite labelled_col by done. simpl. rewrite head_rows_nat by assumption.
  assert (Hsub : sublist (map (col "department") (take (Z.to_nat n) (rows sorted)))
                   (map (col "department") (rows sorted))).
  { apply (fmap_sublist (col "department")), sublist_take. }
  assert (Hsorted : NoDup (map (col "department") (rows sorted))).
  { by rewrite <- Hperm. }
  split; [|split].
  - by eapply sublist_NoDup.
  - rewrite !length_map, length_take. by rewrite (Permutation_length Hperm).
  - intros d Hd. rewrite Hperm. by eapply elem_of_sublist.
Qed.

(** X25. The two sides of the leaderboard overlap when there are few
    departments.  For a limit that is not negative each side lists
    min(limit, number of departments) departments, none twice, and the
    combined table has twice as many rows; when the frame has fewer
    than twice [top_n] departments, some department is listed both as
    "Top" and as "Bottom" and comes twice in the combined table. *)
Theorem leaderboard_sides_overlap df top_n top bottom combined :
  (0 <= top_n)%Z ->
  get_department_leaderboard df top_n (Ok (Board top bottom combined)) ->
  0 < length (remove_dups (map (col "department") (rows df)))
  ∧ height top
    = Z.to_nat top_n `min` length (remove_dups (map (col "department") (rows df)))
  ∧ height bottom = height top
  ∧ height combined = 2 * height top
  ∧ NoDup (listed top) ∧ NoDup (listed bottom)
  ∧ (length (remove_dups (map (col "department") (rows df))) < 2 * Z.to_nat top_n ->
     ∃ d, d ∈ listed top ∧ d ∈ listed bottom).
Proof.
  intros Hn Hboard.
  apply board_parts in Hboard
    as (stats & descending & ascending & Hstats & Hheight & Hdesc & Hasc & -> & ->
        & Hcombined).
  destruct (department_stats_rows df stats Hstats) as (Hlisted & Hnodup & _).
  destruct (side_departments "Top" top_n stats descending true Hn Hnodup Hdesc)
    as (Htop & Htop_len & Htop_in).
  destruct (side_departments "Bottom" top_n stats ascending false Hn Hnodup Hasc)
    as (Hbottom & Hbottom_len & Hbottom_in).
  set (top := labelled "Top" (head top_n descending)) in *.
  set (bottom := labelled "Bottom" (head top_n ascending)) in *.
  set (k := length (remove_dups (map (col "department") (rows df)))).
  assert (Hk : length (listed stats) = k) by (by rewrite Hlisted).
  assert (Hstats_len : height stats = k).
  { rewrite <- Hk. unfold listed, height. by rewrite length_map. }
  assert (Htop_height : height top = length (listed top)).
  { unfold listed, height. by rewrite length_map. }
  assert (Hbottom_height : height bottom = length (listed bottom)).
  { unfold listed, height. by rewrite length_map. }
  rewrite Hk in Htop_len, Hbottom_len.
  split; [lia|]. split; [lia|]. split; [lia|]. split.
  { destruct Hcombined as (_ & Hperm & _). unfold height in *.
    rewrite <- (Permutation_length Hperm).
    change (rows (concat bottom top)) with (rows bottom ++ rows top).
    rewrite length_app. lia. }
  split; [assumption|]. split; [assumption|].
  intros Hfew.
  destruct (decide (Exists (fun d => d ∈ listed bottom) (listed top))) as [Hex | Hnone].
  { apply Exists_exists in Hex as (d & Hd & Hd'). by exists d. }
  exfalso. apply not_Exists_Forall in Hnone; [|intros d; apply _].
  assert (Hdisjoint : NoDup (listed top ++ listed bottom)).
  { apply NoDup_app. split; [assumption|]. split; [|assumption].
    intros d Hd. by apply (proj1 (Forall_forall _ _) Hnone). }
  assert (Hsub : listed top ++ listed bottom ⊆+ listed stats).
  { apply NoDup_submseteq; [assumption|]. intros d Hd.
    apply elem_of_app in Hd as [Hd | Hd]; [by apply Htop_in | by apply Hbottom_in]. }
  apply submseteq_length in Hsub. rewrite length_app, Hk in Hsub. lia.
Qed.

End WithCasts.

Lemma three_board_is_permitted :
  get_department_leaderboard (H := Decimal.casts) three_departments 2
    (Ok (Board three_top three_bottom three_combined)).
Proof.
  apply (board_full (H := Decimal.casts) three_departments 2 three_ascending
           three_descending three_ascending).
  - apply (stats_sorted (H := Decimal.casts) three_departments three_stats).
    + vm_compute. reflexivity.
    + unfold group_by_outcome. reflexivity.
    + split; [reflexivity|]. split; simpl.
      * by rewrite merge_sort_Permutation.
      * apply Sorted_StronglySorted; [apply _|]. apply Sorted_merge_sort. apply _.
  - vm_compute. lia.
  - split; [reflexivity|]. split; simpl.
    + by rewrite !merge_sort_Permutation.
    + apply Sorted_StronglySorted; [apply _|]. apply Sorted_merge_sort. apply _.
  - split; [reflexivity|]. split; simpl.
    + reflexivity.
    + apply Sorted_StronglySorted; [apply _|]. apply Sorted_merge_sort. apply _.
  - split; [reflexivity|]. split.
    + cbn [rows three_combined]. by rewrite merge_sort_Permutation.
    + apply Sorted_StronglySorted; [apply _|]. apply Sorted_merge_sort. apply _.
Qed.

(** The board of the three departments, the two best and the two
    worst. *)
Lemma three_departments_ranked :
  ∃ stats,
    get_department_stats (H := Decimal.casts) three_departments (Ok stats)
    ∧ (∀ a b, a ∈ rows three_top -> b ∈ rows stats ->
              col "department" b ∉ listed three_top -> row_le "pass_rate" false b a)
    ∧ (∀ a b, a ∈ rows three_bottom -> b ∈ rows stats ->
              col "department" b ∉ listed three_bottom -> row_le "pass_rate" false a b)
    ∧ StronglySorted (row_le "pass_rate" true) (rows three_top)
    ∧ StronglySorted (row_le "pass_rate" false) (rows three_bottom)
    ∧ Forall (fun r => col "category" r = Text "Top") (rows three_top)
    ∧ Forall (fun r => col "category" r = Text "Bottom") (rows three_bottom)
    ∧ rows three_bottom ++ rows three_top ≡ₚ rows three_combined
    ∧ StronglySorted (row_le "pass_rate" false) (rows three_combined).
Proof.
  apply (leaderboard_ranks_by_pass_rate (H := Decimal.casts) three_departments 2).
  apply three_board_is_permitted.
Defined.

Lemma three_departments_overlap :
  0 < length (remove_dups (map (col "department") (rows three_departments)))
  ∧ height three_top
    = Z.to_nat 2 `min` length (remove_dups (map (col "department") (rows three_departments)))
  ∧ height three_bottom = height three_top
  ∧ height three_combined = 2 * height three_top
  ∧ NoDup (listed three_top) ∧ NoDup (listed three_bottom)
  ∧ (length (remove_dups (map (col "department") (rows three_departments)))
     < 2 * Z.to_nat 2 ->
     ∃ d, d ∈ listed three_top ∧ d ∈ listed three_bottom).
Proof.
  apply (leaderboard_sides_overlap (H := Decimal.casts) three_departments 2).
  - lia.
  - apply three_board_is_permitted.
Defined.

Example three_departments_board :
  listed three_top = [Text "EE"; Text "CS"]
  ∧ listed three_bottom = [Text "ME"; Text "CS"]
  ∧ map (fun r => (col "department" r, col "category" r)) (rows three_combined)
    = [(Text "ME", Text "Bottom"); (Text "CS", Text "Bottom"); (Text "CS", Text "Top");
       (Text "EE", Text "Top")].
Proof. repeat split; vm_compute; reflexivity. Qed.

End LeaderboardProps.

(** ** The overall indicators *)

Module KpiProps.
Import Frame Filtering Calculations Rounding Selection Kpis.
Import FrameFacts RoundingFacts FilterProps RateProps.

Lemma Qcle_of_Z (q : Qc) (z : Z) : (q ≤ Qc_of_Z z)%Qc <-> (Qnum q <= z * Zpos (Qden q))%Z.
Proof. unfold Qcle, Qle. simpl. by rewrite Z.mul_1_r. Qed.

Lemma Qcge_of_Z (q : Qc) (z : Z) : (Qc_of_Z z ≤ q)%Qc <-> (z * Zpos (Qden q) <= Qnum q)%Z.
Proof. unfold Qcle, Qle. simpl. by rewrite Z.mul_1_r. Qed.

(** Rounding to an integer stays between two integers. *)
Lemma round_half_even_bounds (q : Qc) (lo hi : Z) :
  (Qc_of_Z lo ≤ q)%Qc -> (q ≤ Qc_of_Z hi)%Qc ->
  (lo <= round_half_even q <= hi)%Z.
Proof.
  rewrite Qcle_of_Z, Qcge_of_Z. unfold round_half_even.
  set (n := Qnum q). set (d := Zpos (Qden q)). intros Hlo Hhi.
  assert (Hd : (0 < d)%Z) by (unfold d; lia).
  pose proof (Z.div_mod n d ltac:(lia)) as Hdiv.
  pose proof (Z.mod_pos_bound n d Hd) as Hmod.
  assert (Hfloor_lo : (lo <= n / d)%Z) by (apply Z.div_le_lower_bound; lia).
  assert (Hfloor_hi : (n / d <= hi)%Z) by (apply Z.div_le_upper_bound; lia).
  destruct (2 * (n mod d) ?= d)%Z eqn:Hcmp.
  - apply Z.compare_eq in Hcmp. destruct (Z.even (n / d)); [lia|]. nia.
  - lia.
  - apply Z.compare_gt_iff in Hcmp. nia.
Qed.

Lemma round2_percentage q :
  (0 ≤ q)%Qc -> (q ≤ Qc_of_Z 100)%Qc ->
  (0 ≤ round2 q)%Qc ∧ (round2 q ≤ Qc_of_Z 100)%Qc.
Proof.
  intros Hlo Hhi. unfold round2.
  assert (H100 : (0 < Qc_of_Z 100)%Qc).
  { rewrite <- Z2Qc_inj_0. by apply (proj1 (Z2Qc_inj_lt _ _)). }
  destruct (round_half_even_bounds (q * Qc_of_Z 100) 0 10000) as [Hz_lo Hz_hi].
  - rewrite Z2Qc_inj_0. apply Qcmult_nonneg_nonneg; [assumption|].
    by apply Qclt_le_weak.
  - replace (Qc_of_Z 10000) with (Qc_of_Z 100 * Qc_of_Z 100)%Qc
      by (rewrite <- Z2Qc_inj_mul; reflexivity).
    by apply Qcmult_le_compat_r; [|apply Qclt_le_weak].
  - set (z := round_half_even (q * Qc_of_Z 100)) in *.
    apply (proj1 (Z2Qc_inj_le _ _)) in Hz_lo, Hz_hi. rewrite Z2Qc_inj_0 in Hz_lo.
    split.
    + unfold Qcdiv. apply Qcmult_nonneg_nonneg; [assumption|].
      by apply Qclt_le_weak, Qcinv_pos.
    + apply (Qcmult_le_mono_pos_r _ _ (Qc_of_Z 100) H100).
      replace (Qc_of_Z z / Qc_of_Z 100 * Qc_of_Z 100)%Qc with (Qc_of_Z z)
        by (field; apply hundred_nonzero).
      replace (Qc_of_Z 100 * Qc_of_Z 100)%Qc with (Qc_of_Z 10000)
        by (rewrite <- Z2Qc_inj_mul; reflexivity).
      assumption.
Qed.

Lemma round2_zero : round2 0%Qc = 0%Qc.
Proof. apply Qc_is_canon. reflexivity. Qed.

Section WithCasts.
Context `{Casts}.

(** A successful pass through the two filters keeps the records they
    select. *)
Lemma kpi_filters_keep df year department filtered :
  bind (filter_kpi_year year df) (filter_kpi_department department) = Ok filtered ->
  filtered = keep (kpi_selects year department) df.
Proof.
  unfold filter_kpi_year, filter_kpi_department, kpi_selects, filter_on.
  assert (Hyear : ∀ y, keep (fun r => bool_decide
                                (eq_num (col "exam_year" r) (Qc_of_Z y) = Some true)) df
                       = keep (fun r => bool_decide (col "exam_year" r = Num (Qc_of_Z y))) df).
  { intros y. apply keep_ext. intros r. apply eq_num_selects. }
  assert (Hdept : ∀ d df', keep (fun r => bool_decide
                                   (eq_text (col "department" r) d = Some true)) df'
                           = keep (fun r => bool_decide (col "department" r = Text d)) df').
  { intros d df'. apply keep_ext. intros r. apply eq_text_selects. }
  destruct year as [y|]; [destruct (y =? 0)%Z|];
    destruct department as [d|]; try destruct (String.eqb d ""); simpl;
    repeat match goal with
           | |- context [has_column ?f ?c] =>
               destruct (has_column f c); simpl; [|discriminate]
           end;
    intros [= <-]; rewrite ?filter_rows_keep, ?Hdept, ?Hyear, ?keep_keep;
    try (symmetry; apply keep_all); try reflexivity;
    apply keep_ext; intros r; by rewrite ?andb_true_r.
Qed.

(** The filters succeed on a frame that has the two columns. *)
Lemma kpi_filters_succeed df year department :
  has_column df "exam_year" = true -> has_column df "department" = true ->
  ∃ filtered,
    bind (filter_kpi_year year df) (filter_kpi_department department) = Ok filtered.
Proof.
  intros Hyear Hdept.
  unfold filter_kpi_year, filter_kpi_department, filter_on, has_column in *.
  destruct year as [y|]; [destruct (y =? 0)%Z|];
    destruct department as [d|]; try destruct (String.eqb d ""); simpl;
    rewrite ?Hyear; simpl; rewrite ?Hdept; by eexists.
Qed.

(** X26. The overall indicators of a selection without records are
    all 0, and the route reports success: on a frame that has the
    exam_year and department columns (the years numbers, the
    departments texts), a year or a department that no record has
    gives a success with pass, fail and distinction rates of 0, 0
    students and 0 exams, whatever other columns the frame has or
    lacks. *)
Theorem kpis_of_no_records df year department :
  has_column df "exam_year" = true ->
  has_column df "department" = true ->
  holds_numbers "exam_year" df = true ->
  holds_texts "department" df = true ->
  List.filter (kpi_selects year department) (rows df) = [] ->
  get_overall_kpis (Ok df) year department = Success (mkKpi 0%Qc 0%Qc 0%Qc 0 0).
Proof.
  intros Hyear Hdept _ _ Hnone. unfold get_overall_kpis. simpl.
  destruct (kpi_filters_succeed df year department Hyear Hdept) as [filtered Hok].
  rewrite Hok. apply kpi_filters_keep in Hok. subst filtered.
  unfold calculate_rates, height, keep. simpl. rewrite Hnone. simpl.
  by rewrite round2_zero.
Qed.

(** X27. The overall indicators the route returns are consistent:
    the frame was served, the number of exams is the number of records
    the year and the department select (no year, the year 0, no
    department and the empty department selecting all), the students
    counted are at most as many, and the three rates, rounded to two
    decimals, still lie between 0 and 100. *)
Theorem kpis_are_percentages served year department data :
  get_overall_kpis served year department = Success data ->
  ∃ df,
    served = Ok df
    ∧ total_exams data = length (List.filter (kpi_selects year department) (rows df))
    ∧ unique_students data <= total_exams data
    ∧ (0 ≤ pass_rate data)%Qc ∧ (pass_rate data ≤ Qc_of_Z 100)%Qc
    ∧ (0 ≤ fail_rate data)%Qc ∧ (fail_rate data ≤ Qc_of_Z 100)%Qc
    ∧ (0 ≤ distinction_rate data)%Qc ∧ (distinction_rate data ≤ Qc_of_Z 100)%Qc.
Proof.
  unfold get_overall_kpis. destruct served as [df|e]; [|discriminate]. simpl.
  destruct (bind (filter_kpi_year year df) (filter_kpi_department department))
    as [filtered|] eqn:Hfiltered; [|discriminate].
  apply kpi_filters_keep in Hfiltered. subst filtered.
  destruct (calculate_rates _) as [rs|] eqn:Hrates; [|discriminate].
  intros [= <-]. exists df. split; [reflexivity|]. simpl.
  assert (H100 : (0 ≤ Qc_of_Z 100)%Qc) by apply hundred_nonneg.
  apply calculate_rates_Ok in Hrates as [[Hempty ->] | [Hpos ->]]; simpl.
  - unfold height, keep in Hempty. simpl in Hempty. rewrite Hempty, round2_zero.
    repeat split; done.
  - unfold height, keep in *. simpl in *.
    split; [reflexivity|]. split; [apply n_unique_le|].
    repeat split;
      apply round2_percentage;
      first [by apply rate_nonneg | apply rate_le_100; [assumption | apply count_true_le]].
Qed.

End WithCasts.

(** The six records have no record of the department ME. *)
Lemma kpis_of_an_unknown_department :
  get_overall_kpis (H := Decimal.casts) (Ok Cases.records) None (Some "ME")
  = Success (mkKpi 0%Qc 0%Qc 0%Qc 0 0).
Proof.
  apply (kpis_of_no_records (H := Decimal.casts) Cases.records None (Some "ME"));
    vm_compute; reflexivity.
Defined.

(** The department CS in 2021: one record passed, one failed. *)
Lemma kpis_of_cs_2021 :
  ∃ df,
    Ok Cases.records = Ok df
    ∧ total_exams cs_2021
      = length (List.filter (kpi_selects (Some 2021%Z) (Some "CS")) (rows df))
    ∧ unique_students cs_2021 <= total_exams cs_2021
    ∧ (0 ≤ pass_rate cs_2021)%Qc ∧ (pass_rate cs_2021 ≤ Qc_of_Z 100)%Qc
    ∧ (0 ≤ fail_rate cs_2021)%Qc ∧ (fail_rate cs_2021 ≤ Qc_of_Z 100)%Qc
    ∧ (0 ≤ distinction_rate cs_2021)%Qc ∧ (distinction_rate cs_2021 ≤ Qc_of_Z 100)%Qc.
Proof.
  apply (kpis_are_percentages (H := Decimal.casts) (Ok Cases.records) (Some 2021%Z)
           (Some "CS") cs_2021).
  vm_compute. reflexivity.
Defined.

Example kpis_of_cs_2021_values :
  map this [pass_rate cs_2021; fail_rate cs_2021; distinction_rate cs_2021]
  = [50%Q; 50%Q; 0%Q]
  ∧ unique_students cs_2021 = 2 ∧ total_exams cs_2021 = 2.
Proof. repeat split; vm_compute; reflexivity. Qed.

End KpiProps.
